(** * Primer location, dataset validation and trial loss of the DNA read filter

    A shallow embedding of the read-filtering pipeline
    (config.py, helper_functions.py, search_functions.py,
    main_sequence_filtering.py, naive_dna_sequence_filter.py and
    score_comparison of learning_helper_functions.py).

    Conventions of the embedding:
    - Python [str] and Biopython [Seq] values are [string]; where the two
      differ ([rstrip]: [Seq] strips bytes) each has its own function;
    - Python [int] is [Z]; Python [float] is modelled by exact rationals
      [Q], so what is stated of a float is stated of its exact value;
    - an exception is a value of [exn]; code that may raise returns [result];
    - writes to the two output streams and to the debug stream are recorded
      in [Outputs], threaded by the monad [M];
    - Biopython's [PairwiseAligner.align] and the content of the reference
      dataset file are oracles, variables of the section [Pipeline]. *)

From Stdlib Require Import ZArith QArith List String Ascii Bool Lia Lqa
  Permutation.
Import ListNotations.

Local Open Scope string_scope.
Local Open Scope list_scope.
Local Open Scope Z_scope.

(** ** Python values *)

Module Py.

Inductive exn : Type :=
| IndexError
| KeyError
| AssertionError
| ZeroDivisionError.

Definition result (A : Type) : Type := (exn + A)%type.

Definition ok {A : Type} (a : A) : result A := inr a.
Definition raise {A : Type} (e : exn) : result A := inl e.

Definition rbind {A B : Type} (r : result A) (k : A -> result B) : result B :=
  match r with
  | inl e => inl e
  | inr a => k a
  end.

(** [len(s)] *)
Definition len (s : string) : Z := Z.of_nat (String.length s).

(** How a slice bound is normalised against a sequence of length [n]:
    a negative bound counts from the end, and both are clamped to [0..n]. *)
Definition clamp_index (n i : Z) : Z :=
  if i <? 0 then Z.max (i + n) 0 else Z.min i n.

(** [s[lo:hi]]; never raises. *)
Definition slice (s : string) (lo hi : Z) : string :=
  let n := len s in
  let lo' := clamp_index n lo in
  let hi' := clamp_index n hi in
  if lo' <? hi'
  then substring (Z.to_nat lo') (Z.to_nat (hi' - lo')) s
  else "".

(** [s[:hi]] *)
Definition slice_to (s : string) (hi : Z) : string := slice s 0 hi.

(** [s.find(sub)]: lowest index of an occurrence, [-1] when there is none. *)
Definition find (s sub : string) : Z :=
  match index 0 sub s with
  | Some i => Z.of_nat i
  | None => -1
  end.

(** [s.endswith(suffix)] *)
Definition endswith (s suffix : string) : bool :=
  let n := String.length s in
  let m := String.length suffix in
  if (m <=? n)%nat then String.eqb (substring (n - m) m s) suffix else false.

(** Whitespace of [str.strip] on ASCII text. *)
Definition isspace (c : ascii) : bool :=
  let n := nat_of_ascii c in
  ((9 <=? n)%nat && (n <=? 13)%nat) || ((28 <=? n)%nat && (n <=? 32)%nat).

Fixpoint lstrip (s : string) : string :=
  match s with
  | EmptyString => EmptyString
  | String c s' => if isspace c then lstrip s' else s
  end.

Fixpoint rstrip (s : string) : string :=
  match s with
  | EmptyString => EmptyString
  | String c s' =>
      match rstrip s' with
      | EmptyString => if isspace c then EmptyString else String c EmptyString
      | r => String c r
      end
  end.

Definition strip (s : string) : string := lstrip (rstrip s).

(** Whitespace of [bytes.rstrip]: tab, newline, vertical tab, form feed,
    carriage return and space. *)
Definition bytes_isspace (c : ascii) : bool :=
  let n := nat_of_ascii c in
  ((9 <=? n)%nat && (n <=? 13)%nat) || (n =? 32)%nat.

(** [Seq.rstrip()] of Biopython, which strips the bytes of the sequence
    with [bytes.rstrip]. *)
Fixpoint Seq_rstrip (s : string) : string :=
  match s with
  | EmptyString => EmptyString
  | String c s' =>
      match Seq_rstrip s' with
      | EmptyString =>
          if bytes_isspace c then EmptyString else String c EmptyString
      | r => String c r
      end
  end.

(** [s[::-1]] *)
Definition reversed (s : string) : string :=
  string_of_list_ascii (rev (list_ascii_of_string s)).

(** [ord(c)] *)
Definition ord (c : ascii) : Z := Z.of_nat (nat_of_ascii c).

(** [xs[0]] *)
Definition first {A : Type} (xs : list A) : result A :=
  match xs with
  | [] => raise IndexError
  | x :: _ => ok x
  end.

(** [xs[-1]] *)
Definition last {A : Type} (xs : list A) : result A :=
  match rev xs with
  | [] => raise IndexError
  | x :: _ => ok x
  end.

(** A [dict] with string keys, in insertion order: assigning to a key
    that is present replaces its value in place. *)
Fixpoint dict_set {V : Type} (d : list (string * V)) (k : string) (v : V)
  : list (string * V) :=
  match d with
  | [] => [(k, v)]
  | (k', v') :: d' =>
      if String.eqb k' k then (k, v) :: d' else (k', v') :: dict_set d' k v
  end.

Definition dict_of_pairs {V : Type} (kvs : list (string * V))
  : list (string * V) :=
  fold_left (fun d kv => dict_set d (fst kv) (snd kv)) kvs [].

Definition keys {V : Type} (d : list (string * V)) : list string :=
  map fst d.

End Py.

Import Py.

(** ** config.py *)

Record Primers : Type := mkPrimers {
  front : string;
  back : string
}.

Record Config : Type := mkConfig {
  INDEX_LEN : Z;
  LIB_LENGTH : Z;
  PRIMERS : Primers;
  MACHINE_LEARNING_MODE : bool;
  DEBUG_MODE : bool
}.

Definition FRONT_PRIMER : string := "TCGTCGGCAGCGTCAGATGTGTATAAGAGACAG".
Definition BACK_PRIMER : string := "CTGTCTCTTATACACATCTCCGAGCCCACGAGAC".

Record Scores : Type := mkScores {
  s_match_score : Q;
  s_mismatch_score : Q;
  s_open_gap_score : Q;
  s_extend_gap_score : Q
}.

Definition DEFAULT_SCORES : Scores :=
  {| s_match_score := 4254276492 # 1000000000;
     s_mismatch_score := - (3515462288 # 1000000000);
     s_open_gap_score := - (4032420994 # 1000000000);
     s_extend_gap_score := - (2999836807 # 1000000000) |}.

(** The configuration as config.py sets it. *)
Definition config_py : Config :=
  {| INDEX_LEN := 12;
     LIB_LENGTH := 140;
     PRIMERS := {| front := FRONT_PRIMER; back := BACK_PRIMER |};
     MACHINE_LEARNING_MODE := true;
     DEBUG_MODE := true |}.

(** ** Alignments and the aligner object *)

Inductive Mode : Type := Local | Global.

Record PairwiseAligner : Type := mkAligner {
  mode : Mode;
  match_score : Q;
  mismatch_score : Q;
  open_gap_score : Q;
  extend_gap_score : Q
}.

(** An alignment: its score and [aligned[0]], the aligned blocks
    [(start, end)] in the first (target) sequence. *)
Record Alignment : Type := mkAlignment {
  score : Q;
  aligned0 : list (Z * Z)
}.

Record ValidAlignments : Type := mkValid {
  va_front : list Alignment;
  va_back : list Alignment
}.

Record CompareParams : Type := mkCompare {
  cp_aligner : PairwiseAligner;
  cp_min_valid_score : Q
}.

Inductive MatchResult : Type :=
| FOUND_VALID_MATCH
| FOUND_INVALID_MATCH
| NO_MATCH_FOUND.

Definition MatchResult_eqb (a b : MatchResult) : bool :=
  match a, b with
  | FOUND_VALID_MATCH, FOUND_VALID_MATCH => true
  | FOUND_INVALID_MATCH, FOUND_INVALID_MATCH => true
  | NO_MATCH_FOUND, NO_MATCH_FOUND => true
  | _, _ => false
  end.

(** ** Output streams *)

(** What the code writes to the debug file, with the interpolated values. *)
Inductive DebugMsg : Type :=
| DbgStartOfFile (file_index : Z)
| DbgIndex (data_set_seq_index : string) (alignment_idx : Alignment) (min_valid : Q)
| DbgFull (sequence data_set_seq : string) (alignment_seq : Alignment) (min_valid : Q)
| DbgNoValidSequence
| DbgFilteredOut (filtered_out_count seq_count : Z)
| DbgEndOfFile (file_index : Z).

Record Outputs : Type := mkOutputs {
  wo_primers : list string;
  with_primers : list string;
  debug_file : list DebugMsg
}.

Definition no_outputs : Outputs :=
  {| wo_primers := []; with_primers := []; debug_file := [] |}.

(** State (the streams) and exceptions. *)
Definition M (A : Type) : Type := Outputs -> result A * Outputs.

Definition ret {A : Type} (a : A) : M A := fun o => (ok a, o).

Definition bind {A B : Type} (m : M A) (k : A -> M B) : M B :=
  fun o =>
    match m o with
    | (inl e, o') => (inl e, o')
    | (inr a, o') => k a o'
    end.

Definition lift {A : Type} (r : result A) : M A := fun o => (r, o).

Notation "x <- m ;; k" := (bind m (fun x => k))
  (at level 61, m at next level, right associativity).
Notation "' pat <- m ;; k" := (bind m (fun x => match x with pat => k end))
  (at level 61, pat pattern, m at next level, right associativity).
Notation "m ;;; k" := (bind m (fun _ => k))
  (at level 61, right associativity).

Definition write_wo_primers (line : string) : M unit :=
  fun o => (ok tt, {| wo_primers := wo_primers o ++ [line];
                      with_primers := with_primers o;
                      debug_file := debug_file o |}).

Definition write_with_primers (line : string) : M unit :=
  fun o => (ok tt, {| wo_primers := wo_primers o;
                      with_primers := with_primers o ++ [line];
                      debug_file := debug_file o |}).

Definition write_debug (msg : DebugMsg) : M unit :=
  fun o => (ok tt, {| wo_primers := wo_primers o;
                      with_primers := with_primers o;
                      debug_file := debug_file o ++ [msg] |}).

Definition when (b : bool) (m : M unit) : M unit := if b then m else ret tt.

Definition newline : string := String (ascii_of_nat 10) EmptyString.

(** ** helper_functions.py *)

(** [xs[0], xs[2], xs[4], ...]: the lines kept by [if i % 2 == 0]. *)
Fixpoint even_indexed {A : Type} (xs : list A) : list A :=
  match xs with
  | [] => []
  | x :: rest =>
      x :: match rest with
           | [] => []
           | _ :: rest' => even_indexed rest'
           end
  end.

Definition sum_Z (xs : list Z) : Z := fold_left Z.add xs 0.

(** The second loop of [read_FASTQ_file]: [i_even] is [i % 2 == 0]. *)
Fixpoint parse_seq_data (seq_data : list string) (i_even empty_seq : bool)
         (seq : list string) (ascii_scores : list Q)
  : result (list string * list Q) :=
  match seq_data with
  | [] => ok (seq, ascii_scores)
  | data :: rest =>
      if i_even then
        if len data =? 0
        then parse_seq_data rest false true seq ascii_scores
        else parse_seq_data rest false empty_seq (seq ++ [data]) ascii_scores
      else
        if empty_seq
        then parse_seq_data rest true false seq ascii_scores
        else
          let scores := map (fun char => ord char - 33) (list_ascii_of_string data) in
          if Z.of_nat (List.length scores) =? 0
          then raise ZeroDivisionError
          else
            let avg := (inject_Z (sum_Z scores)
                        / inject_Z (Z.of_nat (List.length scores)))%Q in
            parse_seq_data rest true empty_seq seq (ascii_scores ++ [avg])
  end.

(** [read_FASTQ_file], on the list of lines [FASTQ.readlines()] returns. *)
Definition read_FASTQ_file (fastq_lines : list string)
  : result (list (string * Q) * Z) :=
  let lines := tl fastq_lines in
  let seq_data := map strip (even_indexed lines) in
  rbind (parse_seq_data seq_data true false [] [])
    (fun '(seq, ascii_scores) =>
       let seq_dict := dict_of_pairs (combine seq ascii_scores) in
       ok (seq_dict, Z.of_nat (List.length seq_dict))).

Definition complement_map (base : ascii) : result ascii :=
  match base with
  | "A"%char => ok "T"%char
  | "C"%char => ok "G"%char
  | "G"%char => ok "C"%char
  | "T"%char => ok "A"%char
  | _ => raise KeyError
  end.

Fixpoint complement_all (bases : list ascii) : result (list ascii) :=
  match bases with
  | [] => ok []
  | base :: rest =>
      rbind (complement_map base)
        (fun c => rbind (complement_all rest) (fun cs => ok (c :: cs)))
  end.

(** [copy_reverse_complement]; every caller passes a [Seq]. *)
Definition copy_reverse_complement (sequence : string) : result string :=
  let sequence := Seq_rstrip sequence in
  rbind (complement_all (list_ascii_of_string sequence))
    (fun complement_sequence =>
       ok (reversed (string_of_list_ascii complement_sequence))).

Definition get_alignment_positions (alignment : Alignment) : result (Z * Z) :=
  rbind (first (aligned0 alignment))
    (fun first_block =>
       rbind (last (aligned0 alignment))
         (fun last_block => ok (fst first_block, snd last_block))).

Definition percentage_to_min_score (aligner : PairwiseAligner)
           (wanted_match_percentage : Q) (length : Z) : Q :=
  let max_score := (match_score aligner * inject_Z length)%Q in
  let avg_penalty :=
    ((mismatch_score aligner + open_gap_score aligner + extend_gap_score aligner)
     / 3)%Q in
  let penalty_score :=
    (avg_penalty * (1 - wanted_match_percentage) * inject_Z length)%Q in
  let match_score := (max_score * wanted_match_percentage)%Q in
  (match_score + penalty_score)%Q.

Definition set_aligner_parameters (scores : Scores) (mode : Mode)
           (wanted_match_percentage : Q) (length : Z) : PairwiseAligner * Q :=
  let aligner :=
    {| mode := mode;
       match_score := s_match_score scores;
       mismatch_score := s_mismatch_score scores;
       open_gap_score := s_open_gap_score scores;
       extend_gap_score := s_extend_gap_score scores |} in
  let min_valid_score :=
    percentage_to_min_score aligner wanted_match_percentage length in
  (aligner, min_valid_score).

(** [a >= b] on floats *)
Definition Qge_bool (a b : Q) : bool := Qle_bool b a.


(** [a < b] on floats *)
Definition Qlt_bool (a b : Q) : bool := negb (Qle_bool b a).

(** ** main_sequence_filtering.py: Statistics *)

Definition INVALID_FIELD : Q := - (1).

Record Statistics : Type := mkStatistics {
  seq_count : Z;
  filtered_out_count : Z;
  valid_seq_count : Z;
  invalid_seq_count : Z;
  percent_filtered : Q;
  loss : Q;
  file_name : string
}.

(** [Statistics()] *)
Definition Statistics_init : Statistics :=
  {| seq_count := 0;
     filtered_out_count := 0;
     valid_seq_count := 0;
     invalid_seq_count := 0;
     percent_filtered := 0;
     loss := INVALID_FIELD;
     file_name := "" |}.

(** A file of the input directory: its name and the lines of its text. *)
Record FastqFile : Type := mkFastqFile {
  fastq_name : string;
  fastq_lines : list string
}.

(** [os.path.splitext(name)[0]] for a name without directory part: the
    name up to its last dot, unless that dot is among the leading dots. *)
Fixpoint drop_through_dot (rev_name : list ascii) : option (list ascii) :=
  match rev_name with
  | [] => None
  | c :: rest => if Ascii.eqb c "."%char then Some rest else drop_through_dot rest
  end.

Definition splitext_root (name : string) : string :=
  match drop_through_dot (rev (list_ascii_of_string name)) with
  | None => name
  | Some rev_root =>
      if forallb (fun c => Ascii.eqb c "."%char) rev_root
      then name
      else string_of_list_ascii (rev rev_root)
  end.

Section Pipeline.

(** Biopython's [aligner.align(target, query)]: the alignments it yields,
    in order. *)
Variable align : PairwiseAligner -> string -> string -> list Alignment.

(** The lines of the file at [DATA_SET_PATH]. *)
Variable data_set_file : list string.

Variable cfg : Config.

Definition read_sequences_from_data_set : list string :=
  map strip data_set_file.

Definition get_valid_alignments (aligner : PairwiseAligner)
           (min_valid_score : Q) (sequence : string) (primers : Primers)
  : ValidAlignments :=
  let alignments_front := align aligner sequence (front primers) in
  let alignments_back := align aligner sequence (back primers) in
  {| va_front :=
       filter (fun f_align => Qge_bool (score f_align) min_valid_score)
              alignments_front;
     va_back :=
       filter (fun b_align => Qge_bool (score b_align) min_valid_score)
              alignments_back |}.

(** ** search_functions.py *)

(** The [for] loop of [compare_seq_to_dataset] and what follows it. *)
Fixpoint compare_loop (compare_params : CompareParams) (sequence : string)
         (min_valid_score : Q) (sequence_index : string)
         (data_set_sequences : list string) : M MatchResult :=
  match data_set_sequences with
  | [] =>
      when (DEBUG_MODE cfg) (write_debug DbgNoValidSequence) ;;;
      ret FOUND_INVALID_MATCH
  | data_set_seq :: rest =>
      if len data_set_seq =? 0
      then compare_loop compare_params sequence min_valid_score sequence_index rest
      else
        let data_set_seq_index := slice_to data_set_seq (INDEX_LEN cfg) in
        alignment_idx <-
          lift (first (align (cp_aligner compare_params)
                             sequence_index data_set_seq_index)) ;;
        if Qge_bool (score alignment_idx) (cp_min_valid_score compare_params)
        then
          alignment_seq <-
            lift (first (align (cp_aligner compare_params)
                               sequence data_set_seq)) ;;
          when (DEBUG_MODE cfg)
               (write_debug (DbgIndex data_set_seq_index alignment_idx
                                      (cp_min_valid_score compare_params))) ;;;
          if Qle_bool min_valid_score (score alignment_seq)
          then
            when (DEBUG_MODE cfg)
                 (write_debug (DbgFull sequence data_set_seq alignment_seq
                                       min_valid_score)) ;;;
            ret FOUND_VALID_MATCH
          else
            compare_loop compare_params sequence min_valid_score
                         sequence_index rest
        else
          compare_loop compare_params sequence min_valid_score
                       sequence_index rest
  end.

Definition compare_seq_to_dataset (compare_params : CompareParams)
           (sequence : string) : M MatchResult :=
  let data_set_sequences := read_sequences_from_data_set in
  let min_valid_score :=
    percentage_to_min_score (cp_aligner compare_params) (85 # 100)
                            (len sequence) in
  let sequence_index := slice_to sequence (INDEX_LEN cfg) in
  compare_loop compare_params sequence min_valid_score sequence_index
               data_set_sequences.

(** The tail shared by the three alignment helpers, from [if is_reversed]
    to the [return]. *)
Definition emit_candidate (compare_params : CompareParams)
           (is_reversed : bool) (seq_without_primers seq_with_primers : string)
  : M MatchResult :=
  seq_without_primers <-
    (if is_reversed
     then lift (copy_reverse_complement seq_without_primers)
     else ret seq_without_primers) ;;
  seq_with_primers <-
    (if is_reversed
     then lift (copy_reverse_complement seq_with_primers)
     else ret seq_with_primers) ;;
  when (negb (MACHINE_LEARNING_MODE cfg))
       (write_wo_primers (seq_without_primers ++ newline)%string ;;;
        write_with_primers (seq_with_primers ++ newline)%string) ;;;
  if MACHINE_LEARNING_MODE cfg || DEBUG_MODE cfg
  then compare_seq_to_dataset compare_params seq_without_primers
  else ret FOUND_VALID_MATCH.

Definition in_tolerance (distance : Z) : bool :=
  (LIB_LENGTH cfg - 5 <=? distance) && (distance <=? LIB_LENGTH cfg + 5).

(** The inner loop of [search_both_primers_helper]; [None] when it ends
    without returning. *)
Fixpoint search_both_primers_inner (f_align : Alignment)
         (valid_alignments_back : list Alignment) (sequence : string)
         (compare_params : CompareParams) (is_reversed : bool)
  : M (option MatchResult) :=
  match valid_alignments_back with
  | [] => ret None
  | b_align :: rest =>
      '(f_start, f_end) <- lift (get_alignment_positions f_align) ;;
      '(b_start, b_end) <- lift (get_alignment_positions b_align) ;;
      let distance := b_start - f_end in
      if in_tolerance distance
      then
        let seq_without_primers := slice sequence f_end b_start in
        let seq_with_primers := slice sequence f_start b_end in
        res <- emit_candidate compare_params is_reversed
                              seq_without_primers seq_with_primers ;;
        ret (Some res)
      else
        search_both_primers_inner f_align rest sequence compare_params
                                  is_reversed
  end.

Fixpoint search_both_primers_outer (valid_alignments_front
                                    valid_alignments_back : list Alignment)
         (sequence : string) (compare_params : CompareParams)
         (is_reversed : bool) : M MatchResult :=
  match valid_alignments_front with
  | [] => ret NO_MATCH_FOUND
  | f_align :: rest =>
      r <- search_both_primers_inner f_align valid_alignments_back sequence
                                     compare_params is_reversed ;;
      match r with
      | Some res => ret res
      | None =>
          search_both_primers_outer rest valid_alignments_back sequence
                                    compare_params is_reversed
      end
  end.

Definition search_both_primers_helper (valid_alignments : ValidAlignments)
           (sequence : string) (compare_params : CompareParams)
           (is_reversed : bool) : M MatchResult :=
  search_both_primers_outer (va_front valid_alignments)
                            (va_back valid_alignments)
                            sequence compare_params is_reversed.

Definition search_both_primers (valid_alignments valid_alignments_rc
                                : ValidAlignments)
           (sequence : string) (compare_params : CompareParams)
  : M MatchResult :=
  search_res <- search_both_primers_helper valid_alignments sequence
                                           compare_params false ;;
  if negb (MatchResult_eqb search_res NO_MATCH_FOUND) then ret search_res
  else
    search_res_rc <- search_both_primers_helper valid_alignments_rc sequence
                                                compare_params true ;;
    if negb (MatchResult_eqb search_res_rc NO_MATCH_FOUND)
    then ret search_res_rc
    else ret NO_MATCH_FOUND.

Fixpoint search_single_front_primer_helper
         (valid_alignments_front : list Alignment) (sequence : string)
         (compare_params : CompareParams) (is_reversed : bool)
  : M MatchResult :=
  match valid_alignments_front with
  | [] => ret NO_MATCH_FOUND
  | f_align :: rest =>
      '(f_start, f_end) <- lift (get_alignment_positions f_align) ;;
      let start_pos := f_end in
      let end_pos := start_pos + LIB_LENGTH cfg in
      let seq_with_primers := slice sequence f_start end_pos in
      if end_pos >=? len sequence
      then search_single_front_primer_helper rest sequence compare_params
                                             is_reversed
      else
        let seq_without_primers := slice sequence start_pos end_pos in
        emit_candidate compare_params is_reversed
                       seq_without_primers seq_with_primers
  end.

Fixpoint search_single_back_primer_helper
         (valid_alignments_back : list Alignment) (sequence : string)
         (compare_params : CompareParams) (is_reversed : bool)
  : M MatchResult :=
  match valid_alignments_back with
  | [] => ret NO_MATCH_FOUND
  | b_align :: rest =>
      '(b_start, b_end) <- lift (get_alignment_positions b_align) ;;
      let end_pos := b_start in
      let start_pos := end_pos - LIB_LENGTH cfg in
      let seq_with_primers := slice sequence start_pos b_end in
      if start_pos <? 0
      then search_single_back_primer_helper rest sequence compare_params
                                            is_reversed
      else
        let seq_without_primers := slice sequence start_pos end_pos in
        emit_candidate compare_params is_reversed
                       seq_without_primers seq_with_primers
  end.

Definition search_single_primer (valid_alignments valid_alignments_rc
                                 : ValidAlignments)
           (sequence : string) (compare_params : CompareParams)
  : M MatchResult :=
  search_res_front <-
    search_single_front_primer_helper (va_front valid_alignments) sequence
                                      compare_params false ;;
  if negb (MatchResult_eqb search_res_front NO_MATCH_FOUND)
  then ret search_res_front
  else
    search_res_front_rc <-
      search_single_front_primer_helper (va_front valid_alignments_rc)
                                        sequence compare_params true ;;
    if negb (MatchResult_eqb search_res_front_rc NO_MATCH_FOUND)
    then ret search_res_front_rc
    else
      search_res_back <-
        search_single_back_primer_helper (va_back valid_alignments) sequence
                                         compare_params false ;;
      if negb (MatchResult_eqb search_res_back NO_MATCH_FOUND)
      then ret search_res_back
      else
        search_res_back_rc <-
          search_single_back_primer_helper (va_back valid_alignments_rc)
                                           sequence compare_params true ;;
        if negb (MatchResult_eqb search_res_back_rc NO_MATCH_FOUND)
        then ret search_res_back_rc
        else ret NO_MATCH_FOUND.

Definition search_exact_match (sequence : string) (primers : Primers)
  : M bool :=
  let front_primer := front primers in
  let back_primer := back primers in
  let f_end := find sequence front_primer in
  let b_start := find sequence back_primer in
  let f_start := f_end - len front_primer in
  let b_end := b_start + len back_primer in
  if negb (f_end =? -1) && negb (b_start =? -1)
  then
    let seq_without_primers := slice sequence f_end b_start in
    if in_tolerance (len seq_without_primers)
    then
      let seq_with_primers := slice sequence f_start b_end in
      when (negb (MACHINE_LEARNING_MODE cfg))
           (write_wo_primers (seq_without_primers ++ newline)%string ;;;
            write_with_primers (seq_with_primers ++ newline)%string) ;;;
      ret true
    else ret false
  else ret false.

(** Everything of [search_seq_and_write] after the exact-match test:
    the stages that use the aligner. *)
Definition alignment_stages (aligner : PairwiseAligner) (min_valid_score : Q)
           (compare_params : CompareParams) (sequence : string)
           (PRIMERS_RC : Primers) : M MatchResult :=
  let valid_alignments :=
    get_valid_alignments aligner min_valid_score sequence (PRIMERS cfg) in
  let valid_alignments_rc :=
    get_valid_alignments aligner min_valid_score sequence PRIMERS_RC in
  search_res <- search_both_primers valid_alignments valid_alignments_rc
                                    sequence compare_params ;;
  if negb (MatchResult_eqb search_res NO_MATCH_FOUND) then ret search_res
  else
    search_res <- search_single_primer valid_alignments valid_alignments_rc
                                       sequence compare_params ;;
    if negb (MatchResult_eqb search_res NO_MATCH_FOUND) then ret search_res
    else ret NO_MATCH_FOUND.

Definition search_seq_and_write (aligner : PairwiseAligner)
           (min_valid_score : Q) (compare_params : CompareParams)
           (sequence : string) : M MatchResult :=
  front_rc <- lift (copy_reverse_complement (back (PRIMERS cfg))) ;;
  back_rc <- lift (copy_reverse_complement (front (PRIMERS cfg))) ;;
  let PRIMERS_RC := {| front := front_rc; back := back_rc |} in
  exact <- search_exact_match sequence (PRIMERS cfg) ;;
  exact_or_rc <-
    (if exact : bool then ret true
     else search_exact_match sequence PRIMERS_RC) ;;
  if exact_or_rc : bool then ret FOUND_VALID_MATCH
  else alignment_stages aligner min_valid_score compare_params sequence
                        PRIMERS_RC.


(** ** main_sequence_filtering.py *)

(** The loop of [process_file] over the reads; the counters are
    [(filtered_out_count, valid_seq_count, invalid_seq_count)]. *)
Fixpoint classify_reads (aligner : PairwiseAligner) (min_valid_score : Q)
         (compare_params : CompareParams) (reads : list string)
         (counts : Z * Z * Z) : M (Z * Z * Z) :=
  match reads with
  | [] => ret counts
  | seq_input :: rest =>
      let '(filtered_out_count, valid_seq_count, invalid_seq_count) := counts in
      let sequence := seq_input in
      search_res <- search_seq_and_write aligner min_valid_score
                                         compare_params sequence ;;
      classify_reads aligner min_valid_score compare_params rest
        match search_res with
        | FOUND_VALID_MATCH =>
            (filtered_out_count, valid_seq_count + 1, invalid_seq_count)
        | FOUND_INVALID_MATCH =>
            (filtered_out_count, valid_seq_count, invalid_seq_count + 1)
        | NO_MATCH_FOUND =>
            (filtered_out_count + 1, valid_seq_count, invalid_seq_count)
        end
  end.

Definition process_file_body (file_index : Z) (fastq_file : FastqFile)
           (aligner : PairwiseAligner) (min_valid_score : Q)
           (compare_aligner : PairwiseAligner) (compare_min_valid_score : Q)
  : M Statistics :=
  let file_stats := Statistics_init in
  let base_filename := splitext_root (fastq_name fastq_file) in
  let compare_params :=
    {| cp_aligner := compare_aligner;
       cp_min_valid_score := compare_min_valid_score |} in
  '(sequences_and_scores_dict, seq_count) <-
    lift (read_FASTQ_file (fastq_lines fastq_file)) ;;
  when (DEBUG_MODE cfg) (write_debug (DbgStartOfFile file_index)) ;;;
  '(filtered_out_count, valid_seq_count, invalid_seq_count) <-
    classify_reads aligner min_valid_score compare_params
                   (keys sequences_and_scores_dict) (0, 0, 0) ;;
  when (DEBUG_MODE cfg)
       (write_debug (DbgFilteredOut filtered_out_count seq_count) ;;;
        write_debug (DbgEndOfFile file_index)) ;;;
  if MACHINE_LEARNING_MODE cfg
  then
    ret {| seq_count := seq_count;
           filtered_out_count := filtered_out_count;
           valid_seq_count := valid_seq_count;
           invalid_seq_count := invalid_seq_count;
           percent_filtered :=
             if negb (seq_count =? 0)
             then (inject_Z filtered_out_count / inject_Z seq_count * 100)%Q
             else percent_filtered file_stats;
           loss := loss file_stats;
           file_name := base_filename |}
  else ret file_stats.

(** [process_file]: the statistics it returns or the exception it raises,
    and what it wrote to the streams it opened. *)
Definition process_file (file_index : Z) (fastq_file : FastqFile)
           (aligner : PairwiseAligner) (min_valid_score : Q)
           (compare_aligner : PairwiseAligner) (compare_min_valid_score : Q)
  : result Statistics * Outputs :=
  process_file_body file_index fastq_file aligner min_valid_score
                    compare_aligner compare_min_valid_score no_outputs.

(** The order in which the submitted futures complete. *)
Variable as_completed :
  list (result Statistics * Outputs) -> list (result Statistics * Outputs).

(** [enumerate(xs)], from index [i]. *)
Fixpoint enumerate_from {A : Type} (i : Z) (xs : list A) : list (Z * A) :=
  match xs with
  | [] => []
  | x :: rest => (i, x) :: enumerate_from (i + 1) rest
  end.

(** One turn of the [for future in as_completed(futures)] loop, with its
    [try]/[except]. *)
Definition collect_future (acc : Statistics * list Statistics)
           (future : result Statistics * Outputs)
  : Statistics * list Statistics :=
  let '(eval_stats, file_stats_list) := acc in
  match fst future with
  | inl exc => acc
  | inr file_stats =>
      let file_stats_list := file_stats_list ++ [file_stats] in
      let seq_count' := seq_count eval_stats + seq_count file_stats in
      let filtered_out_count' :=
        filtered_out_count eval_stats + filtered_out_count file_stats in
      let valid_seq_count' :=
        valid_seq_count eval_stats + valid_seq_count file_stats in
      let invalid_seq_count' :=
        invalid_seq_count eval_stats + invalid_seq_count file_stats in
      ({| seq_count := seq_count';
          filtered_out_count := filtered_out_count';
          valid_seq_count := valid_seq_count';
          invalid_seq_count := invalid_seq_count';
          percent_filtered :=
            if negb (seq_count' =? 0)
            then (inject_Z filtered_out_count' / inject_Z seq_count' * 100)%Q
            else percent_filtered eval_stats;
          loss := loss eval_stats;
          file_name := file_name eval_stats |},
       file_stats_list)
  end.

Definition run_filtering (scores : Scores) (input_dir : list FastqFile)
  : Statistics * list Statistics :=
  let '(aligner, min_valid_score) :=
    set_aligner_parameters scores Local (85 # 100)
                           (len (front (PRIMERS cfg))) in
  let '(compare_aligner, compare_min_valid_score) :=
    set_aligner_parameters scores Global (85 # 100) (INDEX_LEN cfg) in
  let eval_stats := Statistics_init in
  let file_stats_list := [] in
  let futures :=
    map (fun '(file_index, fastq_file) =>
           process_file (file_index + 1) fastq_file aligner min_valid_score
                        compare_aligner compare_min_valid_score)
        (filter (fun '(_, fastq_file) => endswith (fastq_name fastq_file) ".fastq")
                (enumerate_from 0 input_dir)) in
  if MACHINE_LEARNING_MODE cfg
  then fold_left collect_future (as_completed futures)
                 (eval_stats, file_stats_list)
  else (eval_stats, file_stats_list).

End Pipeline.

(** ** naive_dna_sequence_filter.py *)

Record NaivePrimers : Type := mkNaivePrimers {
  np_front : string;
  np_back : string;
  np_front_rc : string;
  np_back_rc : string
}.

Section Naive.

Variable cfg : Config.

Definition naive_search_and_write_seq (sequence front_primer back_primer : string)
  : bool :=
  let front_index := find sequence front_primer in
  let back_index := find sequence back_primer in
  if negb (front_index =? -1) && negb (back_index =? -1)
  then
    let seq_without_primers :=
      slice sequence (front_index + len front_primer) back_index in
    if Z.abs (len seq_without_primers - LIB_LENGTH cfg) <=? 5
    then true else false
  else if negb (front_index =? -1)
  then
    let seq_without_primers :=
      slice sequence (front_index + len front_primer)
            (Z.min (len sequence)
                   (front_index + len front_primer + LIB_LENGTH cfg)) in
    if Z.abs (len seq_without_primers - LIB_LENGTH cfg) <=? 5
    then true else false
  else if negb (back_index =? -1)
  then
    let seq_without_primers :=
      slice sequence (Z.max 0 (back_index - LIB_LENGTH cfg)) back_index in
    if Z.abs (len seq_without_primers - LIB_LENGTH cfg) <=? 5
    then true else false
  else false.

(** The loop of [naive_filtering_of_file]. *)
Fixpoint naive_count_filtered (primers : NaivePrimers)
         (sequences : list string) (count_filtered : Z) : Z :=
  match sequences with
  | [] => count_filtered
  | sequence :: rest =>
      naive_count_filtered primers rest
        (if negb (naive_search_and_write_seq sequence (np_front primers)
                                             (np_back primers))
         then
           if negb (naive_search_and_write_seq sequence (np_front_rc primers)
                                               (np_back_rc primers))
           then count_filtered + 1
           else count_filtered
         else count_filtered)
  end.

Definition naive_filtering_of_file (input_file : FastqFile)
           (primers : NaivePrimers) : result (Z * Z) :=
  rbind (read_FASTQ_file (fastq_lines input_file))
    (fun '(seq_dict, _) =>
       let sequences := keys seq_dict in
       let count_filtered := naive_count_filtered primers sequences 0 in
       ok (count_filtered, Z.of_nat (List.length sequences))).

(** The loop of [naive_filtering_percent_of_dir] over the directory. *)
Fixpoint naive_totals (primers : NaivePrimers) (files : list FastqFile)
         (total_filtered total_sequences : Z) : result (Z * Z) :=
  match files with
  | [] => ok (total_filtered, total_sequences)
  | file :: rest =>
      if endswith (fastq_name file) ".fastq"
      then
        rbind (naive_filtering_of_file file primers)
          (fun '(filtered_count, sequence_count) =>
             naive_totals primers rest (total_filtered + filtered_count)
                          (total_sequences + sequence_count))
      else naive_totals primers rest total_filtered total_sequences
  end.

Definition naive_filtering_percent_of_dir (input_dir : list FastqFile)
  : result Q :=
  rbind (copy_reverse_complement (back (PRIMERS cfg)))
    (fun front_rc =>
       rbind (copy_reverse_complement (front (PRIMERS cfg)))
         (fun back_rc =>
            let primers :=
              {| np_front := front (PRIMERS cfg);
                 np_back := back (PRIMERS cfg);
                 np_front_rc := front_rc;
                 np_back_rc := back_rc |} in
            rbind (naive_totals primers input_dir 0 0)
              (fun '(total_filtered, total_sequences) =>
                 if total_sequences >? 0
                 then ok (inject_Z total_filtered / inject_Z total_sequences
                          * 100)%Q
                 else raise AssertionError))).

End Naive.

(** ** learning_helper_functions.py *)

Definition score_comparison (naive_percent_filtered : Q)
           (eval_stats : Statistics) : result Q :=
  let score := 0%Q in
  let score :=
    if Qlt_bool naive_percent_filtered (percent_filtered eval_stats)
    then (score + 100)%Q else score in
  if seq_count eval_stats >? 0
  then
    ok (score
        + inject_Z (invalid_seq_count eval_stats)
          / inject_Z (seq_count eval_stats) * 100)%Q
  else raise AssertionError.

(** [calculate_pie_sizes] *)
Definition calculate_pie_sizes (filtered_out correct_classified
                                incorrect_classified : Z) : list Q :=
  let sizes := [filtered_out; correct_classified; incorrect_classified] in
  let total := sum_Z sizes in
  if total =? 0 then []
  else map (fun s => (inject_Z s / inject_Z total * 100)%Q) sizes.

(** ** helper_functions.py: is_overlap *)

(** A region is the pair [(region[0], region[1])]. *)
Fixpoint is_overlap (start end_ : Z) (regions : list (Z * Z)) : bool :=
  match regions with
  | [] => false
  | region :: rest =>
      if negb ((end_ <? fst region) || (start >? snd region))
      then true
      else is_overlap start end_ rest
  end.

(** ** config.py: the search space *)

(** The box [DEFAULT_SEARCH_SPACE] draws the four scores from:
    [hp.uniform] between the two bounds given for each of them. *)
Definition in_DEFAULT_SEARCH_SPACE (scores : Scores) : Prop :=
  (1 <= s_match_score scores /\ s_match_score scores <= 5)%Q
  /\ (- (5) <= s_mismatch_score scores /\ s_mismatch_score scores <= - (1))%Q
  /\ (- (5) <= s_open_gap_score scores /\ s_open_gap_score scores <= - (1))%Q
  /\ (- (5) <= s_extend_gap_score scores /\ s_extend_gap_score scores <= - (1))%Q.

(** ** learning_algorithm.py *)

(** The dictionary [objective] returns. *)
Record TrialResult : Type := mkTrialResult {
  tr_loss : Q;
  tr_percent_filtered : Q;
  tr_status : string
}.

(** [objective]: one trial. The directories it creates and the charts it
    draws are left out; [params] is the dictionary of the four scores. *)
Definition objective
           (align : PairwiseAligner -> string -> string -> list Alignment)
           (data_set_file : list string) (cfg : Config)
           (as_completed : list (result Statistics * Outputs) ->
                           list (result Statistics * Outputs))
           (input_dir : list FastqFile)
           (params : Scores) (naive_percent_filtered : Q)
  : result TrialResult :=
  let scores :=
    {| s_match_score := s_match_score params;
       s_mismatch_score := s_mismatch_score params;
       s_open_gap_score := s_open_gap_score params;
       s_extend_gap_score := s_extend_gap_score params |} in
  let '(eval_stats, file_stats_list) :=
    run_filtering align data_set_file cfg as_completed scores input_dir in
  rbind (score_comparison naive_percent_filtered eval_stats)
    (fun loss =>
       ok {| tr_loss := loss;
             tr_percent_filtered := percent_filtered eval_stats;
             tr_status := "ok" |}).

(** ** Test data and an executable stand-in for the aligner *)

(** [n] copies of one base. *)
Definition poly (base : ascii) (n : nat) : string :=
  string_of_list_ascii (repeat base n).

(** An aligner that reports nothing. *)
Definition silent_align : PairwiseAligner -> string -> string -> list Alignment :=
  fun _ _ _ => [].

(** An aligner that reports the first exact occurrence of the query in the
    target, scored as a run of matches, and, when there is none, one
    alignment scored as a run of mismatches. It always yields an alignment. *)
Definition exact_align (aligner : PairwiseAligner) (target query : string)
  : list Alignment :=
  match index 0 query target with
  | Some i =>
      [ {| score := (match_score aligner * inject_Z (len query))%Q;
           aligned0 := [(Z.of_nat i, Z.of_nat i + len query)] |} ]
  | None =>
      [ {| score := (mismatch_score aligner * inject_Z (len query))%Q;
           aligned0 := [(0, 0)] |} ]
  end.

(** The aligners and thresholds [run_filtering] builds from the default
    scores under [config_py]. *)
Definition default_aligner : PairwiseAligner :=
  fst (set_aligner_parameters DEFAULT_SCORES Local (85 # 100)
                              (len (front (PRIMERS config_py)))).

Definition default_min_valid_score : Q :=
  snd (set_aligner_parameters DEFAULT_SCORES Local (85 # 100)
                              (len (front (PRIMERS config_py)))).

Definition default_compare_params : CompareParams :=
  {| cp_aligner :=
       fst (set_aligner_parameters DEFAULT_SCORES Global (85 # 100)
                                   (INDEX_LEN config_py));
     cp_min_valid_score :=
       snd (set_aligner_parameters DEFAULT_SCORES Global (85 # 100)
                                   (INDEX_LEN config_py)) |}.

(** ** Specification-side notions *)

(** A corpus with zero sequences in total: every file of the directory that
    is read (every [.fastq] file) yields no sequence. *)
Definition empty_corpus (input_dir : list FastqFile) : Prop :=
  Forall (fun file =>
            endswith (fastq_name file) ".fastq" = true ->
            exists seq_dict, read_FASTQ_file (fastq_lines file) = ok (seq_dict, 0))
         input_dir.

(** The configuration of the worked example: primer [AAAA] on both sides
    and an expected insert length of 4. *)
Definition example_config (machine_learning_mode debug_mode : bool) : Config :=
  {| INDEX_LEN := 12;
     LIB_LENGTH := 4;
     PRIMERS := {| front := "AAAA"; back := "AAAA" |};
     MACHINE_LEARNING_MODE := machine_learning_mode;
     DEBUG_MODE := debug_mode |}.

Definition example_read : string := "AAAATTTTAAAA".

(** The reverse-complement primer pair [search_seq_and_write] builds under
    [config_py]. *)
Definition PRIMERS_RC_py : Primers :=
  {| front := "GTCTCGTGGGCTCGGAGATGTGTATAAGAGACAG";
     back := "CTGTCTCTTATACACATCTGACGCTGCCGACGA" |}.

(** Front primer, an insert of 140 bases, back primer. *)
Definition perfect_read : string :=
  (FRONT_PRIMER ++ poly "A" 140 ++ BACK_PRIMER)%string.

(** Front primer and an insert of 140 bases that ends the read. *)
Definition front_only_read : string :=
  (FRONT_PRIMER ++ poly "A" 140)%string.

(** An insert of 140 bases that starts the read, then the back primer. *)
Definition back_only_read : string :=
  (poly "A" 140 ++ BACK_PRIMER)%string.

(** The score of [aligner.align(a, b)[0]] (0 when nothing is yielded). *)
Definition best_score (align : PairwiseAligner -> string -> string -> list Alignment)
           (aligner : PairwiseAligner) (a b : string) : Q :=
  match align aligner a b with
  | alignment :: _ => score alignment
  | [] => 0
  end.

(** A reference entry validates a candidate: it is not empty, the global
    alignment of the two index prefixes scores at least [index_min], and
    the global alignment of the two full sequences scores at least
    [full_min]. *)
Definition reference_validates
           (align : PairwiseAligner -> string -> string -> list Alignment)
           (cfg : Config) (aligner : PairwiseAligner) (index_min full_min : Q)
           (candidate reference : string) : Prop :=
  reference <> ""
  /\ (index_min <= best_score align aligner
                              (slice_to candidate (INDEX_LEN cfg))
                              (slice_to reference (INDEX_LEN cfg)))%Q
  /\ (full_min <= best_score align aligner candidate reference)%Q.

Definition reference_validatesb
           (align : PairwiseAligner -> string -> string -> list Alignment)
           (cfg : Config) (aligner : PairwiseAligner) (index_min full_min : Q)
           (candidate reference : string) : bool :=
  negb (len reference =? 0)
  && Qle_bool index_min
              (best_score align aligner
                          (slice_to candidate (INDEX_LEN cfg))
                          (slice_to reference (INDEX_LEN cfg)))
  && Qle_bool full_min (best_score align aligner candidate reference).

(** Reads over the alphabet A, C, G, T. *)
Definition is_base (c : ascii) : bool :=
  match c with
  | "A"%char | "C"%char | "G"%char | "T"%char => true
  | _ => false
  end.

Fixpoint is_dna (s : string) : bool :=
  match s with
  | EmptyString => true
  | String c s' => is_base c && is_dna s'
  end.

Definition complement (c : ascii) : ascii :=
  match c with
  | "A"%char => "T"%char
  | "C"%char => "G"%char
  | "G"%char => "C"%char
  | "T"%char => "A"%char
  | _ => c
  end.

(** The reverse complement of a sequence over A, C, G, T. *)
Definition reverse_complement (s : string) : string :=
  reversed (string_of_list_ascii (map complement (list_ascii_of_string s))).

(** Back to canonical orientation: reverse-complemented exactly when the
    match came from the reverse-complement primer pair. *)
Definition canonical (is_reversed : bool) (s : string) : string :=
  if is_reversed then reverse_complement s else s.

(** Start and end of an alignment in the read: start of its first block,
    end of its last block. *)
Definition start_of (alignment : Alignment) : Z :=
  match aligned0 alignment with
  | block :: _ => fst block
  | [] => 0
  end.

Definition end_of (alignment : Alignment) : Z :=
  match rev (aligned0 alignment) with
  | block :: _ => snd block
  | [] => 0
  end.

(** An alignment with at least one aligned block. *)
Definition has_blocks (alignment : Alignment) : Prop :=
  aligned0 alignment <> [].

(** The first pair of a front and a back alignment, front-alignment-major
    and back-alignment-minor, whose distance [back_start - front_end] is
    within 5 of the expected length. *)
Definition first_pair_in_window (cfg : Config)
           (fronts backs : list Alignment) : option (Alignment * Alignment) :=
  List.find (fun '(f_align, b_align) =>
               in_tolerance cfg (start_of b_align - end_of f_align))
            (list_prod fronts backs).

(** The streams after an extraction is written out, which happens outside
    of machine-learning mode only. *)
Definition record_extraction (cfg : Config) (insert flanked : string)
           (o : Outputs) : Outputs :=
  if MACHINE_LEARNING_MODE cfg then o
  else {| wo_primers := wo_primers o ++ [(insert ++ newline)%string];
          with_primers := with_primers o ++ [(flanked ++ newline)%string];
          debug_file := debug_file o |}.

(** The dual-primer stage for one orientation, as the specification words
    it: the winning pair, its span as the insert, back to canonical
    orientation, and the validator's verdict on it. *)
Definition dual_stage_spec
           (align : PairwiseAligner -> string -> string -> list Alignment)
           (data_set_file : list string) (cfg : Config)
           (valid_alignments : ValidAlignments) (sequence : string)
           (compare_params : CompareParams) (is_reversed : bool)
  : M MatchResult :=
  fun o =>
    match first_pair_in_window cfg (va_front valid_alignments)
                               (va_back valid_alignments) with
    | None => (ok NO_MATCH_FOUND, o)
    | Some (f_align, b_align) =>
        let insert :=
          canonical is_reversed
                    (slice sequence (end_of f_align) (start_of b_align)) in
        let flanked :=
          canonical is_reversed
                    (slice sequence (start_of f_align) (end_of b_align)) in
        compare_seq_to_dataset align data_set_file cfg compare_params insert
                               (record_extraction cfg insert flanked o)
    end.


Definition all_have_blocks (valid_alignments : ValidAlignments) : Prop :=
  Forall has_blocks (va_front valid_alignments)
  /\ Forall has_blocks (va_back valid_alignments).

(** Back to canonical orientation on any span: a span of the forward
    orientation is kept as it is; a span of the reverse-complement
    orientation loses its trailing whitespace and is reverse-complemented,
    which fails with [KeyError] when a symbol other than A, C, G, T is
    left in it. *)
Definition to_canonical (is_reversed : bool) (s : string) : result string :=
  if is_reversed
  then
    if is_dna (Seq_rstrip s)
    then ok (reverse_complement (Seq_rstrip s))
    else raise KeyError
  else ok s.

(** The dual-primer stage for one orientation, as amended: the winning
    pair, its span as the insert, back to canonical orientation (or
    [KeyError], nothing being written); then, with machine-learning mode or
    debug mode on, the validator's verdict on the insert, and with both off
    [FOUND_VALID_MATCH] without the validator. *)
Definition dual_stage_amended
           (align : PairwiseAligner -> string -> string -> list Alignment)
           (data_set_file : list string) (cfg : Config)
           (valid_alignments : ValidAlignments) (sequence : string)
           (compare_params : CompareParams) (is_reversed : bool)
  : M MatchResult :=
  fun o =>
    match first_pair_in_window cfg (va_front valid_alignments)
                               (va_back valid_alignments) with
    | None => (ok NO_MATCH_FOUND, o)
    | Some (f_align, b_align) =>
        match to_canonical is_reversed
                (slice sequence (end_of f_align) (start_of b_align)),
              to_canonical is_reversed
                (slice sequence (start_of f_align) (end_of b_align)) with
        | inr insert, inr flanked =>
            let written := record_extraction cfg insert flanked o in
            if MACHINE_LEARNING_MODE cfg || DEBUG_MODE cfg
            then compare_seq_to_dataset align data_set_file cfg compare_params
                                        insert written
            else (ok FOUND_VALID_MATCH, written)
        | _, _ => (raise KeyError, o)
        end
    end.





(** [config_py] with both mode switches off. *)
Definition config_plain : Config :=
  {| INDEX_LEN := INDEX_LEN config_py;
     LIB_LENGTH := LIB_LENGTH config_py;
     PRIMERS := PRIMERS config_py;
     MACHINE_LEARNING_MODE := false;
     DEBUG_MODE := false |}.

(** The alignments of the two primers in [perfect_read]. *)
Definition perfect_read_alignments : ValidAlignments :=
  {| va_front := [ {| score := 140; aligned0 := [(0, 33)] |} ];
     va_back := [ {| score := 140; aligned0 := [(173, 207)] |} ] |}.

Definition no_alignments : ValidAlignments :=
  {| va_front := []; va_back := [] |}.

(** A dataset with one entry, 140 times the base C. *)
Definition poly_C_data_set : list string := [poly "C" 140].


(** Every read is counted in exactly one of the three counters. *)
Definition counters_partition (stats : Statistics) : Prop :=
  filtered_out_count stats + valid_seq_count stats + invalid_seq_count stats
  = seq_count stats.

(** [percent_filtered] is 0 for no sequence and the filtered share times
    100 otherwise. *)
Definition percent_as_reported (stats : Statistics) : Prop :=
  percent_filtered stats
  = if seq_count stats =? 0 then 0%Q
    else (inject_Z (filtered_out_count stats) / inject_Z (seq_count stats)
          * 100)%Q.

Definition is_percentage (q : Q) : Prop := (0 <= q /\ q <= 100)%Q.

(** What holds of the statistics of a file and of their sums. *)
Definition sound_statistics (stats : Statistics) : Prop :=
  0 <= filtered_out_count stats
  /\ 0 <= valid_seq_count stats
  /\ 0 <= invalid_seq_count stats
  /\ counters_partition stats
  /\ percent_as_reported stats.

(** A directory with one [.fastq] file of two reads ([perfect_read] and
    [ACGT]) and one file that is not read. *)
Definition sample_dir : list FastqFile :=
  [ {| fastq_name := "notes.txt"; fastq_lines := ["not a read"] |};
    {| fastq_name := "run1.fastq";
       fastq_lines := ["@read1"; perfect_read; "+"; "IIII";
                       "@read2"; "ACGT"; "+"; "IIII"] |} ].

(** [sample_dir] and a second [.fastq] file, of one read. *)
Definition two_runs_dir : list FastqFile :=
  sample_dir
  ++ [ {| fastq_name := "run2.fastq";
          fastq_lines := ["@read1"; "ACGT"; "+"; "IIII"] |} ].

(** Futures that complete in the reverse of the order of submission. *)
Definition completed_last_first
  : list (result Statistics * Outputs) -> list (result Statistics * Outputs) :=
  @rev _.

(** A dataset file with a blank line and one entry, and a candidate equal
    to that entry. *)
Definition sample_data_set_file : list string :=
  [" "; "ACGTACGTACGTAAAA "].

Definition sample_candidate : string := "ACGTACGTACGTAAAA".

(** ** Further specification-side notions *)

(** A range [(fst, snd)] that is not reversed. *)
Definition ordered_region (region : Z * Z) : Prop := fst region <= snd region.

(** One record of a FASTQ text: header, sequence, separator, qualities. *)
Record FastqRecord : Type := mkFastqRecord {
  rec_header : string;
  rec_sequence : string;
  rec_separator : string;
  rec_quality : string
}.

Definition record_lines (r : FastqRecord) : list string :=
  [rec_header r; rec_sequence r; rec_separator r; rec_quality r].

(** The lines of a text made of records. *)
Definition fastq_text (records : list FastqRecord) : list string :=
  flat_map record_lines records.

(** The mean of the quality values [ord(char) - 33] of a quality line. *)
Definition mean_quality (quality : string) : Q :=
  let scores := map (fun char => ord char - 33) (list_ascii_of_string quality) in
  (inject_Z (sum_Z scores) / inject_Z (Z.of_nat (List.length scores)))%Q.

(** A record whose sequence line and quality line are not blank. *)
Definition readable_record (r : FastqRecord) : Prop :=
  strip (rec_sequence r) <> "" /\ strip (rec_quality r) <> "".

(** [d.get(k)] *)
Fixpoint dict_get {V : Type} (d : list (string * V)) (k : string) : option V :=
  match d with
  | [] => None
  | (k', v) :: d' => if String.eqb k' k then Some v else dict_get d' k
  end.

(** The mean quality of the last record whose sequence is [k]. *)
Definition last_quality_of (k : string) (records : list FastqRecord)
  : option Q :=
  fold_left (fun found r =>
               if String.eqb (strip (rec_sequence r)) k
               then Some (mean_quality (strip (rec_quality r)))
               else found)
            records None.

(** [n] lines more in each of the two output streams. *)
Definition lines_added (n : nat) (o o' : Outputs) : Prop :=
  List.length (wo_primers o') = (List.length (wo_primers o) + n)%nat
  /\ List.length (with_primers o') = (List.length (with_primers o) + n)%nat.

(** 1 for a read in which an insert was located, 0 otherwise. *)
Definition located (res : MatchResult) : nat :=
  match res with
  | NO_MATCH_FOUND => 0%nat
  | _ => 1%nat
  end.

(** How a stage of the locator treats the streams, from the state [o] it
    starts in to its outcome [r] and the state [o'] it ends in:
    - in machine-learning mode the two output streams are left alone;
    - with debug mode off the debug stream is left alone;
    - outside of machine-learning mode a stage that returns has written one
      line to each output stream when it located an insert, none otherwise;
    - with both modes off it does not return [FOUND_INVALID_MATCH]. *)
Definition stage_post (cfg : Config) (o : Outputs) (r : result MatchResult)
           (o' : Outputs) : Prop :=
  (MACHINE_LEARNING_MODE cfg = true ->
   wo_primers o' = wo_primers o /\ with_primers o' = with_primers o)
  /\ (DEBUG_MODE cfg = false -> debug_file o' = debug_file o)
  /\ (MACHINE_LEARNING_MODE cfg = false ->
      forall res, r = ok res -> lines_added (located res) o o')
  /\ (MACHINE_LEARNING_MODE cfg = false -> DEBUG_MODE cfg = false ->
      r <> ok FOUND_INVALID_MATCH).

(** The outcome of a loop that may end without returning. *)
Definition result_of_option (r : result (option MatchResult))
  : result MatchResult :=
  match r with
  | inl e => inl e
  | inr None => ok NO_MATCH_FOUND
  | inr (Some res) => ok res
  end.

(** The outcome of the exact-match test as a classification. *)
Definition result_of_bool (r : result bool) : result MatchResult :=
  match r with
  | inl e => inl e
  | inr true => ok FOUND_VALID_MATCH
  | inr false => ok NO_MATCH_FOUND
  end.

(** The first front alignment whose window
    [[front_end, front_end + LIB_LENGTH)] ends before the last symbol of
    the read. *)
Definition first_front_candidate (cfg : Config) (sequence : string)
           (fronts : list Alignment) : option Alignment :=
  List.find (fun f_align => end_of f_align + LIB_LENGTH cfg <? len sequence)
            fronts.

(** The first back alignment whose window
    [[back_start - LIB_LENGTH, back_start)] does not start before the
    read. *)
Definition first_back_candidate (cfg : Config) (backs : list Alignment)
  : option Alignment :=
  List.find (fun b_align => 0 <=? start_of b_align - LIB_LENGTH cfg) backs.

(** The single-primer stage as a choice among four candidates, in the
    order front/forward, front/reverse-complement, back/forward,
    back/reverse-complement; the chosen window goes through the common
    tail of the helpers ([emit_candidate]). *)
Definition single_stage_spec
           (align : PairwiseAligner -> string -> string -> list Alignment)
           (data_set_file : list string) (cfg : Config)
           (valid_alignments valid_alignments_rc : ValidAlignments)
           (sequence : string) (compare_params : CompareParams)
  : M MatchResult :=
  let front_window is_reversed f_align :=
    emit_candidate align data_set_file cfg compare_params is_reversed
      (slice sequence (end_of f_align) (end_of f_align + LIB_LENGTH cfg))
      (slice sequence (start_of f_align) (end_of f_align + LIB_LENGTH cfg)) in
  let back_window is_reversed b_align :=
    emit_candidate align data_set_file cfg compare_params is_reversed
      (slice sequence (start_of b_align - LIB_LENGTH cfg) (start_of b_align))
      (slice sequence (start_of b_align - LIB_LENGTH cfg) (end_of b_align)) in
  match first_front_candidate cfg sequence (va_front valid_alignments) with
  | Some f_align => front_window false f_align
  | None =>
      match first_front_candidate cfg sequence
                                  (va_front valid_alignments_rc) with
      | Some f_align => front_window true f_align
      | None =>
          match first_back_candidate cfg (va_back valid_alignments) with
          | Some b_align => back_window false b_align
          | None =>
              match first_back_candidate cfg (va_back valid_alignments_rc) with
              | Some b_align => back_window true b_align
              | None => ret NO_MATCH_FOUND
              end
          end
      end
  end.

(** The statistics of the futures that completed without an exception, in
    the order given. *)
Definition completed_stats (futures : list (result Statistics * Outputs))
  : list Statistics :=
  flat_map (fun future =>
              match fst future with
              | inr file_stats => [file_stats]
              | inl _ => []
              end)
           futures.

(** The sum of one counter over a list of statistics. *)
Definition total (counter : Statistics -> Z) (stats : list Statistics) : Z :=
  fold_right (fun file_stats acc => counter file_stats + acc) 0 stats.

(** Futures that complete in the order of submission. *)
Definition completed_in_order
  : list (result Statistics * Outputs) -> list (result Statistics * Outputs) :=
  fun futures => futures.

(** Two computations that return the same result or raise the same
    exception, whatever the streams hold when they start. *)
Definition same_result {A : Type} (m1 m2 : M A) : Prop :=
  forall o1 o2, fst (m1 o1) = fst (m2 o2).

(** A computation that only writes: it returns, whatever the streams
    hold. *)
Definition only_writes (m : M unit) : Prop :=
  forall o, fst (m o) = ok tt.

(** The futures [run_filtering] submits for the files of a directory
    listing that starts at index [first_index]. *)
Definition submitted_futures
           (align : PairwiseAligner -> string -> string -> list Alignment)
           (data_set_file : list string) (cfg : Config) (scores : Scores)
           (first_index : Z) (files : list FastqFile)
  : list (result Statistics * Outputs) :=
  let '(aligner, min_valid_score) :=
    set_aligner_parameters scores Local (85 # 100)
                           (len (front (PRIMERS cfg))) in
  let '(compare_aligner, compare_min_valid_score) :=
    set_aligner_parameters scores Global (85 # 100) (INDEX_LEN cfg) in
  map (fun '(file_index, fastq_file) =>
         process_file align data_set_file cfg (file_index + 1) fastq_file
                      aligner min_valid_score compare_aligner
                      compare_min_valid_score)
      (filter (fun '(_, fastq_file) => endswith (fastq_name fastq_file) ".fastq")
              (enumerate_from first_index files)).

(** A file that contributes nothing to a run: it is not a [.fastq] file,
    or processing it raises an exception. *)
Definition file_fails
           (align : PairwiseAligner -> string -> string -> list Alignment)
           (data_set_file : list string) (cfg : Config) (scores : Scores)
           (fastq_file : FastqFile) : Prop :=
  endswith (fastq_name fastq_file) ".fastq" = false
  \/ exists exc,
       fst (process_file align data_set_file cfg 1 fastq_file
              (fst (set_aligner_parameters scores Local (85 # 100)
                                           (len (front (PRIMERS cfg)))))
              (snd (set_aligner_parameters scores Local (85 # 100)
                                           (len (front (PRIMERS cfg)))))
              (fst (set_aligner_parameters scores Global (85 # 100)
                                           (INDEX_LEN cfg)))
              (snd (set_aligner_parameters scores Global (85 # 100)
                                           (INDEX_LEN cfg))))
       = raise exc.

(** * Properties *)

(** ** Threshold formula (helper_functions.py) *)

Lemma percentage_to_min_score_unfold aligner pct length :
  percentage_to_min_score aligner pct length =
  (match_score aligner * inject_Z length * pct
   + (mismatch_score aligner + open_gap_score aligner + extend_gap_score aligner)
     / 3 * (1 - pct) * inject_Z length)%Q.
Proof. reflexivity. Qed.

(** The threshold only depends on the rational values of its inputs. *)
Lemma percentage_to_min_score_proper a1 a2 pct1 pct2 length :
  (match_score a1 == match_score a2)%Q ->
  (mismatch_score a1 == mismatch_score a2)%Q ->
  (open_gap_score a1 == open_gap_score a2)%Q ->
  (extend_gap_score a1 == extend_gap_score a2)%Q ->
  (pct1 == pct2)%Q ->
  (percentage_to_min_score a1 pct1 length
   == percentage_to_min_score a2 pct2 length)%Q.
Proof.
  intros Hm Hmm Ho He Hp.
  rewrite !percentage_to_min_score_unfold.
  rewrite Hm, Hmm, Ho, He, Hp. reflexivity.
Qed.

(** C8. For every scoring-parameter record, match percentage and length the
    minimum acceptable score derived by [set_aligner_parameters] is
    [match_score * length * pct
     + ((mismatch_score + open_gap_score + extend_gap_score) / 3) * (1 - pct) * length],
    whatever the alignment mode, and the computation is a function of its
    inputs alone: identical inputs give identical values. *)
Theorem min_score_formula_and_determinism :
  forall (scores : Scores) (mode : Mode) (pct : Q) (length : Z),
    snd (set_aligner_parameters scores mode pct length) =
    (s_match_score scores * inject_Z length * pct
     + (s_mismatch_score scores + s_open_gap_score scores
        + s_extend_gap_score scores) / 3 * (1 - pct) * inject_Z length)%Q
    /\ percentage_to_min_score
         (fst (set_aligner_parameters scores mode pct length)) pct length =
       snd (set_aligner_parameters scores mode pct length)
    /\ forall scores' mode' pct' length',
         scores' = scores -> mode' = mode -> pct' = pct -> length' = length ->
         set_aligner_parameters scores' mode' pct' length' =
         set_aligner_parameters scores mode pct length.
Proof.
  intros scores mode pct length. split; [|split].
  - unfold set_aligner_parameters. cbn [snd].
    now rewrite percentage_to_min_score_unfold.
  - reflexivity.
  - intros scores' mode' pct' length' -> -> -> ->. reflexivity.
Qed.

(** ** Trial loss (learning_helper_functions.py) *)

Lemma Qlt_bool_iff a b : Qlt_bool a b = true <-> (a < b)%Q.
Proof.
  unfold Qlt_bool. rewrite negb_true_iff.
  split.
  - intros H. apply Qnot_le_lt. intros Hle.
    apply Qle_bool_iff in Hle. congruence.
  - intros H. destruct (Qle_bool b a) eqn:E; [|reflexivity].
    apply Qle_bool_iff in E. exfalso. apply (Qlt_not_le _ _ H E).
Qed.

(** C6. When the aggregate [seq_count] is positive, [score_comparison]
    returns a loss, and that loss is the invalid share
    [(invalid_seq_count / seq_count) * 100], plus 100 when the
    evaluation's [percent_filtered] is strictly above the naive baseline,
    plus nothing otherwise. *)
Theorem score_comparison_loss :
  forall (naive_percent_filtered : Q) (eval_stats : Statistics),
    seq_count eval_stats > 0 ->
    exists loss : Q,
      score_comparison naive_percent_filtered eval_stats = ok loss
      /\ ((naive_percent_filtered < percent_filtered eval_stats)%Q ->
          (loss == 100 + inject_Z (invalid_seq_count eval_stats)
                         / inject_Z (seq_count eval_stats) * 100)%Q)
      /\ (~ (naive_percent_filtered < percent_filtered eval_stats)%Q ->
          (loss == 0 + inject_Z (invalid_seq_count eval_stats)
                       / inject_Z (seq_count eval_stats) * 100)%Q).
Proof.
  intros naive st Hpos.
  unfold score_comparison.
  assert (Hgt : (seq_count st >? 0) = true) by (apply Z.gtb_lt; lia).
  rewrite Hgt.
  destruct (Qlt_bool naive (percent_filtered st)) eqn:E.
  - eexists. split; [reflexivity|]. split.
    + intros _. ring.
    + intros Hn. apply Qlt_bool_iff in E. contradiction.
  - eexists. split; [reflexivity|]. split.
    + intros Hlt. apply Qlt_bool_iff in Hlt. congruence.
    + intros _. reflexivity.
Qed.

Lemma score_comparison_loss_witness :
  seq_count {| seq_count := 8; filtered_out_count := 2; valid_seq_count := 3;
               invalid_seq_count := 3; percent_filtered := 25;
               loss := INVALID_FIELD; file_name := "" |} > 0
  /\ exists loss : Q,
       score_comparison 10
         {| seq_count := 8; filtered_out_count := 2; valid_seq_count := 3;
            invalid_seq_count := 3; percent_filtered := 25;
            loss := INVALID_FIELD; file_name := "" |} = ok loss
       /\ (loss == 100 + 3 / 8 * 100)%Q.
Proof.
  split; [cbn; lia|].
  destruct (score_comparison_loss 10
              {| seq_count := 8; filtered_out_count := 2; valid_seq_count := 3;
                 invalid_seq_count := 3; percent_filtered := 25;
                 loss := INVALID_FIELD; file_name := "" |})
    as [loss [Hret [Hpen _]]]; [cbn; lia|].
  exists loss. split; [exact Hret|].
  rewrite Hpen; [reflexivity|]. cbn. reflexivity.
Defined.

(** ** Reading a file (helper_functions.py) *)

Lemma read_FASTQ_file_count fastq_lines seq_dict n :
  read_FASTQ_file fastq_lines = ok (seq_dict, n) ->
  n = Z.of_nat (List.length seq_dict).
Proof.
  unfold read_FASTQ_file, rbind.
  destruct (parse_seq_data _ _ _ _ _) as [e | [seq ascii_scores]].
  - discriminate.
  - unfold ok. intros H. injection H as <- <-. reflexivity.
Qed.

(** ** The exact-match fast path (search_functions.py) *)

(** What the exact-match test decides on: both primers occur, and the
    stretch from the first occurrence of the front primer (its start) to
    the first occurrence of the back primer has a length within 5 of
    [LIB_LENGTH]. *)
Lemma search_exact_match_true_iff cfg sequence primers o :
  fst (search_exact_match cfg sequence primers o) = ok true
  <-> find sequence (front primers) <> -1
      /\ find sequence (back primers) <> -1
      /\ in_tolerance cfg
           (len (slice sequence (find sequence (front primers))
                       (find sequence (back primers)))) = true.
Proof.
  unfold search_exact_match.
  destruct (find sequence (front primers) =? -1) eqn:Ef;
    [apply Z.eqb_eq in Ef | apply Z.eqb_neq in Ef];
    (destruct (find sequence (back primers) =? -1) eqn:Eb;
     [apply Z.eqb_eq in Eb | apply Z.eqb_neq in Eb]);
    cbn [negb andb].
  - split; [discriminate | intros (H & _); congruence].
  - split; [discriminate | intros (H & _); congruence].
  - split; [discriminate | intros (_ & H & _); congruence].
  - destruct (in_tolerance cfg _).
    + unfold bind, when, ret, ok.
      destruct (MACHINE_LEARNING_MODE cfg); cbn; tauto.
    + split; [discriminate | intros (_ & _ & H); discriminate].
Qed.

(** C2. On the read [AAAATTTTAAAA] with primer [AAAA] on both sides and an
    expected length of 4 the locator returns [FOUND_VALID_MATCH] through
    the exact-match path, but both [find] calls return 0, so the
    sequence-without-primers it carves out and writes is the empty string,
    not [TTTT]. *)
Theorem exact_match_example_carves_empty_insert :
  forall (align : PairwiseAligner -> string -> string -> list Alignment)
         (data_set_file : list string) (aligner : PairwiseAligner)
         (min_valid_score : Q) (compare_params : CompareParams),
    let cfg := example_config false false in
    let written :=
      {| wo_primers := [("" ++ newline)%string];
         with_primers := [("" ++ newline)%string];
         debug_file := [] |} in
    find example_read (front (PRIMERS cfg)) = 0
    /\ find example_read (back (PRIMERS cfg)) = 0
    /\ slice example_read 0 0 = ""
    /\ search_exact_match cfg example_read (PRIMERS cfg) no_outputs
       = (ok true, written)
    /\ search_seq_and_write align data_set_file cfg aligner min_valid_score
                            compare_params example_read no_outputs
       = (ok FOUND_VALID_MATCH, written)
    /\ search_seq_and_write align data_set_file (example_config true true)
                            aligner min_valid_score compare_params
                            example_read no_outputs
       = (ok FOUND_VALID_MATCH, no_outputs)
    /\ slice example_read 4 8 = "TTTT".
Proof.
  intros. repeat split.
Qed.

Lemma copy_reverse_complement_BACK_PRIMER :
  copy_reverse_complement BACK_PRIMER = ok (front PRIMERS_RC_py).
Proof. vm_compute. reflexivity. Qed.

Lemma copy_reverse_complement_FRONT_PRIMER :
  copy_reverse_complement FRONT_PRIMER = ok (back PRIMERS_RC_py).
Proof. vm_compute. reflexivity. Qed.

Lemma perfect_read_exact_match_fails primers o :
  primers = PRIMERS config_py \/ primers = PRIMERS_RC_py ->
  search_exact_match config_py perfect_read primers o = (ok false, o).
Proof.
  intros [-> | ->]; vm_compute; reflexivity.
Qed.

(** C1. The read made of the front primer, 140 bases and the back primer
    contains both primers exactly, in order, 140 bases apart; yet
    [search_exact_match] fails on it for both primer pairs (it measures
    from the start of the front primer: 173 bases), so the locator goes on
    to the alignment stages, whose answer it returns: [NO_MATCH_FOUND] with
    an aligner that reports nothing, [FOUND_INVALID_MATCH] with an aligner
    that finds both primers and an empty dataset. *)
Theorem exact_primers_read_misses_fast_path :
  forall (align : PairwiseAligner -> string -> string -> list Alignment)
         (data_set_file : list string) (aligner : PairwiseAligner)
         (min_valid_score : Q) (compare_params : CompareParams) (o : Outputs),
    (substring 0 33 perfect_read = FRONT_PRIMER
     /\ substring 173 34 perfect_read = BACK_PRIMER
     /\ LIB_LENGTH config_py - 5 <= 173 - 33 <= LIB_LENGTH config_py + 5)
    /\ find perfect_read FRONT_PRIMER = 0
    /\ find perfect_read BACK_PRIMER = 173
    /\ search_exact_match config_py perfect_read (PRIMERS config_py) o
       = (ok false, o)
    /\ search_exact_match config_py perfect_read PRIMERS_RC_py o
       = (ok false, o)
    /\ search_seq_and_write align data_set_file config_py aligner
                            min_valid_score compare_params perfect_read o
       = alignment_stages align data_set_file config_py aligner
                          min_valid_score compare_params perfect_read
                          PRIMERS_RC_py o
    /\ search_seq_and_write silent_align [] config_py default_aligner
                            default_min_valid_score default_compare_params
                            perfect_read no_outputs
       = (ok NO_MATCH_FOUND, no_outputs)
    /\ search_seq_and_write exact_align [] config_py default_aligner
                            default_min_valid_score default_compare_params
                            perfect_read no_outputs
       = (ok FOUND_INVALID_MATCH,
          {| wo_primers := []; with_primers := [];
             debug_file := [DbgNoValidSequence] |}).
Proof.
  intros.
  split; [repeat split; vm_compute; congruence|].
  split; [vm_compute; reflexivity|].
  split; [vm_compute; reflexivity|].
  split; [apply perfect_read_exact_match_fails; now left|].
  split; [apply perfect_read_exact_match_fails; now right|].
  split; [|split; vm_compute; reflexivity].
  unfold search_seq_and_write, bind, lift.
  change (back (PRIMERS config_py)) with BACK_PRIMER.
  change (front (PRIMERS config_py)) with FRONT_PRIMER.
  rewrite copy_reverse_complement_BACK_PRIMER,
          copy_reverse_complement_FRONT_PRIMER.
  unfold ok.
  rewrite (perfect_read_exact_match_fails (PRIMERS config_py) o) by now left.
  unfold ok.
  change {| front := front PRIMERS_RC_py; back := back PRIMERS_RC_py |}
    with PRIMERS_RC_py.
  rewrite (perfect_read_exact_match_fails PRIMERS_RC_py o) by now right.
  reflexivity.
Qed.

(** ** The single-primer stage (search_functions.py) *)

Section SinglePrimer.

Variable align : PairwiseAligner -> string -> string -> list Alignment.
Variable data_set_file : list string.
Variable cfg : Config.

(** A front candidate whose window end reaches [len(sequence)] is skipped:
    the helper continues with the next alignment, in the same state. *)
Lemma single_front_skips f_align rest sequence compare_params is_reversed
      f_start f_end :
  get_alignment_positions f_align = ok (f_start, f_end) ->
  f_end + LIB_LENGTH cfg >= len sequence ->
  search_single_front_primer_helper align data_set_file cfg (f_align :: rest)
                                    sequence compare_params is_reversed
  = search_single_front_primer_helper align data_set_file cfg rest
                                      sequence compare_params is_reversed.
Proof.
  intros Hpos Hout.
  cbn [search_single_front_primer_helper].
  unfold bind, lift. rewrite Hpos. unfold ok.
  assert (E : (f_end + LIB_LENGTH cfg >=? len sequence) = true)
    by (apply Z.geb_le; lia).
  rewrite E. reflexivity.
Qed.

(** A front candidate whose window ends before [len(sequence)] is taken. *)
Lemma single_front_takes f_align rest sequence compare_params is_reversed
      f_start f_end :
  get_alignment_positions f_align = ok (f_start, f_end) ->
  f_end + LIB_LENGTH cfg < len sequence ->
  search_single_front_primer_helper align data_set_file cfg (f_align :: rest)
                                    sequence compare_params is_reversed
  = emit_candidate align data_set_file cfg compare_params is_reversed
                   (slice sequence f_end (f_end + LIB_LENGTH cfg))
                   (slice sequence f_start (f_end + LIB_LENGTH cfg)).
Proof.
  intros Hpos Hin.
  cbn [search_single_front_primer_helper].
  unfold bind, lift. rewrite Hpos. unfold ok.
  assert (E : (f_end + LIB_LENGTH cfg >=? len sequence) = false).
  { destruct (f_end + LIB_LENGTH cfg >=? len sequence) eqn:E'; [|reflexivity].
    apply Z.geb_le in E'. lia. }
  rewrite E. reflexivity.
Qed.

(** A back candidate whose window start is negative is skipped. *)
Lemma single_back_skips b_align rest sequence compare_params is_reversed
      b_start b_end :
  get_alignment_positions b_align = ok (b_start, b_end) ->
  b_start - LIB_LENGTH cfg < 0 ->
  search_single_back_primer_helper align data_set_file cfg (b_align :: rest)
                                   sequence compare_params is_reversed
  = search_single_back_primer_helper align data_set_file cfg rest
                                     sequence compare_params is_reversed.
Proof.
  intros Hpos Hout.
  cbn [search_single_back_primer_helper].
  unfold bind, lift. rewrite Hpos. unfold ok.
  assert (E : (b_start - LIB_LENGTH cfg <? 0) = true) by (apply Z.ltb_lt; lia).
  rewrite E. reflexivity.
Qed.

(** A back candidate whose window start is not negative is taken. *)
Lemma single_back_takes b_align rest sequence compare_params is_reversed
      b_start b_end :
  get_alignment_positions b_align = ok (b_start, b_end) ->
  0 <= b_start - LIB_LENGTH cfg ->
  search_single_back_primer_helper align data_set_file cfg (b_align :: rest)
                                   sequence compare_params is_reversed
  = emit_candidate align data_set_file cfg compare_params is_reversed
                   (slice sequence (b_start - LIB_LENGTH cfg) b_start)
                   (slice sequence (b_start - LIB_LENGTH cfg) b_end).
Proof.
  intros Hpos Hin.
  cbn [search_single_back_primer_helper].
  unfold bind, lift. rewrite Hpos. unfold ok.
  assert (E : (b_start - LIB_LENGTH cfg <? 0) = false) by (apply Z.ltb_ge; lia).
  rewrite E. reflexivity.
Qed.

End SinglePrimer.

(** C4. A front-primer-only candidate is skipped although its window does
    not run past the read's end: on the read made of the front primer and
    140 bases, the alignment of the primer at [0, 33) gives the window
    [33, 173), which ends exactly at the read's end and holds 140 bases,
    and [search_single_front_primer_helper] returns [NO_MATCH_FOUND]. The
    back-primer helper does take the mirrored candidate, whose window
    [0, 140) starts exactly at the read's start. *)
Theorem front_window_ending_at_read_end_is_skipped :
  forall (align : PairwiseAligner -> string -> string -> list Alignment)
         (data_set_file : list string) (compare_params : CompareParams)
         (is_reversed : bool) (alignment_score : Q) (o : Outputs),
    let f_align := {| score := alignment_score; aligned0 := [(0, 33)] |} in
    let b_align := {| score := alignment_score; aligned0 := [(140, 174)] |} in
    get_alignment_positions f_align = ok (0, 33)
    /\ 33 + LIB_LENGTH config_py = len front_only_read
    /\ slice front_only_read 33 (33 + LIB_LENGTH config_py) = poly "A" 140
    /\ search_single_front_primer_helper align data_set_file config_py
         [f_align] front_only_read compare_params is_reversed o
       = (ok NO_MATCH_FOUND, o)
    /\ search_single_back_primer_helper align data_set_file config_py
         [b_align] back_only_read compare_params is_reversed o
       = emit_candidate align data_set_file config_py compare_params
                        is_reversed (poly "A" 140) back_only_read o.
Proof.
  intros. repeat split.
Qed.

(** ** The dataset validator (search_functions.py) *)

Lemma len_zero_iff s : len s = 0 <-> s = "".
Proof.
  unfold len. destruct s; cbn; split; intros H; try reflexivity;
    try discriminate; lia.
Qed.

Lemma reference_validatesb_iff align cfg aligner index_min full_min candidate reference :
  reference_validatesb align cfg aligner index_min full_min candidate reference = true
  <-> reference_validates align cfg aligner index_min full_min candidate reference.
Proof.
  unfold reference_validatesb, reference_validates.
  rewrite !andb_true_iff, negb_true_iff, !Qle_bool_iff, Z.eqb_neq, len_zero_iff.
  tauto.
Qed.

Section Validator.

Variable align : PairwiseAligner -> string -> string -> list Alignment.
Variable data_set_file : list string.
Variable cfg : Config.

(** The validator answers [FOUND_VALID_MATCH] or [FOUND_INVALID_MATCH]
    whenever it answers. *)
Lemma compare_loop_never_no_match compare_params sequence min_valid_score
      sequence_index data_set_sequences o res o' :
  compare_loop align cfg compare_params sequence min_valid_score sequence_index
               data_set_sequences o = (ok res, o') ->
  res <> NO_MATCH_FOUND.
Proof.
  revert o. induction data_set_sequences as [| data_set_seq rest IH]; intros o.
  - cbn [compare_loop]. unfold bind, when, ret, write_debug, ok.
    destruct (DEBUG_MODE cfg); intros H; injection H as <- _; discriminate.
  - cbn [compare_loop].
    destruct (len data_set_seq =? 0); [apply IH|].
    unfold bind, lift.
    destruct (first (align _ sequence_index _)) as [e | alignment_idx];
      [discriminate|].
    destruct (Qge_bool _ _); [|apply IH].
    destruct (first (align _ sequence data_set_seq)) as [e | alignment_seq];
      [discriminate|].
    destruct (when _ _ o) as [[e | []] o1]; [discriminate|].
    destruct (Qle_bool _ _); [|apply IH].
    destruct (when _ _ o1) as [[e | []] o2]; [discriminate|].
    unfold ret, ok. intros H; injection H as <- _; discriminate.
Qed.

Lemma compare_seq_to_dataset_never_no_match compare_params sequence o res o' :
  compare_seq_to_dataset align data_set_file cfg compare_params sequence o
  = (ok res, o') ->
  res <> NO_MATCH_FOUND.
Proof. apply compare_loop_never_no_match. Qed.

Lemma when_write_debug_ok b msg o :
  exists o1, when b (write_debug msg) o = (ok tt, o1).
Proof. destruct b; eexists; reflexivity. Qed.

(** With an aligner that always yields an alignment, the loop answers, and
    its answer says whether some entry validates the candidate. *)
Lemma compare_loop_verdict compare_params sequence min_valid_score
      data_set_sequences o :
  (forall a b, align (cp_aligner compare_params) a b <> []) ->
  fst (compare_loop align cfg compare_params sequence min_valid_score
                    (slice_to sequence (INDEX_LEN cfg)) data_set_sequences o)
  = ok (if existsb (reference_validatesb align cfg (cp_aligner compare_params)
                      (cp_min_valid_score compare_params) min_valid_score
                      sequence)
                   data_set_sequences
        then FOUND_VALID_MATCH else FOUND_INVALID_MATCH).
Proof.
  intros Hyields. revert o.
  induction data_set_sequences as [| data_set_seq rest IH]; intros o.
  - cbn [compare_loop existsb]. unfold bind.
    destruct (when_write_debug_ok (DEBUG_MODE cfg) DbgNoValidSequence o)
      as [o1 ->]. reflexivity.
  - cbn [compare_loop existsb]. unfold reference_validatesb at 1.
    destruct (len data_set_seq =? 0); [cbn [negb andb orb]; apply IH|].
    cbn [negb andb]. unfold bind, lift, best_score, Qge_bool.
    pose proof (Hyields (slice_to sequence (INDEX_LEN cfg))
                        (slice_to data_set_seq (INDEX_LEN cfg))) as Hidx.
    destruct (align (cp_aligner compare_params)
                    (slice_to sequence (INDEX_LEN cfg))
                    (slice_to data_set_seq (INDEX_LEN cfg)))
      as [| alignment_idx ?]; [congruence|].
    cbn [first ok].
    destruct (Qle_bool (cp_min_valid_score compare_params) (score alignment_idx));
      [|cbn [andb orb]; apply IH].
    pose proof (Hyields sequence data_set_seq) as Hfull.
    destruct (align (cp_aligner compare_params) sequence data_set_seq)
      as [| alignment_seq ?]; [congruence|].
    cbn [first ok andb].
    destruct (when_write_debug_ok (DEBUG_MODE cfg)
                (DbgIndex (slice_to data_set_seq (INDEX_LEN cfg)) alignment_idx
                          (cp_min_valid_score compare_params)) o) as [o1 ->].
    unfold ok.
    destruct (Qle_bool min_valid_score (score alignment_seq));
      [|cbn [orb]; apply IH].
    destruct (when_write_debug_ok (DEBUG_MODE cfg)
                (DbgFull sequence data_set_seq alignment_seq min_valid_score) o1)
      as [o2 ->].
    reflexivity.
Qed.

(** An entry that does not validate the candidate is passed over: the scan
    continues with the rest of the dataset. *)
Lemma compare_loop_skip compare_params sequence min_valid_score data_set_seq o :
  (forall a b, align (cp_aligner compare_params) a b <> []) ->
  reference_validatesb align cfg (cp_aligner compare_params)
                       (cp_min_valid_score compare_params) min_valid_score
                       sequence data_set_seq = false ->
  exists o1, forall rest,
    compare_loop align cfg compare_params sequence min_valid_score
                 (slice_to sequence (INDEX_LEN cfg)) (data_set_seq :: rest) o
    = compare_loop align cfg compare_params sequence min_valid_score
                   (slice_to sequence (INDEX_LEN cfg)) rest o1.
Proof.
  intros Hyields. unfold reference_validatesb, best_score.
  cbn [compare_loop]. unfold bind, lift, Qge_bool.
  destruct (len data_set_seq =? 0); [intros _; now exists o|].
  pose proof (Hyields (slice_to sequence (INDEX_LEN cfg))
                      (slice_to data_set_seq (INDEX_LEN cfg))) as Hidx.
  destruct (align (cp_aligner compare_params)
                  (slice_to sequence (INDEX_LEN cfg))
                  (slice_to data_set_seq (INDEX_LEN cfg)))
    as [| alignment_idx ?]; [congruence|].
  cbn [first ok negb andb].
  destruct (Qle_bool (cp_min_valid_score compare_params) (score alignment_idx));
    [|intros _; now exists o].
  pose proof (Hyields sequence data_set_seq) as Hfull.
  destruct (align (cp_aligner compare_params) sequence data_set_seq)
    as [| alignment_seq ?]; [congruence|].
  cbn [first ok andb]. intros ->.
  destruct (when_write_debug_ok (DEBUG_MODE cfg)
              (DbgIndex (slice_to data_set_seq (INDEX_LEN cfg)) alignment_idx
                        (cp_min_valid_score compare_params)) o) as [o1 Hw].
  exists o1. intros rest. rewrite Hw. reflexivity.
Qed.

(** At an entry that validates the candidate the scan stops: what follows
    the entry is not consulted. *)
Lemma compare_loop_hit compare_params sequence min_valid_score data_set_seq o :
  (forall a b, align (cp_aligner compare_params) a b <> []) ->
  reference_validatesb align cfg (cp_aligner compare_params)
                       (cp_min_valid_score compare_params) min_valid_score
                       sequence data_set_seq = true ->
  exists o1, forall rest,
    compare_loop align cfg compare_params sequence min_valid_score
                 (slice_to sequence (INDEX_LEN cfg)) (data_set_seq :: rest) o
    = (ok FOUND_VALID_MATCH, o1).
Proof.
  intros Hyields. unfold reference_validatesb, best_score.
  cbn [compare_loop]. unfold bind, lift, Qge_bool.
  destruct (len data_set_seq =? 0); [discriminate|].
  pose proof (Hyields (slice_to sequence (INDEX_LEN cfg))
                      (slice_to data_set_seq (INDEX_LEN cfg))) as Hidx.
  destruct (align (cp_aligner compare_params)
                  (slice_to sequence (INDEX_LEN cfg))
                  (slice_to data_set_seq (INDEX_LEN cfg)))
    as [| alignment_idx ?]; [congruence|].
  cbn [first ok negb andb].
  destruct (Qle_bool (cp_min_valid_score compare_params) (score alignment_idx));
    [|discriminate].
  pose proof (Hyields sequence data_set_seq) as Hfull.
  destruct (align (cp_aligner compare_params) sequence data_set_seq)
    as [| alignment_seq ?]; [congruence|].
  cbn [first ok andb]. intros ->.
  destruct (when_write_debug_ok (DEBUG_MODE cfg)
              (DbgIndex (slice_to data_set_seq (INDEX_LEN cfg)) alignment_idx
                        (cp_min_valid_score compare_params)) o) as [o1 Hw].
  destruct (when_write_debug_ok (DEBUG_MODE cfg)
              (DbgFull sequence data_set_seq alignment_seq min_valid_score) o1)
    as [o2 Hw2].
  exists o2. intros rest. rewrite Hw. unfold ok. rewrite Hw2. reflexivity.
Qed.

(** The first entry that validates the candidate decides: the entries
    after it play no part. *)
Lemma compare_loop_first_hit compare_params sequence min_valid_score
      before hit after :
  (forall a b, align (cp_aligner compare_params) a b <> []) ->
  (forall data_set_seq,
      In data_set_seq before ->
      reference_validatesb align cfg (cp_aligner compare_params)
                           (cp_min_valid_score compare_params) min_valid_score
                           sequence data_set_seq = false) ->
  reference_validatesb align cfg (cp_aligner compare_params)
                       (cp_min_valid_score compare_params) min_valid_score
                       sequence hit = true ->
  forall o,
    compare_loop align cfg compare_params sequence min_valid_score
                 (slice_to sequence (INDEX_LEN cfg)) (before ++ hit :: after) o
    = compare_loop align cfg compare_params sequence min_valid_score
                   (slice_to sequence (INDEX_LEN cfg)) (before ++ [hit]) o.
Proof.
  intros Hyields Hbefore Hhit.
  induction before as [| data_set_seq before IH]; intros o.
  - cbn [app].
    destruct (compare_loop_hit compare_params sequence min_valid_score hit o
                               Hyields Hhit) as [o1 Hstop].
    now rewrite !Hstop.
  - cbn [app].
    destruct (compare_loop_skip compare_params sequence min_valid_score
                                data_set_seq o Hyields) as [o1 Hnext].
    { apply Hbefore. now left. }
    rewrite !Hnext. apply IH.
    intros r Hin. apply Hbefore. now right.
Qed.

End Validator.

(** C5. With the comparison aligner and index threshold that
    [run_filtering] builds (global mode, threshold formula at 0.85 and
    length [INDEX_LEN]) and an aligner that always yields an alignment, the
    dataset validator answers [FOUND_VALID_MATCH] exactly when some entry
    of the dataset is not empty and has both its index-prefix score at or
    above that threshold and its full-sequence score at or above the
    threshold formula at 0.85 and the candidate's length; in every other
    case it answers [FOUND_INVALID_MATCH]; it never answers
    [NO_MATCH_FOUND]. The dataset is scanned in stored order and the first
    such entry decides: the lines after it are not consulted. *)
Theorem dataset_validator_verdict :
  forall (align : PairwiseAligner -> string -> string -> list Alignment)
         (data_set_file : list string) (cfg : Config) (scores : Scores)
         (candidate : string) (o : Outputs),
    let compare_aligner :=
      fst (set_aligner_parameters scores Global (85 # 100) (INDEX_LEN cfg)) in
    let compare_params :=
      {| cp_aligner := compare_aligner;
         cp_min_valid_score :=
           snd (set_aligner_parameters scores Global (85 # 100) (INDEX_LEN cfg)) |} in
    let index_min :=
      percentage_to_min_score compare_aligner (85 # 100) (INDEX_LEN cfg) in
    let full_min :=
      percentage_to_min_score compare_aligner (85 # 100) (len candidate) in
    let verdict :=
      fst (compare_seq_to_dataset align data_set_file cfg compare_params
                                  candidate o) in
    (forall a b, align compare_aligner a b <> []) ->
    (verdict = ok FOUND_VALID_MATCH
     <-> exists reference,
           In reference (read_sequences_from_data_set data_set_file)
           /\ reference_validates align cfg compare_aligner index_min full_min
                                  candidate reference)
    /\ (verdict = ok FOUND_VALID_MATCH \/ verdict = ok FOUND_INVALID_MATCH)
    /\ verdict <> ok NO_MATCH_FOUND
    /\ (forall before hit after,
           data_set_file = before ++ hit :: after ->
           (forall line,
               In line before ->
               ~ reference_validates align cfg compare_aligner index_min
                                     full_min candidate (strip line)) ->
           reference_validates align cfg compare_aligner index_min full_min
                               candidate (strip hit) ->
           compare_seq_to_dataset align data_set_file cfg compare_params
                                  candidate o
           = compare_seq_to_dataset align (before ++ [hit]) cfg compare_params
                                    candidate o).
Proof.
  intros align data_set_file cfg scores candidate o
         compare_aligner compare_params index_min full_min verdict Hyields.
  assert (Hfirst :
            forall before hit after,
              data_set_file = before ++ hit :: after ->
              (forall line,
                  In line before ->
                  ~ reference_validates align cfg compare_aligner index_min
                                        full_min candidate (strip line)) ->
              reference_validates align cfg compare_aligner index_min full_min
                                  candidate (strip hit) ->
              compare_seq_to_dataset align data_set_file cfg compare_params
                                     candidate o
              = compare_seq_to_dataset align (before ++ [hit]) cfg
                                       compare_params candidate o).
  { intros before hit after -> Hbefore Hhit.
    unfold compare_seq_to_dataset, read_sequences_from_data_set.
    rewrite !map_app. cbn [map].
    apply (compare_loop_first_hit align cfg compare_params); [exact Hyields | |].
    - intros data_set_seq Hin. apply in_map_iff in Hin.
      destruct Hin as [line [<- Hin]].
      destruct (reference_validatesb _ _ _ _ _ _ (strip line)) eqn:E;
        [|reflexivity].
      apply reference_validatesb_iff in E. now apply Hbefore in E.
    - now apply reference_validatesb_iff. }
  assert (Hverdict :
            verdict
            = ok (if existsb (reference_validatesb align cfg compare_aligner
                                index_min full_min candidate)
                             (read_sequences_from_data_set data_set_file)
                  then FOUND_VALID_MATCH else FOUND_INVALID_MATCH)).
  { subst verdict. unfold compare_seq_to_dataset.
    now rewrite (compare_loop_verdict align cfg compare_params). }
  rewrite Hverdict.
  destruct (existsb _ _) eqn:E.
  - split; [|split; [now left | split; [discriminate | exact Hfirst]]].
    split; [intros _ | reflexivity].
    apply existsb_exists in E. destruct E as [reference [Hin Hval]].
    exists reference. split; [exact Hin|].
    now apply reference_validatesb_iff.
  - split; [|split; [now right | split; [discriminate | exact Hfirst]]].
    split; [discriminate|].
    intros [reference [Hin Hval]]. exfalso.
    apply reference_validatesb_iff in Hval.
    assert (existsb (reference_validatesb align cfg compare_aligner
                       index_min full_min candidate)
                    (read_sequences_from_data_set data_set_file) = true)
      by (apply existsb_exists; eauto).
    congruence.
Qed.

Lemma exact_align_yields aligner target query :
  exact_align aligner target query <> [].
Proof. unfold exact_align. destruct (index 0 query target); discriminate. Qed.

Lemma dataset_validator_verdict_witness :
  (forall a b, exact_align (cp_aligner default_compare_params) a b <> [])
  /\ fst (compare_seq_to_dataset exact_align sample_data_set_file config_py
                                 default_compare_params sample_candidate
                                 no_outputs)
     = ok FOUND_VALID_MATCH
  /\ exists reference,
       In reference (read_sequences_from_data_set sample_data_set_file)
       /\ reference_validates exact_align config_py
            (cp_aligner default_compare_params)
            (cp_min_valid_score default_compare_params)
            (percentage_to_min_score (cp_aligner default_compare_params)
                                     (85 # 100) (len sample_candidate))
            sample_candidate reference.
Proof.
  destruct (dataset_validator_verdict exact_align sample_data_set_file
              config_py DEFAULT_SCORES sample_candidate no_outputs
              (exact_align_yields _))
    as (Hiff & _ & _ & _).
  split; [intros a b; apply exact_align_yields|].
  split; [vm_compute; reflexivity|].
  apply Hiff. vm_compute. reflexivity.
Defined.

(** ** Reverse complement (helper_functions.py) *)

Lemma is_base_not_space c : is_base c = true -> bytes_isspace c = false.
Proof.
  destruct c as [[] [] [] [] [] [] [] []]; cbn; intros H;
    try discriminate; reflexivity.
Qed.

Lemma complement_map_base c :
  is_base c = true -> complement_map c = ok (complement c).
Proof.
  destruct c as [[] [] [] [] [] [] [] []]; cbn; intros H;
    try discriminate; reflexivity.
Qed.

Lemma Seq_rstrip_dna s : is_dna s = true -> Seq_rstrip s = s.
Proof.
  induction s as [| c s IH]; [reflexivity|].
  cbn [is_dna Seq_rstrip]. intros H. apply andb_true_iff in H as [Hc Hs].
  rewrite (IH Hs). destruct s; [|reflexivity].
  now rewrite (is_base_not_space _ Hc).
Qed.

Lemma complement_all_dna s :
  is_dna s = true ->
  complement_all (list_ascii_of_string s)
  = ok (map complement (list_ascii_of_string s)).
Proof.
  induction s as [| c s IH]; [reflexivity|].
  cbn [is_dna list_ascii_of_string complement_all map].
  intros H. apply andb_true_iff in H as [Hc Hs].
  rewrite (complement_map_base _ Hc), (IH Hs). reflexivity.
Qed.

(** On a sequence over A, C, G, T [copy_reverse_complement] returns the
    reverse complement. *)
Lemma copy_reverse_complement_dna s :
  is_dna s = true -> copy_reverse_complement s = ok (reverse_complement s).
Proof.
  intros H. unfold copy_reverse_complement.
  rewrite (Seq_rstrip_dna _ H), (complement_all_dna _ H). reflexivity.
Qed.

Lemma complement_map_not_base c :
  is_base c = false -> complement_map c = raise KeyError.
Proof.
  destruct c as [[] [] [] [] [] [] [] []]; cbn; intros H;
    try discriminate; reflexivity.
Qed.

Lemma complement_all_not_dna s :
  is_dna s = false -> complement_all (list_ascii_of_string s) = raise KeyError.
Proof.
  induction s as [| c s IH]; [discriminate|].
  cbn [is_dna list_ascii_of_string complement_all].
  destruct (is_base c) eqn:Ec.
  - cbn [andb]. intros Hs.
    rewrite (complement_map_base _ Ec), (IH Hs). reflexivity.
  - intros _. now rewrite (complement_map_not_base _ Ec).
Qed.


Lemma to_canonical_dna is_reversed s :
  is_dna s = true -> to_canonical is_reversed s = ok (canonical is_reversed s).
Proof.
  intros H. unfold to_canonical, canonical. destruct is_reversed; [|reflexivity].
  now rewrite (Seq_rstrip_dna _ H), H.
Qed.

Lemma substring_dna s : forall n m,
  is_dna s = true -> is_dna (substring n m s) = true.
Proof.
  induction s as [| c s IH]; intros n m H.
  - destruct n, m; reflexivity.
  - cbn [is_dna] in H. apply andb_true_iff in H as [Hc Hs].
    destruct n as [| n]; [destruct m as [| m]|]; cbn [substring is_dna].
    + reflexivity.
    + rewrite Hc. cbn [andb]. now apply IH.
    + now apply IH.
Qed.

Lemma slice_dna s lo hi : is_dna s = true -> is_dna (slice s lo hi) = true.
Proof.
  intros H. unfold slice.
  destruct (_ <? _); [now apply substring_dna | reflexivity].
Qed.

(** ** The dual-primer stage (search_functions.py) *)



Lemma get_alignment_positions_blocks alignment :
  has_blocks alignment ->
  get_alignment_positions alignment = ok (start_of alignment, end_of alignment).
Proof.
  unfold has_blocks, get_alignment_positions, start_of, end_of, Py.last.
  destruct (aligned0 alignment) as [| block blocks] eqn:E; [congruence|].
  intros _. cbn [first rbind ok].
  destruct (rev (block :: blocks)) as [| last_block ?] eqn:Erev.
  - apply (f_equal (@List.length _)) in Erev.
    rewrite length_rev in Erev. discriminate.
  - reflexivity.
Qed.

Section DualPrimer.

Variable align : PairwiseAligner -> string -> string -> list Alignment.
Variable data_set_file : list string.
Variable cfg : Config.




End DualPrimer.


(** On a read over A, C, G, T and with one of the two mode switches on,
    the amended stage is the stage of the specification. *)
Lemma dual_stage_amended_validated align data_set_file cfg valid_alignments
      sequence compare_params is_reversed o :
  MACHINE_LEARNING_MODE cfg || DEBUG_MODE cfg = true ->
  is_dna sequence = true ->
  dual_stage_amended align data_set_file cfg valid_alignments sequence
                     compare_params is_reversed o
  = dual_stage_spec align data_set_file cfg valid_alignments sequence
                    compare_params is_reversed o.
Proof.
  intros Hmode Hdna. unfold dual_stage_amended, dual_stage_spec.
  destruct (first_pair_in_window _ _ _) as [[f_align b_align] |];
    [|reflexivity].
  rewrite !to_canonical_dna by now apply slice_dna.
  unfold ok. cbv zeta. now rewrite Hmode.
Qed.




(** ** Per-file and aggregate statistics (main_sequence_filtering.py) *)

Lemma share_is_percentage (part whole : Z) :
  0 <= part <= whole -> 0 < whole ->
  is_percentage (inject_Z part / inject_Z whole * 100)%Q.
Proof.
  intros [Hlo Hhi] Hpos.
  assert (Hwhole : (0 < inject_Z whole)%Q)
    by (change 0%Q with (inject_Z 0); rewrite <- Zlt_Qlt; exact Hpos).
  assert (H0 : (0 <= inject_Z part / inject_Z whole)%Q).
  { apply Qle_shift_div_l; [exact Hwhole|]. rewrite Qmult_0_l.
    change 0%Q with (inject_Z 0). rewrite <- Zle_Qle. exact Hlo. }
  assert (H1 : (inject_Z part / inject_Z whole <= 1)%Q).
  { apply Qle_shift_div_r; [exact Hwhole|]. rewrite Qmult_1_l.
    rewrite <- Zle_Qle. exact Hhi. }
  unfold is_percentage. split; lra.
Qed.

Lemma sound_statistics_percentage stats :
  sound_statistics stats -> is_percentage (percent_filtered stats).
Proof.
  intros (Hf & Hv & Hi & Hsum & Hpct).
  unfold counters_partition in Hsum. rewrite Hpct.
  destruct (seq_count stats =? 0) eqn:E.
  - unfold is_percentage. split; lra.
  - apply Z.eqb_neq in E. apply share_is_percentage; lia.
Qed.

Lemma sound_statistics_init : sound_statistics Statistics_init.
Proof. repeat split; cbn; lia. Qed.

Section FileStatistics.

Variable align : PairwiseAligner -> string -> string -> list Alignment.
Variable data_set_file : list string.
Variable cfg : Config.

(** Each turn of the loop over the reads adds one to exactly one counter. *)
Lemma classify_reads_counts aligner min_valid_score compare_params reads :
  forall filtered valid invalid o filtered' valid' invalid' o',
    classify_reads align data_set_file cfg aligner min_valid_score
                   compare_params reads (filtered, valid, invalid) o
    = (ok (filtered', valid', invalid'), o') ->
    filtered <= filtered' /\ valid <= valid' /\ invalid <= invalid'
    /\ filtered' + valid' + invalid'
       = filtered + valid + invalid + Z.of_nat (List.length reads).
Proof.
  induction reads as [| seq_input rest IH];
    intros filtered valid invalid o filtered' valid' invalid' o' Hrun.
  - cbn in Hrun. injection Hrun as <- <- <- _. cbn. lia.
  - cbn [classify_reads] in Hrun. unfold bind in Hrun.
    destruct (search_seq_and_write _ _ _ _ _ _ _ o) as [[e | search_res] o1];
      [discriminate|].
    destruct search_res; apply IH in Hrun;
      cbn [List.length]; rewrite Nat2Z.inj_succ; lia.
Qed.

Lemma process_file_sound file_index fastq_file aligner min_valid_score
      compare_aligner compare_min_valid_score stats :
  fst (process_file align data_set_file cfg file_index fastq_file aligner
                    min_valid_score compare_aligner compare_min_valid_score)
  = ok stats ->
  sound_statistics stats.
Proof.
  unfold process_file, process_file_body, bind, lift.
  destruct (read_FASTQ_file (fastq_lines fastq_file))
    as [e | [seq_dict n]] eqn:Eread; [discriminate|].
  apply read_FASTQ_file_count in Eread.
  destruct (when_write_debug_ok (DEBUG_MODE cfg) (DbgStartOfFile file_index)
                                no_outputs) as [o1 ->].
  unfold ok.
  destruct (classify_reads _ _ _ _ _ _ _ _ o1)
    as [[e | [[filtered valid] invalid]] o2] eqn:Eloop; [discriminate|].
  apply classify_reads_counts in Eloop.
  unfold keys in Eloop. rewrite length_map in Eloop.
  destruct (when _ _ o2) as [[e | []] o3]; [discriminate|].
  destruct (MACHINE_LEARNING_MODE cfg); unfold ret, ok; cbn [fst];
    intros H; injection H as <-.
  - unfold sound_statistics, counters_partition, percent_as_reported.
    cbn [seq_count filtered_out_count valid_seq_count invalid_seq_count
         percent_filtered].
    repeat split; try lia.
    destruct (n =? 0); reflexivity.
  - apply sound_statistics_init.
Qed.

End FileStatistics.

(** Adding sound file statistics to sound aggregate statistics gives sound
    aggregate statistics; a failed future leaves them as they are. *)
Lemma collect_future_sound acc future :
  sound_statistics (fst acc) ->
  (forall file_stats, fst future = ok file_stats -> sound_statistics file_stats) ->
  sound_statistics (fst (collect_future acc future)).
Proof.
  destruct acc as [eval_stats file_stats_list]. cbn [fst].
  intros Heval Hfile. unfold collect_future.
  destruct (fst future) as [exc | file_stats]; [exact Heval|].
  specialize (Hfile file_stats eq_refl).
  destruct Heval as (Hf & Hv & Hi & Hsum & Hpct).
  destruct Hfile as (Hf' & Hv' & Hi' & Hsum' & _).
  unfold sound_statistics, counters_partition, percent_as_reported in *.
  cbn [fst seq_count filtered_out_count valid_seq_count invalid_seq_count
       percent_filtered].
  repeat split; try lia.
  destruct (seq_count eval_stats + seq_count file_stats =? 0) eqn:E;
    [|reflexivity].
  cbn [negb]. apply Z.eqb_eq in E.
  assert (E0 : seq_count eval_stats = 0) by lia.
  rewrite Hpct, E0. reflexivity.
Qed.

Lemma fold_collect_future_sound futures : forall acc,
  sound_statistics (fst acc) ->
  (forall future file_stats,
      In future futures -> fst future = ok file_stats ->
      sound_statistics file_stats) ->
  sound_statistics (fst (fold_left collect_future futures acc)).
Proof.
  induction futures as [| future rest IH]; intros acc Hacc Hall.
  - exact Hacc.
  - cbn [fold_left]. apply IH.
    + apply collect_future_sound; [exact Hacc|].
      intros file_stats. apply Hall. now left.
    + intros future' file_stats Hin. apply Hall. now right.
Qed.

Lemma run_filtering_sound align data_set_file cfg as_completed scores input_dir :
  (forall futures, incl (as_completed futures) futures) ->
  sound_statistics
    (fst (run_filtering align data_set_file cfg as_completed scores input_dir)).
Proof.
  intros Hsubset. unfold run_filtering. cbn [set_aligner_parameters].
  destruct (MACHINE_LEARNING_MODE cfg); [|apply sound_statistics_init].
  apply fold_collect_future_sound; [apply sound_statistics_init|].
  intros future file_stats Hin Hok.
  apply Hsubset in Hin. apply in_map_iff in Hin.
  destruct Hin as [[file_index fastq_file] [<- _]].
  now apply process_file_sound in Hok.
Qed.

Lemma total_app counter (l1 l2 : list Statistics) :
  total counter (l1 ++ l2) = total counter l1 + total counter l2.
Proof.
  unfold total. induction l1 as [| st l1 IH]; cbn [app fold_right]; lia.
Qed.

Lemma total_Permutation counter (l1 l2 : list Statistics) :
  Permutation l1 l2 -> total counter l1 = total counter l2.
Proof.
  unfold total. induction 1; cbn [fold_right]; lia.
Qed.

Lemma fold_collect_future_sums futures : forall eval_stats file_stats_list,
  let after := fold_left collect_future futures (eval_stats, file_stats_list) in
  snd after = file_stats_list ++ completed_stats futures
  /\ seq_count (fst after)
     = seq_count eval_stats + total seq_count (completed_stats futures)
  /\ filtered_out_count (fst after)
     = filtered_out_count eval_stats
       + total filtered_out_count (completed_stats futures)
  /\ valid_seq_count (fst after)
     = valid_seq_count eval_stats
       + total valid_seq_count (completed_stats futures)
  /\ invalid_seq_count (fst after)
     = invalid_seq_count eval_stats
       + total invalid_seq_count (completed_stats futures)
  /\ loss (fst after) = loss eval_stats
  /\ file_name (fst after) = file_name eval_stats.
Proof.
  induction futures as [| future rest IH]; intros eval_stats file_stats_list;
    cbv zeta.
  - cbn. rewrite app_nil_r. repeat split; lia.
  - destruct future as [[exc | file_stats] out].
    + change (fold_left collect_future ((inl exc, out) :: rest)
                        (eval_stats, file_stats_list))
        with (fold_left collect_future rest (eval_stats, file_stats_list)).
      change (completed_stats ((inl exc, out) :: rest))
        with (completed_stats rest).
      apply IH.
    + change (completed_stats ((inr file_stats, out) :: rest))
        with (file_stats :: completed_stats rest).
      cbn [fold_left].
      match goal with
      | |- context [fold_left collect_future rest ?acc] =>
          destruct acc as [e l] eqn:Estep
      end.
      unfold collect_future in Estep. cbn [fst] in Estep. cbv zeta in Estep.
      specialize (IH e l). cbv zeta in IH.
      destruct IH as (H0 & H1 & H2 & H3 & H4 & H5 & H6).
      rewrite H0, H1, H2, H3, H4, H5, H6.
      injection Estep as <- <-.
      unfold total. cbn [fold_right seq_count filtered_out_count
                         valid_seq_count invalid_seq_count loss file_name].
      rewrite <- app_assoc. repeat split; lia.
Qed.

Lemma completed_stats_In futures file_stats :
  In file_stats (completed_stats futures) ->
  exists future, In future futures /\ fst future = ok file_stats.
Proof.
  unfold completed_stats. intros Hin. apply in_flat_map in Hin.
  destruct Hin as [[[exc | st] out] [Hin Hstats]]; cbn [fst] in Hstats;
    [destruct Hstats|].
  destruct Hstats as [<- | []]. exists (inr st, out). split; [exact Hin|].
  reflexivity.
Qed.

(** What [run_filtering] returns in machine-learning mode: the fold of the
    aggregation loop over the futures as they complete. *)
Lemma run_filtering_learning align data_set_file cfg as_completed scores
      input_dir :
  MACHINE_LEARNING_MODE cfg = true ->
  run_filtering align data_set_file cfg as_completed scores input_dir
  = fold_left collect_future
      (as_completed (submitted_futures align data_set_file cfg scores 0
                                       input_dir))
      (Statistics_init, []).
Proof.
  intros Hml. unfold run_filtering, submitted_futures.
  cbn [set_aligner_parameters]. rewrite Hml. reflexivity.
Qed.

Lemma run_filtering_plain align data_set_file cfg as_completed scores
      input_dir :
  MACHINE_LEARNING_MODE cfg = false ->
  run_filtering align data_set_file cfg as_completed scores input_dir
  = (Statistics_init, []).
Proof.
  intros Hml. unfold run_filtering. cbn [set_aligner_parameters].
  rewrite Hml. reflexivity.
Qed.

(** C10. The statistics of every processed file satisfy
    [filtered_out_count + valid_seq_count + invalid_seq_count = seq_count],
    with no counter negative. One turn of the aggregation loop adds the four
    counters of a completed file to those of the aggregate, coordinate by
    coordinate, and appends the file's statistics to the list (a file that
    failed changes nothing), which preserves the equation. So the aggregate
    statistics [run_filtering] returns are, counter by counter, the sums of
    the file statistics it returns beside them, which in machine-learning
    mode are those of the submitted files that completed, in the order of
    completion; each of them satisfies the equation and so does the
    aggregate, in whatever order (and for whichever of) the submitted files
    complete. *)
Theorem statistics_counters_partition :
  forall (align : PairwiseAligner -> string -> string -> list Alignment)
         (data_set_file : list string) (cfg : Config)
         (as_completed : list (result Statistics * Outputs) ->
                         list (result Statistics * Outputs)),
    (forall futures, incl (as_completed futures) futures) ->
    (forall file_index fastq_file aligner min_valid_score compare_aligner
            compare_min_valid_score file_stats,
        fst (process_file align data_set_file cfg file_index fastq_file aligner
                          min_valid_score compare_aligner
                          compare_min_valid_score) = ok file_stats ->
        counters_partition file_stats
        /\ 0 <= filtered_out_count file_stats
        /\ 0 <= valid_seq_count file_stats
        /\ 0 <= invalid_seq_count file_stats)
    /\ (forall eval_stats file_stats_list future file_stats,
           fst future = ok file_stats ->
           let after := collect_future (eval_stats, file_stats_list) future in
           seq_count (fst after) = seq_count eval_stats + seq_count file_stats
           /\ filtered_out_count (fst after)
              = filtered_out_count eval_stats + filtered_out_count file_stats
           /\ valid_seq_count (fst after)
              = valid_seq_count eval_stats + valid_seq_count file_stats
           /\ invalid_seq_count (fst after)
              = invalid_seq_count eval_stats + invalid_seq_count file_stats
           /\ snd after = file_stats_list ++ [file_stats])
    /\ (forall acc future exc,
           fst future = raise exc -> collect_future acc future = acc)
    /\ (forall eval_stats file_stats_list future file_stats,
           counters_partition eval_stats ->
           fst future = ok file_stats ->
           counters_partition file_stats ->
           counters_partition
             (fst (collect_future (eval_stats, file_stats_list) future)))
    /\ (forall scores input_dir,
           let eval_stats :=
             fst (run_filtering align data_set_file cfg as_completed scores
                                input_dir) in
           let file_stats_list :=
             snd (run_filtering align data_set_file cfg as_completed scores
                                input_dir) in
           (MACHINE_LEARNING_MODE cfg = true ->
            file_stats_list
            = completed_stats
                (as_completed (submitted_futures align data_set_file cfg
                                                 scores 0 input_dir)))
           /\ Forall counters_partition file_stats_list
           /\ seq_count eval_stats = total seq_count file_stats_list
           /\ filtered_out_count eval_stats
              = total filtered_out_count file_stats_list
           /\ valid_seq_count eval_stats
              = total valid_seq_count file_stats_list
           /\ invalid_seq_count eval_stats
              = total invalid_seq_count file_stats_list
           /\ counters_partition eval_stats).
Proof.
  intros align data_set_file cfg as_completed Hsubset.
  split; [|split; [|split; [|split]]].
  - intros file_index fastq_file aligner min_valid_score compare_aligner
           compare_min_valid_score file_stats Hok.
    apply process_file_sound in Hok.
    destruct Hok as (Hf & Hv & Hi & Hsum & _). auto.
  - intros eval_stats file_stats_list future file_stats Hok after.
    subst after. unfold collect_future. rewrite Hok.
    cbn. repeat split; reflexivity.
  - intros [eval_stats file_stats_list] future exc Hexc.
    unfold collect_future. rewrite Hexc. reflexivity.
  - intros eval_stats file_stats_list future file_stats Heval Hok Hfile.
    unfold collect_future. rewrite Hok.
    unfold counters_partition in *. cbn.
    lia.
  - intros scores input_dir eval_stats file_stats_list.
    assert (Hlist :
              file_stats_list
              = if MACHINE_LEARNING_MODE cfg
                then completed_stats
                       (as_completed
                          (submitted_futures align data_set_file cfg scores 0
                                             input_dir))
                else []).
    { subst file_stats_list.
      destruct (MACHINE_LEARNING_MODE cfg) eqn:Hml.
      - rewrite (run_filtering_learning _ _ _ _ _ _ Hml).
        pose proof (fold_collect_future_sums
                      (as_completed
                         (submitted_futures align data_set_file cfg scores 0
                                            input_dir))
                      Statistics_init []) as H.
        cbv zeta in H. exact (proj1 H).
      - now rewrite (run_filtering_plain _ _ _ _ _ _ Hml). }
    assert (Hsums :
              seq_count eval_stats = total seq_count file_stats_list
              /\ filtered_out_count eval_stats
                 = total filtered_out_count file_stats_list
              /\ valid_seq_count eval_stats
                 = total valid_seq_count file_stats_list
              /\ invalid_seq_count eval_stats
                 = total invalid_seq_count file_stats_list).
    { rewrite Hlist. subst eval_stats.
      destruct (MACHINE_LEARNING_MODE cfg) eqn:Hml.
      - rewrite (run_filtering_learning _ _ _ _ _ _ Hml).
        pose proof (fold_collect_future_sums
                      (as_completed
                         (submitted_futures align data_set_file cfg scores 0
                                            input_dir))
                      Statistics_init []) as H.
        cbv zeta in H. destruct H as (_ & H1 & H2 & H3 & H4 & _).
        rewrite H1, H2, H3, H4. cbn. repeat split; reflexivity.
      - rewrite (run_filtering_plain _ _ _ _ _ _ Hml). cbn.
        repeat split; reflexivity. }
    split; [|split].
    + intros Hml. rewrite Hlist, Hml. reflexivity.
    + rewrite Hlist. destruct (MACHINE_LEARNING_MODE cfg); [|constructor].
      apply Forall_forall. intros file_stats Hin.
      apply completed_stats_In in Hin. destruct Hin as [future [Hin Hok]].
      apply Hsubset in Hin. unfold submitted_futures in Hin.
      cbn [set_aligner_parameters] in Hin. apply in_map_iff in Hin.
      destruct Hin as [[file_index fastq_file] [<- _]].
      apply process_file_sound in Hok.
      destruct Hok as (_ & _ & _ & Hsum & _). exact Hsum.
    + destruct Hsums as (H1 & H2 & H3 & H4).
      repeat split; try assumption.
      now apply (run_filtering_sound align data_set_file cfg as_completed).
Qed.

Lemma statistics_counters_partition_witness :
  (forall futures, incl (completed_last_first futures) futures)
  /\ fst (process_file exact_align poly_C_data_set config_py 2
                       (nth 1 two_runs_dir (mkFastqFile "" []))
                       default_aligner default_min_valid_score
                       (cp_aligner default_compare_params)
                       (cp_min_valid_score default_compare_params))
     = ok {| seq_count := 2; filtered_out_count := 1; valid_seq_count := 0;
             invalid_seq_count := 1; percent_filtered := 100 # 2;
             loss := INVALID_FIELD; file_name := "run1" |}
  /\ counters_partition
       {| seq_count := 2; filtered_out_count := 1; valid_seq_count := 0;
          invalid_seq_count := 1; percent_filtered := 100 # 2;
          loss := INVALID_FIELD; file_name := "run1" |}
  /\ run_filtering exact_align poly_C_data_set config_py completed_last_first
                   DEFAULT_SCORES two_runs_dir
     = ({| seq_count := 3; filtered_out_count := 2; valid_seq_count := 0;
           invalid_seq_count := 1; percent_filtered := 200 # 3;
           loss := INVALID_FIELD; file_name := "" |},
        [ {| seq_count := 1; filtered_out_count := 1; valid_seq_count := 0;
             invalid_seq_count := 0; percent_filtered := 100 # 1;
             loss := INVALID_FIELD; file_name := "run2" |};
          {| seq_count := 2; filtered_out_count := 1; valid_seq_count := 0;
             invalid_seq_count := 1; percent_filtered := 100 # 2;
             loss := INVALID_FIELD; file_name := "run1" |} ])
  /\ seq_count
       (fst (run_filtering exact_align poly_C_data_set config_py
                           completed_last_first DEFAULT_SCORES two_runs_dir))
     = total seq_count
         (snd (run_filtering exact_align poly_C_data_set config_py
                             completed_last_first DEFAULT_SCORES two_runs_dir))
  /\ Forall counters_partition
       (snd (run_filtering exact_align poly_C_data_set config_py
                           completed_last_first DEFAULT_SCORES two_runs_dir))
  /\ counters_partition
       (fst (run_filtering exact_align poly_C_data_set config_py
                           completed_last_first DEFAULT_SCORES two_runs_dir)).
Proof.
  assert (Hsubset : forall futures, incl (completed_last_first futures) futures).
  { intros futures future Hin. now apply in_rev in Hin. }
  assert (Hrun :
            fst (process_file exact_align poly_C_data_set config_py 2
                              (nth 1 two_runs_dir (mkFastqFile "" []))
                              default_aligner default_min_valid_score
                              (cp_aligner default_compare_params)
                              (cp_min_valid_score default_compare_params))
            = ok {| seq_count := 2; filtered_out_count := 1;
                    valid_seq_count := 0; invalid_seq_count := 1;
                    percent_filtered := 100 # 2;
                    loss := INVALID_FIELD; file_name := "run1" |})
    by (vm_compute; reflexivity).
  destruct (statistics_counters_partition exact_align poly_C_data_set config_py
              completed_last_first Hsubset) as (Hfile & _ & _ & _ & Haggregate).
  destruct (Haggregate DEFAULT_SCORES two_runs_dir)
    as (_ & Hfiles & Hseq & _ & _ & _ & Hpartition).
  split; [exact Hsubset|]. split; [exact Hrun|].
  split; [exact (proj1 (Hfile _ _ _ _ _ _ _ Hrun))|].
  split; [vm_compute; reflexivity|].
  split; [exact Hseq|]. split; [exact Hfiles | exact Hpartition].
Defined.

(** ** The naive baseline (naive_dna_sequence_filter.py) *)

Section NaiveBounds.

Variable cfg : Config.

Lemma naive_count_filtered_bounds primers sequences : forall count_filtered,
  count_filtered
  <= naive_count_filtered cfg primers sequences count_filtered
  <= count_filtered + Z.of_nat (List.length sequences).
Proof.
  induction sequences as [| sequence rest IH]; intros count_filtered.
  - cbn. lia.
  - cbn [naive_count_filtered List.length]. rewrite Nat2Z.inj_succ.
    match goal with
    | |- _ <= naive_count_filtered _ _ _ ?c <= _ => pose proof (IH c) as Hrest
    end.
    destruct (negb (naive_search_and_write_seq cfg sequence (np_front primers)
                                               (np_back primers)));
      [destruct (negb (naive_search_and_write_seq cfg sequence
                                                  (np_front_rc primers)
                                                  (np_back_rc primers)))|];
      lia.
Qed.

Lemma naive_filtering_of_file_bounds input_file primers filtered_count
      sequence_count :
  naive_filtering_of_file cfg input_file primers
  = ok (filtered_count, sequence_count) ->
  0 <= filtered_count <= sequence_count.
Proof.
  unfold naive_filtering_of_file, rbind.
  destruct (read_FASTQ_file (fastq_lines input_file)) as [e | [seq_dict n]];
    [discriminate|].
  unfold ok. intros H. injection H as <- <-.
  pose proof (naive_count_filtered_bounds primers (keys seq_dict) 0). lia.
Qed.

Lemma naive_totals_bounds primers files :
  forall total_filtered total_sequences total_filtered' total_sequences',
    0 <= total_filtered <= total_sequences ->
    naive_totals cfg primers files total_filtered total_sequences
    = ok (total_filtered', total_sequences') ->
    0 <= total_filtered' <= total_sequences'.
Proof.
  induction files as [| file rest IH];
    intros tf ts tf' ts' Hbounds Hrun.
  - cbn in Hrun. injection Hrun as <- <-. exact Hbounds.
  - cbn [naive_totals] in Hrun.
    destruct (endswith (fastq_name file) ".fastq"); [|now apply IH in Hrun].
    unfold rbind in Hrun.
    destruct (naive_filtering_of_file cfg file primers)
      as [e | [filtered_count sequence_count]] eqn:Efile; [discriminate|].
    apply naive_filtering_of_file_bounds in Efile.
    apply IH in Hrun; [exact Hrun | lia].
Qed.

Lemma naive_filtering_percent_is_percentage input_dir percent :
  naive_filtering_percent_of_dir cfg input_dir = ok percent ->
  is_percentage percent.
Proof.
  unfold naive_filtering_percent_of_dir, rbind.
  destruct (copy_reverse_complement (back (PRIMERS cfg))) as [e | front_rc];
    [discriminate|].
  destruct (copy_reverse_complement (front (PRIMERS cfg))) as [e | back_rc];
    [discriminate|].
  destruct (naive_totals _ _ _ _ _) as [e | [total_filtered total_sequences]]
    eqn:Etotals; [discriminate|].
  apply naive_totals_bounds in Etotals; [|lia].
  destruct (total_sequences >? 0) eqn:Epos; [|discriminate].
  apply Z.gtb_lt in Epos.
  unfold ok. intros H. injection H as <-.
  apply share_is_percentage; lia.
Qed.

End NaiveBounds.

(** C9. In the statistics [process_file] returns and in the aggregate
    statistics [run_filtering] returns, [percent_filtered] is 0 when
    [seq_count] is 0 and [(filtered_out_count / seq_count) * 100]
    otherwise, and lies in [[0, 100]]; and whenever the naive baseline
    returns a percentage, it lies in [[0, 100]]. *)
Theorem percent_filtered_reported_and_bounded :
  forall (align : PairwiseAligner -> string -> string -> list Alignment)
         (data_set_file : list string) (cfg : Config)
         (as_completed : list (result Statistics * Outputs) ->
                         list (result Statistics * Outputs)),
    (forall futures, incl (as_completed futures) futures) ->
    (forall file_index fastq_file aligner min_valid_score compare_aligner
            compare_min_valid_score file_stats,
        fst (process_file align data_set_file cfg file_index fastq_file aligner
                          min_valid_score compare_aligner
                          compare_min_valid_score) = ok file_stats ->
        percent_as_reported file_stats
        /\ is_percentage (percent_filtered file_stats))
    /\ (forall scores input_dir,
           let eval_stats :=
             fst (run_filtering align data_set_file cfg as_completed scores
                                input_dir) in
           percent_as_reported eval_stats
           /\ is_percentage (percent_filtered eval_stats))
    /\ (forall input_dir percent,
           naive_filtering_percent_of_dir cfg input_dir = ok percent ->
           is_percentage percent).
Proof.
  intros align data_set_file cfg as_completed Hsubset.
  split; [|split].
  - intros file_index fastq_file aligner min_valid_score compare_aligner
           compare_min_valid_score file_stats Hok.
    apply process_file_sound in Hok. split.
    + apply Hok.
    + now apply sound_statistics_percentage.
  - intros scores input_dir eval_stats.
    pose proof (run_filtering_sound align data_set_file cfg as_completed
                                    scores input_dir Hsubset) as Hsound.
    split.
    + apply Hsound.
    + now apply sound_statistics_percentage.
  - intros input_dir percent. apply naive_filtering_percent_is_percentage.
Qed.

Lemma percent_filtered_reported_and_bounded_witness :
  (forall futures, incl (completed_last_first futures) futures)
  /\ percent_filtered
       (fst (run_filtering exact_align poly_C_data_set config_py
                           completed_last_first DEFAULT_SCORES sample_dir))
     = 100 # 2
  /\ is_percentage
       (percent_filtered
          (fst (run_filtering exact_align poly_C_data_set config_py
                              completed_last_first DEFAULT_SCORES sample_dir)))
  /\ naive_filtering_percent_of_dir config_py sample_dir = ok (100 # 2)
  /\ is_percentage (100 # 2).
Proof.
  assert (Hsubset : forall futures, incl (completed_last_first futures) futures).
  { intros futures future Hin. now apply in_rev in Hin. }
  assert (Hnaive : naive_filtering_percent_of_dir config_py sample_dir
                   = ok (100 # 2)) by (vm_compute; reflexivity).
  destruct (percent_filtered_reported_and_bounded exact_align poly_C_data_set
              config_py completed_last_first Hsubset)
    as (_ & Haggregate & Hbaseline).
  split; [exact Hsubset|].
  split; [vm_compute; reflexivity|].
  split; [exact (proj2 (Haggregate DEFAULT_SCORES sample_dir))|].
  split; [exact Hnaive|].
  exact (Hbaseline sample_dir (100 # 2) Hnaive).
Defined.

(** ** Empty corpus *)

Lemma naive_totals_empty_corpus cfg primers input_dir total_filtered total_sequences :
  empty_corpus input_dir ->
  naive_totals cfg primers input_dir total_filtered total_sequences =
  ok (total_filtered, total_sequences).
Proof.
  intros Hempty. revert total_filtered total_sequences.
  induction Hempty as [| file rest Hfile _ IH]; intros tf ts.
  - reflexivity.
  - cbn [naive_totals].
    destruct (endswith (fastq_name file) ".fastq") eqn:Efastq.
    + destruct (Hfile eq_refl) as [seq_dict Hread].
      pose proof (read_FASTQ_file_count _ _ _ Hread) as Hlen.
      assert (seq_dict = []) as ->.
      { destruct seq_dict; [reflexivity|]. cbn in Hlen. lia. }
      unfold naive_filtering_of_file. rewrite Hread. cbn.
      rewrite !Z.add_0_r. apply IH.
    + apply IH.
Qed.

Lemma process_file_empty align data_set_file cfg file_index fastq_file aligner
      min_valid_score compare_aligner compare_min_valid_score seq_dict stats :
  read_FASTQ_file (fastq_lines fastq_file) = ok (seq_dict, 0) ->
  fst (process_file align data_set_file cfg file_index fastq_file aligner
                    min_valid_score compare_aligner compare_min_valid_score)
  = ok stats ->
  seq_count stats = 0.
Proof.
  intros Hread.
  unfold process_file, process_file_body, bind, lift. rewrite Hread.
  unfold ok. cbv beta iota.
  destruct (when_write_debug_ok (DEBUG_MODE cfg) (DbgStartOfFile file_index)
                                no_outputs) as [o1 ->].
  unfold ok.
  destruct (classify_reads _ _ _ _ _ _ _ _ o1)
    as [[e | [[filtered valid] invalid]] o2]; [discriminate|].
  destruct (when _ _ o2) as [[e | []] o3]; [discriminate|].
  destruct (MACHINE_LEARNING_MODE cfg); unfold ret, ok; cbn [fst];
    intros H; injection H as <-; reflexivity.
Qed.

Lemma fold_collect_future_empty futures : forall acc,
  seq_count (fst acc) = 0 ->
  (forall future file_stats,
      In future futures -> fst future = ok file_stats ->
      seq_count file_stats = 0) ->
  seq_count (fst (fold_left collect_future futures acc)) = 0.
Proof.
  induction futures as [| future rest IH]; intros acc Hacc Hall.
  - exact Hacc.
  - cbn [fold_left]. apply IH.
    + destruct acc as [eval_stats file_stats_list]. unfold collect_future.
      destruct (fst future) as [exc | file_stats] eqn:Efuture; [exact Hacc|].
      cbn in *. rewrite Hacc, (Hall future file_stats); auto.
    + intros future' file_stats Hin. apply Hall. now right.
Qed.

(** Over a corpus with zero sequences the aggregate [seq_count] is 0. *)
Lemma run_filtering_empty_corpus align data_set_file cfg as_completed scores
      input_dir :
  (forall futures, incl (as_completed futures) futures) ->
  empty_corpus input_dir ->
  seq_count
    (fst (run_filtering align data_set_file cfg as_completed scores input_dir))
  = 0.
Proof.
  intros Hsubset Hempty. unfold run_filtering. cbn [set_aligner_parameters].
  destruct (MACHINE_LEARNING_MODE cfg); [|reflexivity].
  apply fold_collect_future_empty; [reflexivity|].
  intros future file_stats Hin Hok.
  apply Hsubset in Hin. apply in_map_iff in Hin.
  destruct Hin as [[file_index fastq_file] [<- Hin]].
  apply filter_In in Hin. destruct Hin as [Hin Hfastq].
  assert (Hfile : In fastq_file input_dir).
  { clear - Hin. revert Hin. generalize 0 as i.
    induction input_dir as [| file rest IH]; intros i Hin; [contradiction|].
    cbn [enumerate_from] in Hin. destruct Hin as [Heq | Hin].
    - injection Heq as _ <-. now left.
    - right. exact (IH _ Hin). }
  unfold empty_corpus in Hempty. rewrite Forall_forall in Hempty.
  destruct (Hempty fastq_file Hfile Hfastq) as [seq_dict Hread].
  exact (process_file_empty _ _ _ _ _ _ _ _ _ _ _ Hread Hok).
Qed.

(** C7. On a corpus with zero sequences in total the naive baseline raises
    [AssertionError]; with an aggregate [seq_count] of 0 the loss
    computation raises [AssertionError], and so it does on the aggregate
    statistics [run_filtering] returns for such a corpus: none of them
    returns a value. (The primers are assumed to be over A, C, G, T, so
    that building their reverse complements does not fail first.) *)
Theorem empty_corpus_is_fatal :
  forall (align : PairwiseAligner -> string -> string -> list Alignment)
         (data_set_file : list string) (cfg : Config)
         (as_completed : list (result Statistics * Outputs) ->
                         list (result Statistics * Outputs))
         (scores : Scores) (input_dir : list FastqFile)
         (naive_percent_filtered : Q) (eval_stats : Statistics),
    (exists front_rc, copy_reverse_complement (back (PRIMERS cfg)) = ok front_rc) ->
    (exists back_rc, copy_reverse_complement (front (PRIMERS cfg)) = ok back_rc) ->
    (forall futures, incl (as_completed futures) futures) ->
    empty_corpus input_dir ->
    seq_count eval_stats = 0 ->
    naive_filtering_percent_of_dir cfg input_dir = raise AssertionError
    /\ score_comparison naive_percent_filtered eval_stats = raise AssertionError
    /\ score_comparison naive_percent_filtered
         (fst (run_filtering align data_set_file cfg as_completed scores
                             input_dir))
       = raise AssertionError.
Proof.
  intros align data_set_file cfg as_completed scores input_dir naive st
         [front_rc Hfront] [back_rc Hback] Hsubset Hempty Hzero.
  split; [|split].
  - unfold naive_filtering_percent_of_dir.
    rewrite Hfront, Hback. cbn [rbind ok].
    rewrite (naive_totals_empty_corpus _ _ _ _ _ Hempty). reflexivity.
  - unfold score_comparison. rewrite Hzero. reflexivity.
  - unfold score_comparison.
    rewrite (run_filtering_empty_corpus _ _ _ _ _ _ Hsubset Hempty).
    reflexivity.
Qed.

Lemma empty_corpus_is_fatal_witness :
  naive_filtering_percent_of_dir config_py
    [ {| fastq_name := "run1.fastq"; fastq_lines := [] |};
      {| fastq_name := "notes.txt"; fastq_lines := ["@r"; "ACGT"; "+"; "IIII"] |} ]
  = raise AssertionError
  /\ score_comparison 50 Statistics_init = raise AssertionError
  /\ score_comparison 50
       (fst (run_filtering exact_align poly_C_data_set config_py
               completed_last_first DEFAULT_SCORES
               [ {| fastq_name := "run1.fastq"; fastq_lines := [] |};
                 {| fastq_name := "notes.txt";
                    fastq_lines := ["@r"; "ACGT"; "+"; "IIII"] |} ]))
     = raise AssertionError.
Proof.
  apply empty_corpus_is_fatal.
  - eexists. vm_compute. reflexivity.
  - eexists. vm_compute. reflexivity.
  - intros futures future Hin. now apply in_rev in Hin.
  - repeat constructor.
    + intros _. eexists. vm_compute. reflexivity.
    + vm_compute. discriminate.
  - reflexivity.
Defined.

(** * Further properties of the code *)

(** ** Reverse complement, continued (helper_functions.py) *)

Lemma is_dna_forallb s :
  is_dna s = forallb is_base (list_ascii_of_string s).
Proof.
  induction s as [| c s IH]; [reflexivity|].
  cbn [is_dna list_ascii_of_string forallb]. now rewrite IH.
Qed.

Lemma complement_base c :
  is_base c = true ->
  is_base (complement c) = true /\ complement (complement c) = c.
Proof.
  destruct c as [[] [] [] [] [] [] [] []]; cbn; intros H;
    try discriminate; split; reflexivity.
Qed.

Lemma list_ascii_of_reverse_complement s :
  list_ascii_of_string (reverse_complement s)
  = rev (map complement (list_ascii_of_string s)).
Proof.
  unfold reverse_complement, reversed.
  now rewrite !list_ascii_of_string_of_list_ascii.
Qed.

Lemma reverse_complement_dna s :
  is_dna s = true -> is_dna (reverse_complement s) = true.
Proof.
  rewrite !is_dna_forallb, list_ascii_of_reverse_complement.
  rewrite !forallb_forall. intros H c Hin.
  apply in_rev, in_map_iff in Hin. destruct Hin as [c' [<- Hin]].
  now apply complement_base, H.
Qed.

Lemma reverse_complement_involutive s :
  is_dna s = true -> reverse_complement (reverse_complement s) = s.
Proof.
  intros H.
  rewrite <- (string_of_list_ascii_of_string (reverse_complement _)).
  rewrite list_ascii_of_reverse_complement, list_ascii_of_reverse_complement.
  rewrite map_rev, rev_involutive, map_map.
  rewrite <- (string_of_list_ascii_of_string s) at 2. f_equal.
  rewrite is_dna_forallb, forallb_forall in H.
  rewrite <- (map_id (list_ascii_of_string s)) at 2.
  apply map_ext_in. intros c Hin. now apply complement_base, H.
Qed.

Lemma length_list_ascii s :
  List.length (list_ascii_of_string s) = String.length s.
Proof. induction s; cbn; congruence. Qed.

Lemma len_reverse_complement s : len (reverse_complement s) = len s.
Proof.
  unfold len. f_equal.
  rewrite <- !length_list_ascii, list_ascii_of_reverse_complement.
  now rewrite length_rev, length_map.
Qed.

(** X1. On a sequence over A, C, G, T, [copy_reverse_complement] returns a
    sequence over A, C, G, T of the same length, and applying it again
    gives the sequence back. *)
Theorem copy_reverse_complement_round_trip :
  forall sequence : string,
    is_dna sequence = true ->
    exists rc : string,
      copy_reverse_complement sequence = ok rc
      /\ is_dna rc = true
      /\ len rc = len sequence
      /\ copy_reverse_complement rc = ok sequence.
Proof.
  intros sequence Hdna. exists (reverse_complement sequence).
  split; [now apply copy_reverse_complement_dna|].
  split; [now apply reverse_complement_dna|].
  split; [apply len_reverse_complement|].
  rewrite copy_reverse_complement_dna by now apply reverse_complement_dna.
  now rewrite reverse_complement_involutive.
Qed.

Lemma copy_reverse_complement_round_trip_witness :
  is_dna FRONT_PRIMER = true
  /\ exists rc : string,
       copy_reverse_complement FRONT_PRIMER = ok rc
       /\ is_dna rc = true
       /\ len rc = len FRONT_PRIMER
       /\ copy_reverse_complement rc = ok FRONT_PRIMER.
Proof.
  split; [reflexivity|].
  apply (copy_reverse_complement_round_trip FRONT_PRIMER). reflexivity.
Defined.

(** X2. [copy_reverse_complement] ignores the trailing whitespace that
    [Seq.rstrip] strips (tab, newline, vertical tab, form feed, carriage
    return, space), and raises [KeyError] exactly when what is left holds a
    symbol other than A, C, G and T (an N, a lower-case base, a blank
    inside the sequence, a separator control character at its end);
    otherwise it returns the reverse complement of what is left. *)
Theorem copy_reverse_complement_cases :
  forall sequence : string,
    copy_reverse_complement sequence
    = if is_dna (Seq_rstrip sequence)
      then ok (reverse_complement (Seq_rstrip sequence))
      else raise KeyError.
Proof.
  intros sequence. unfold copy_reverse_complement.
  destruct (is_dna (Seq_rstrip sequence)) eqn:E.
  - now rewrite (complement_all_dna _ E).
  - now rewrite (complement_all_not_dna _ E).
Qed.

(** ** Overlap of ranges (helper_functions.py) *)

Lemma is_overlap_exists start end_ regions :
  is_overlap start end_ regions = true
  <-> exists region,
        In region regions /\ fst region <= end_ /\ start <= snd region.
Proof.
  induction regions as [| region rest IH]; cbn [is_overlap In].
  - split; [discriminate | intros [? [[] _]]].
  - destruct (negb ((end_ <? fst region) || (start >? snd region))) eqn:E.
    + split; [intros _ | reflexivity].
      apply negb_true_iff, orb_false_iff in E. destruct E as [E1 E2].
      apply Z.ltb_ge in E1. rewrite Z.gtb_ltb in E2. apply Z.ltb_ge in E2.
      exists region. auto.
    + rewrite IH. apply negb_false_iff, orb_true_iff in E.
      rewrite Z.ltb_lt, Z.gtb_ltb, Z.ltb_lt in E.
      split.
      * intros [r [Hin H]]. exists r. auto.
      * intros [r [[<- | Hin] H]]; [lia | exists r; auto].
Qed.

(** X3. For a range [start..end] and regions that are not reversed,
    [is_overlap] answers [True] exactly when the range shares a position
    with one of the regions, both taken with their two ends included
    (ranges that only touch do overlap); with no region it answers
    [False]. *)
Theorem is_overlap_shares_position :
  forall (start end_ : Z) (regions : list (Z * Z)),
    start <= end_ ->
    Forall ordered_region regions ->
    (is_overlap start end_ regions = true
     <-> exists region x,
           In region regions
           /\ start <= x <= end_
           /\ fst region <= x <= snd region).
Proof.
  intros start end_ regions Hrange Hregions.
  rewrite is_overlap_exists. split.
  - intros [region [Hin [H1 H2]]].
    rewrite Forall_forall in Hregions. specialize (Hregions _ Hin).
    unfold ordered_region in Hregions.
    exists region, (Z.max start (fst region)). split; [exact Hin|]. lia.
  - intros [region [x [Hin [H1 H2]]]]. exists region. split; [exact Hin|]. lia.
Qed.

Lemma is_overlap_shares_position_witness :
  3 <= 7
  /\ Forall ordered_region [(0, 2); (7, 9)]
  /\ (is_overlap 3 7 [(0, 2); (7, 9)] = true
      <-> exists region x,
            In region [(0, 2); (7, 9)]
            /\ 3 <= x <= 7
            /\ fst region <= x <= snd region).
Proof.
  assert (Hregions : Forall ordered_region [(0, 2); (7, 9)])
    by (repeat constructor; unfold ordered_region; cbn; lia).
  split; [lia|]. split; [exact Hregions|].
  apply (is_overlap_shares_position 3 7 [(0, 2); (7, 9)]); [lia | exact Hregions].
Defined.

(** ** Thresholds, continued (helper_functions.py, config.py) *)

(** In the search space the penalties are negative and the match score is
    positive, so the threshold at 0.85 lies, for a length [L], between
    [0.1 * L] and [0.85 * match_score * L - 0.15 * L]. *)
Lemma search_space_threshold_room (scores : Scores) (mode : Mode) (length : Z) :
  in_DEFAULT_SEARCH_SPACE scores ->
  0 <= length ->
  let min_valid_score :=
    snd (set_aligner_parameters scores mode (85 # 100) length) in
  ((1 # 10) * inject_Z length <= min_valid_score)%Q
  /\ (min_valid_score
      <= (85 # 100) * s_match_score scores * inject_Z length
         - (15 # 100) * inject_Z length)%Q.
Proof.
  intros (Hm & Hmm & Ho & He) Hlen min_valid_score.
  assert (HL : (0 <= inject_Z length)%Q)
    by (change 0%Q with (inject_Z 0); now rewrite <- Zle_Qle).
  subst min_valid_score. unfold set_aligner_parameters. cbn [snd].
  rewrite percentage_to_min_score_unfold.
  cbn [match_score mismatch_score open_gap_score extend_gap_score].
  set (m := s_match_score scores) in *.
  set (x := s_mismatch_score scores) in *.
  set (y := s_open_gap_score scores) in *.
  set (z := s_extend_gap_score scores) in *.
  set (L := inject_Z length) in *.
  assert (E : (m * L * (85 # 100) + (x + y + z) / 3 * (1 - (85 # 100)) * L
               == ((85 # 100) * m + (5 # 100) * (x + y + z)) * L)%Q)
    by (field).
  set (k := ((85 # 100) * m + (5 # 100) * (x + y + z))%Q) in *.
  assert (Hk : ((1 # 10) <= k /\ k <= (85 # 100) * m - (15 # 100))%Q)
    by (subst k; split; lra).
  assert (H1 : (0 <= (k - (1 # 10)) * L)%Q)
    by (apply Qmult_le_0_compat; lra).
  assert (H2 : (0 <= ((85 # 100) * m - (15 # 100) - k) * L)%Q)
    by (apply Qmult_le_0_compat; lra).
  assert (E1 : ((k - (1 # 10)) * L == k * L - (1 # 10) * L)%Q) by ring.
  assert (E2 : (((85 # 100) * m - (15 # 100) - k) * L
                == (85 # 100) * m * L - (15 # 100) * L - k * L)%Q) by ring.
  rewrite E. split; lra.
Qed.

(** X4. With the aligner and threshold [run_filtering] builds for the
    primer search (threshold formula at 0.85 and the length of the front
    primer, also for the back primer) from scores of
    [DEFAULT_SEARCH_SPACE], an alignment of the read with the front or the
    back primer that scores at least 0.85 times
    [match_score * len(front primer)] (so also a run of matches as long as
    the front primer) is kept by [get_valid_alignments]. The threshold is
    below that score by 0.15 per symbol of the primer at least, so the
    rounding of the floats does not matter here. *)
Theorem full_match_alignment_is_valid :
  forall (align : PairwiseAligner -> string -> string -> list Alignment)
         (cfg : Config) (scores : Scores) (sequence : string)
         (alignment : Alignment),
    let aligner :=
      fst (set_aligner_parameters scores Local (85 # 100)
                                  (len (front (PRIMERS cfg)))) in
    let min_valid_score :=
      snd (set_aligner_parameters scores Local (85 # 100)
                                  (len (front (PRIMERS cfg)))) in
    let valid_alignments :=
      get_valid_alignments align aligner min_valid_score sequence
                           (PRIMERS cfg) in
    in_DEFAULT_SEARCH_SPACE scores ->
    ((85 # 100) * s_match_score scores
     * inject_Z (len (front (PRIMERS cfg))) <= score alignment)%Q ->
    (In alignment (align aligner sequence (front (PRIMERS cfg))) ->
     In alignment (va_front valid_alignments))
    /\ (In alignment (align aligner sequence (back (PRIMERS cfg))) ->
        In alignment (va_back valid_alignments)).
Proof.
  intros align cfg scores sequence alignment aligner min_valid_score
         valid_alignments Hspace Hscore.
  assert (Hlen : 0 <= len (front (PRIMERS cfg))) by (unfold len; lia).
  assert (HL : (0 <= inject_Z (len (front (PRIMERS cfg))))%Q)
    by (change 0%Q with (inject_Z 0); now rewrite <- Zle_Qle).
  assert (Hmin : (min_valid_score <= score alignment)%Q).
  { destruct (search_space_threshold_room scores Local _ Hspace Hlen)
      as [_ Hroom].
    cbv zeta in Hroom. fold min_valid_score in Hroom. lra. }
  apply Qle_bool_iff in Hmin.
  split; intros Hin; cbn [valid_alignments get_valid_alignments va_front va_back];
    apply filter_In; split; assumption.
Qed.

Lemma full_match_alignment_is_valid_witness :
  in_DEFAULT_SEARCH_SPACE DEFAULT_SCORES
  /\ ((85 # 100) * s_match_score DEFAULT_SCORES
      * inject_Z (len (front (PRIMERS config_py))) <= 120)%Q
  /\ In {| score := 120; aligned0 := [(0, 33)] |}
        (va_front
           (get_valid_alignments
              (fun _ _ _ => [ {| score := 120; aligned0 := [(0, 33)] |} ])
              default_aligner default_min_valid_score perfect_read
              (PRIMERS config_py))).
Proof.
  assert (Hspace : in_DEFAULT_SEARCH_SPACE DEFAULT_SCORES)
    by (unfold in_DEFAULT_SEARCH_SPACE; cbn; repeat split; lra).
  assert (Hscore : ((85 # 100) * s_match_score DEFAULT_SCORES
                    * inject_Z (len (front (PRIMERS config_py))) <= 120)%Q)
    by (vm_compute; discriminate).
  split; [exact Hspace|]. split; [exact Hscore|].
  apply (full_match_alignment_is_valid
           (fun _ _ _ => [ {| score := 120; aligned0 := [(0, 33)] |} ])
           config_py DEFAULT_SCORES perfect_read
           {| score := 120; aligned0 := [(0, 33)] |} Hspace Hscore).
  now left.
Defined.

(** X5. For every scores vector of [DEFAULT_SEARCH_SPACE] and every
    positive length, the threshold at 0.85 is positive, so an alignment
    with a score of 0 or less never qualifies, and it is below 0.85 times
    the score of a run of matches of that length. Both bounds are strict
    with room to spare (a tenth of the length below, 0.15 times the length
    above), so the rounding of the floats does not matter here. *)
Theorem search_space_threshold_bounds :
  forall (scores : Scores) (mode : Mode) (length : Z),
    in_DEFAULT_SEARCH_SPACE scores ->
    0 < length ->
    let min_valid_score :=
      snd (set_aligner_parameters scores mode (85 # 100) length) in
    (0 < min_valid_score)%Q
    /\ (min_valid_score
        < (85 # 100) * s_match_score scores * inject_Z length)%Q
    /\ (forall alignment_score : Q,
           (alignment_score <= 0)%Q ->
           Qge_bool alignment_score min_valid_score = false).
Proof.
  intros scores mode length Hspace Hlen min_valid_score.
  assert (HL : (0 < inject_Z length)%Q)
    by (change 0%Q with (inject_Z 0); now rewrite <- Zlt_Qlt).
  destruct (search_space_threshold_room scores mode length Hspace)
    as [Hlow Hhigh]; [lia|].
  cbv zeta in Hlow, Hhigh. fold min_valid_score in Hlow, Hhigh.
  assert (Hpos : (0 < min_valid_score)%Q) by lra.
  split; [exact Hpos|]. split; [lra|].
  intros alignment_score Hscore. unfold Qge_bool.
  destruct (Qle_bool min_valid_score alignment_score) eqn:E; [|reflexivity].
  apply Qle_bool_iff in E. lra.
Qed.

Lemma search_space_threshold_bounds_witness :
  in_DEFAULT_SEARCH_SPACE DEFAULT_SCORES
  /\ 0 < 33
  /\ (0 < default_min_valid_score)%Q
  /\ (default_min_valid_score
      < (85 # 100) * s_match_score DEFAULT_SCORES * inject_Z 33)%Q.
Proof.
  assert (Hspace : in_DEFAULT_SEARCH_SPACE DEFAULT_SCORES)
    by (unfold in_DEFAULT_SEARCH_SPACE; cbn; repeat split; lra).
  split; [exact Hspace|]. split; [lia|].
  destruct (search_space_threshold_bounds DEFAULT_SCORES Local 33
              Hspace eq_refl) as (Hpos & Hbelow & _).
  split; [exact Hpos | exact Hbelow].
Defined.

(** ** Reading a file, continued (helper_functions.py) *)

Lemma dict_get_set {V : Type} (d : list (string * V)) k v k' :
  dict_get (dict_set d k v) k'
  = if String.eqb k k' then Some v else dict_get d k'.
Proof.
  induction d as [| [k0 v0] d IH]; cbn [dict_set dict_get].
  - reflexivity.
  - destruct (String.eqb k0 k) eqn:E0.
    + apply String.eqb_eq in E0. subst k0. cbn [dict_get].
      destruct (String.eqb k k'); reflexivity.
    + cbn [dict_get]. destruct (String.eqb k0 k') eqn:E1; [|exact IH].
      apply String.eqb_eq in E1. subst k0. now rewrite String.eqb_sym, E0.
Qed.

Lemma keys_dict_set {V : Type} (d : list (string * V)) k v k' :
  In k' (keys (dict_set d k v)) <-> k' = k \/ In k' (keys d).
Proof.
  unfold keys. induction d as [| [k0 v0] d IH]; cbn [dict_set map In fst].
  - intuition congruence.
  - destruct (String.eqb k0 k) eqn:E0.
    + apply String.eqb_eq in E0. subst k0. cbn [map In fst].
      intuition congruence.
    + cbn [map In fst]. rewrite IH. intuition congruence.
Qed.

Lemma NoDup_keys_dict_set {V : Type} (d : list (string * V)) k v :
  NoDup (keys d) -> NoDup (keys (dict_set d k v)).
Proof.
  unfold keys. induction d as [| [k0 v0] d IH]; cbn [dict_set map fst].
  - intros _. repeat constructor. intros [].
  - intros Hnodup. inversion Hnodup as [| ? ? Hnotin Hrest]; subst.
    destruct (String.eqb k0 k) eqn:E0.
    + apply String.eqb_eq in E0. subst k0. cbn [map fst].
      now constructor.
    + cbn [map fst]. constructor; [|now apply IH].
      intros Hin. apply (keys_dict_set d k v k0) in Hin.
      destruct Hin as [-> | Hin]; [|contradiction].
      now rewrite String.eqb_refl in E0.
Qed.

Lemma length_dict_set {V : Type} (d : list (string * V)) k v :
  (List.length (dict_set d k v) <= S (List.length d))%nat.
Proof.
  induction d as [| [k0 v0] d IH]; cbn [dict_set List.length]; [lia|].
  destruct (String.eqb k0 k); cbn [List.length]; lia.
Qed.

Lemma dict_of_pairs_facts {V : Type} (kvs : list (string * V)) :
  forall d,
    let d' := fold_left (fun d kv => dict_set d (fst kv) (snd kv)) kvs d in
    (NoDup (keys d) -> NoDup (keys d'))
    /\ (forall k, In k (keys d') <-> In k (map fst kvs) \/ In k (keys d))
    /\ (List.length d' <= List.length d + List.length kvs)%nat
    /\ (forall k,
           dict_get d' k
           = fold_left (fun found kv =>
                          if String.eqb (fst kv) k then Some (snd kv) else found)
                       kvs (dict_get d k)).
Proof.
  induction kvs as [| [k0 v0] kvs IH]; intros d; cbn [fold_left].
  - cbn. repeat split; auto; try lia. intros [[] | H]; exact H.
  - specialize (IH (dict_set d k0 v0)). cbn zeta in IH.
    destruct IH as (Hnodup & Hkeys & Hlen & Hget).
    cbn [fst snd map In List.length]. repeat split.
    + intros H. now apply Hnodup, NoDup_keys_dict_set.
    + rewrite Hkeys, keys_dict_set. intuition congruence.
    + rewrite Hkeys, keys_dict_set. intuition congruence.
    + pose proof (length_dict_set d k0 v0). lia.
    + intros k. rewrite Hget, dict_get_set. reflexivity.
Qed.

Lemma parse_seq_data_nonempty seq_data :
  forall i_even empty_seq seq ascii_scores seq' ascii_scores',
    parse_seq_data seq_data i_even empty_seq seq ascii_scores
    = ok (seq', ascii_scores') ->
    Forall (fun s => s <> "") seq ->
    Forall (fun s => s <> "") seq'.
Proof.
  induction seq_data as [| data rest IH];
    intros i_even empty_seq seq ascii_scores seq' ascii_scores' Hparse Hseq.
  - cbn in Hparse. injection Hparse as <- _. exact Hseq.
  - cbn [parse_seq_data] in Hparse. destruct i_even.
    + destruct (len data =? 0) eqn:E.
      * exact (IH _ _ _ _ _ _ Hparse Hseq).
      * apply (IH _ _ _ _ _ _ Hparse).
        apply Forall_app. split; [exact Hseq|].
        constructor; [|constructor].
        apply Z.eqb_neq in E. intros ->. now apply E.
    + destruct empty_seq; [exact (IH _ _ _ _ _ _ Hparse Hseq)|].
      cbv zeta in Hparse.
      destruct (Z.of_nat _ =? 0); [discriminate|].
      exact (IH _ _ _ _ _ _ Hparse Hseq).
Qed.

Lemma in_combine_fst {A B : Type} (l : list A) (l' : list B) x :
  In x (map fst (combine l l')) -> In x l.
Proof.
  intros Hin. apply in_map_iff in Hin. destruct Hin as [[a b] [<- Hin]].
  exact (in_combine_l _ _ _ _ Hin).
Qed.

(** X6. Whatever the text, when [read_FASTQ_file] returns, the sequences
    of its dictionary are pairwise distinct and none of them is empty, and
    the count it returns with the dictionary is the number of these
    sequences. *)
Theorem read_FASTQ_file_keys :
  forall (fastq_lines : list string) (seq_dict : list (string * Q)) (n : Z),
    read_FASTQ_file fastq_lines = ok (seq_dict, n) ->
    NoDup (keys seq_dict)
    /\ Forall (fun sequence => sequence <> "") (keys seq_dict)
    /\ n = Z.of_nat (List.length (keys seq_dict)).
Proof.
  intros fastq_lines seq_dict n Hread.
  pose proof (read_FASTQ_file_count _ _ _ Hread) as Hcount.
  unfold read_FASTQ_file, rbind in Hread.
  destruct (parse_seq_data _ _ _ _ _) as [e | [seq ascii_scores]] eqn:Eparse;
    [discriminate|].
  unfold ok in Hread. injection Hread as <- _.
  apply parse_seq_data_nonempty in Eparse; [|constructor].
  destruct (dict_of_pairs_facts (combine seq ascii_scores) [])
    as (Hnodup & Hkeys & _).
  cbn zeta in Hnodup, Hkeys. fold (dict_of_pairs (combine seq ascii_scores)) in *.
  split; [apply Hnodup; constructor|].
  split.
  - apply Forall_forall. intros k Hin. apply Hkeys in Hin.
    destruct Hin as [Hin | []].
    apply in_combine_fst in Hin.
    rewrite Forall_forall in Eparse. now apply Eparse.
  - unfold keys. now rewrite length_map.
Qed.

Lemma read_FASTQ_file_keys_witness :
  read_FASTQ_file ["@r1"; "ACGT"; "+"; "IIII"; "@r2"; "ACGT"; "+"; "5555"]
  = ok ([("ACGT", 80 # 4)], 1)
  /\ NoDup (keys [("ACGT", 80 # 4)])
  /\ Forall (fun sequence => sequence <> "") (keys [("ACGT", 80 # 4)])
  /\ 1 = Z.of_nat (List.length (keys [("ACGT", 80 # 4)])).
Proof.
  assert (Hread :
            read_FASTQ_file
              ["@r1"; "ACGT"; "+"; "IIII"; "@r2"; "ACGT"; "+"; "5555"]
            = ok ([("ACGT", 80 # 4)], 1)) by (vm_compute; reflexivity).
  split; [exact Hread|].
  exact (read_FASTQ_file_keys _ _ _ Hread).
Defined.

Lemma even_indexed_record s p q (text : list string) :
  even_indexed (s :: p :: q :: text) = s :: q :: even_indexed (tl text).
Proof. destruct text; reflexivity. Qed.

Lemma even_indexed_fastq_text records :
  even_indexed (tl (fastq_text records))
  = flat_map (fun r => [rec_sequence r; rec_quality r]) records.
Proof.
  induction records as [| r records IH]; [reflexivity|].
  cbn [fastq_text flat_map record_lines app tl].
  rewrite even_indexed_record. fold (fastq_text records).
  now rewrite IH.
Qed.

Lemma len_list_ascii_nonzero s :
  s <> "" -> (Z.of_nat (List.length (list_ascii_of_string s)) =? 0) = false.
Proof.
  intros Hs. apply Z.eqb_neq. destruct s; [congruence|]. cbn. lia.
Qed.

Lemma parse_seq_data_records records : forall seq ascii_scores,
  Forall readable_record records ->
  parse_seq_data
    (map strip (flat_map (fun r => [rec_sequence r; rec_quality r]) records))
    true false seq ascii_scores
  = ok (seq ++ map (fun r => strip (rec_sequence r)) records,
        ascii_scores
        ++ map (fun r => mean_quality (strip (rec_quality r))) records).
Proof.
  induction records as [| r records IH]; intros seq ascii_scores Hall.
  - cbn. now rewrite !app_nil_r.
  - inversion Hall as [| ? ? [Hseq Hqual] Hrest]; subst.
    cbn [flat_map app map parse_seq_data].
    assert (E : (len (strip (rec_sequence r)) =? 0) = false).
    { apply Z.eqb_neq. intros H. now apply len_zero_iff in H. }
    rewrite E. cbv zeta.
    assert (E2 : (Z.of_nat
                    (List.length
                       (map (fun char => ord char - 33)
                            (list_ascii_of_string (strip (rec_quality r)))))
                  =? 0) = false)
      by (rewrite length_map; now apply len_list_ascii_nonzero).
    rewrite E2, (IH _ _ Hrest). cbn [map].
    rewrite <- !app_assoc. reflexivity.
Qed.

Lemma combine_map {A B C : Type} (f : A -> B) (g : A -> C) (l : list A) :
  combine (map f l) (map g l) = map (fun x => (f x, g x)) l.
Proof. induction l; cbn; congruence. Qed.

Lemma fold_left_last_quality (records : list FastqRecord) k : forall found,
  fold_left (fun found kv =>
               if String.eqb (fst kv) k then Some (snd kv) else found)
            (map (fun r => (strip (rec_sequence r),
                            mean_quality (strip (rec_quality r)))) records)
            found
  = fold_left (fun found r =>
                 if String.eqb (strip (rec_sequence r)) k
                 then Some (mean_quality (strip (rec_quality r)))
                 else found)
              records found.
Proof.
  induction records as [| r rs IH]; intros found; [reflexivity|].
  cbn [map fold_left fst snd]. apply IH.
Qed.

(** X7. A text made of records whose sequence and quality lines are not
    blank is read back as its records: the dictionary maps every sequence
    (stripped) to the mean quality of the LAST record that carries it, so
    records with the same sequence collapse into one entry without their
    qualities being averaged together, and the count is at most the number
    of records. *)
Theorem read_FASTQ_file_records :
  forall records : list FastqRecord,
    Forall readable_record records ->
    exists (seq_dict : list (string * Q)) (n : Z),
      read_FASTQ_file (fastq_text records) = ok (seq_dict, n)
      /\ seq_dict
         = dict_of_pairs
             (map (fun r => (strip (rec_sequence r),
                             mean_quality (strip (rec_quality r))))
                  records)
      /\ (forall k, dict_get seq_dict k = last_quality_of k records)
      /\ (forall k,
             In k (keys seq_dict)
             <-> exists r, In r records /\ strip (rec_sequence r) = k)
      /\ 0 <= n <= Z.of_nat (List.length records).
Proof.
  intros records Hall.
  unfold read_FASTQ_file.
  rewrite even_indexed_fastq_text, (parse_seq_data_records _ _ _ Hall).
  cbn [app rbind ok]. rewrite combine_map.
  set (kvs := map (fun r => (strip (rec_sequence r),
                             mean_quality (strip (rec_quality r)))) records).
  destruct (dict_of_pairs_facts kvs []) as (_ & Hkeys & Hlen & Hget).
  cbn zeta in Hkeys, Hlen, Hget. fold (dict_of_pairs kvs) in *.
  exists (dict_of_pairs kvs), (Z.of_nat (List.length (dict_of_pairs kvs))).
  split; [reflexivity|]. split; [reflexivity|]. split; [|split].
  - intros k. rewrite Hget. unfold last_quality_of, kvs. cbn [dict_get].
    apply fold_left_last_quality.
  - intros k. rewrite Hkeys. unfold kvs. rewrite map_map. cbn [fst].
    rewrite in_map_iff. cbn. split.
    + intros [[r [<- Hin]] | []]. eauto.
    + intros [r [Hin <-]]. left. eauto.
  - assert (Hkvs : List.length kvs = List.length records)
      by (unfold kvs; apply length_map).
    cbn [List.length] in Hlen. lia.
Qed.

Lemma read_FASTQ_file_records_witness :
  Forall readable_record
    [ mkFastqRecord "@r1" "ACGT" "+" "IIII";
      mkFastqRecord "@r2" " ACGT " "+" "5555" ]
  /\ exists (seq_dict : list (string * Q)) (n : Z),
       read_FASTQ_file
         (fastq_text [ mkFastqRecord "@r1" "ACGT" "+" "IIII";
                       mkFastqRecord "@r2" " ACGT " "+" "5555" ])
       = ok (seq_dict, n)
       /\ dict_get seq_dict "ACGT" = Some (80 # 4)
       /\ 0 <= n <= 2.
Proof.
  assert (Hall : Forall readable_record
                   [ mkFastqRecord "@r1" "ACGT" "+" "IIII";
                     mkFastqRecord "@r2" " ACGT " "+" "5555" ])
    by (repeat constructor; vm_compute; discriminate).
  split; [exact Hall|].
  destruct (read_FASTQ_file_records _ Hall)
    as (seq_dict & n & Hread & _ & Hget & _ & Hn).
  exists seq_dict, n. split; [exact Hread|]. split; [|exact Hn].
  rewrite Hget. vm_compute. reflexivity.
Defined.

(** X8. A text whose first record has a sequence line that is not blank
    and a blank quality line makes [read_FASTQ_file] raise
    [ZeroDivisionError], whatever follows. *)
Theorem read_FASTQ_file_blank_quality :
  forall (header sequence separator quality : string) (rest : list string),
    strip sequence <> "" ->
    strip quality = "" ->
    read_FASTQ_file (header :: sequence :: separator :: quality :: rest)
    = raise ZeroDivisionError.
Proof.
  intros header sequence separator quality rest Hseq Hqual.
  unfold read_FASTQ_file. cbn [tl]. rewrite even_indexed_record.
  cbn [map parse_seq_data]. rewrite Hqual.
  assert (E : (len (strip sequence) =? 0) = false).
  { apply Z.eqb_neq. intros H. now apply len_zero_iff in H. }
  rewrite E. reflexivity.
Qed.

Lemma read_FASTQ_file_blank_quality_witness :
  read_FASTQ_file ["@r1"; "ACGT"; "+"; "  "; "@r2"; "ACGT"; "+"; "IIII"]
  = raise ZeroDivisionError.
Proof.
  apply read_FASTQ_file_blank_quality; vm_compute; [discriminate | reflexivity].
Defined.

(** X9. A first record whose sequence line is blank is dropped together
    with its quality line: the text is read as the text without that
    record. *)
Theorem read_FASTQ_file_blank_sequence :
  forall (header sequence separator quality : string) (rest : list string),
    strip sequence = "" ->
    read_FASTQ_file (header :: sequence :: separator :: quality :: rest)
    = read_FASTQ_file rest.
Proof.
  intros header sequence separator quality rest Hseq.
  unfold read_FASTQ_file. cbn [tl]. rewrite even_indexed_record.
  cbn [map parse_seq_data]. rewrite Hseq. reflexivity.
Qed.

Lemma read_FASTQ_file_blank_sequence_witness :
  read_FASTQ_file ["@r1"; " "; "+"; "IIII"; "@r2"; "ACGT"; "+"; "IIII"]
  = read_FASTQ_file ["@r2"; "ACGT"; "+"; "IIII"].
Proof.
  apply read_FASTQ_file_blank_sequence. reflexivity.
Defined.

(** ** Slices and searches of Python strings *)

Lemma length_substring s : forall n m,
  String.length (substring n m s) = Nat.min m (String.length s - n).
Proof.
  induction s as [| c s IH]; intros n m.
  - destruct n, m; reflexivity.
  - destruct n as [| n]; [destruct m as [| m]|]; cbn [substring String.length].
    + reflexivity.
    + rewrite IH. cbn. now rewrite Nat.sub_0_r.
    + rewrite IH. reflexivity.
Qed.

Lemma len_nonneg s : 0 <= len s.
Proof. unfold len. lia. Qed.

Lemma len_slice s lo hi :
  0 <= lo <= len s -> 0 <= hi <= len s ->
  len (slice s lo hi) = Z.max 0 (hi - lo).
Proof.
  intros Hlo Hhi. unfold slice, clamp_index.
  destruct (lo <? 0) eqn:E1; [apply Z.ltb_lt in E1; lia|].
  destruct (hi <? 0) eqn:E2; [apply Z.ltb_lt in E2; lia|].
  rewrite !Z.min_l by lia.
  destruct (lo <? hi) eqn:E3.
  - apply Z.ltb_lt in E3. unfold len in *. rewrite length_substring. lia.
  - apply Z.ltb_ge in E3. cbn. lia.
Qed.

Lemma prefix_length s1 : forall s2,
  prefix s1 s2 = true -> (String.length s1 <= String.length s2)%nat.
Proof.
  induction s1 as [| a s1 IH]; intros s2 H; [cbn; lia|].
  destruct s2 as [| b s2]; [discriminate|].
  cbn in H. destruct (ascii_dec a b); [|discriminate].
  apply IH in H. cbn. lia.
Qed.

Lemma index_bound s1 s2 : forall m,
  index 0 s1 s2 = Some m -> (m + String.length s1 <= String.length s2)%nat.
Proof.
  induction s2 as [| b s2 IH]; intros m H.
  - cbn in H. destruct s1; [|discriminate]. injection H as <-. cbn. lia.
  - cbn [index] in H.
    destruct (prefix s1 (String b s2)) eqn:Ep.
    + injection H as <-. now apply prefix_length in Ep.
    + destruct (index 0 s1 s2) as [m' |]; [|discriminate].
      injection H as <-. specialize (IH m' eq_refl). cbn. lia.
Qed.

(** [find] returns -1 or the start of an occurrence that lies within the
    string. *)
Lemma find_range s sub :
  find s sub = -1 \/ (0 <= find s sub /\ find s sub + len sub <= len s).
Proof.
  unfold find. destruct (index 0 sub s) as [m |] eqn:E; [right | now left].
  apply index_bound in E. unfold len. lia.
Qed.

(** ** The exact-match test and the naive test *)

(** X10. When the expected length is above 5, [search_exact_match] answers
    [True] exactly when both primers occur in the read and the first
    occurrence of the back primer STARTS between [LIB_LENGTH - 5] and
    [LIB_LENGTH + 5] positions after the START of the first occurrence of
    the front primer: the window it tests includes the front primer. *)
Theorem search_exact_match_start_to_start :
  forall (cfg : Config) (sequence : string) (primers : Primers) (o : Outputs),
    5 < LIB_LENGTH cfg ->
    (fst (search_exact_match cfg sequence primers o) = ok true
     <-> find sequence (front primers) <> -1
         /\ find sequence (back primers) <> -1
         /\ LIB_LENGTH cfg - 5
            <= find sequence (back primers) - find sequence (front primers)
            <= LIB_LENGTH cfg + 5).
Proof.
  intros cfg sequence primers o Hlib.
  rewrite search_exact_match_true_iff.
  destruct (find_range sequence (front primers)) as [Hf | Hf];
    [rewrite Hf; intuition congruence|].
  destruct (find_range sequence (back primers)) as [Hb | Hb];
    [rewrite Hb; intuition congruence|].
  pose proof (len_nonneg (front primers)).
  pose proof (len_nonneg (back primers)).
  rewrite len_slice by lia.
  unfold in_tolerance. rewrite andb_true_iff, !Z.leb_le. lia.
Qed.

Lemma search_exact_match_start_to_start_witness :
  5 < LIB_LENGTH config_py
  /\ find (FRONT_PRIMER ++ poly "A" 107 ++ BACK_PRIMER)%string BACK_PRIMER
     - find (FRONT_PRIMER ++ poly "A" 107 ++ BACK_PRIMER)%string FRONT_PRIMER
     = 140
  /\ fst (search_exact_match config_py
            (FRONT_PRIMER ++ poly "A" 107 ++ BACK_PRIMER)%string
            (PRIMERS config_py) no_outputs)
     = ok true.
Proof.
  split; [reflexivity|]. split; [vm_compute; reflexivity|].
  apply (search_exact_match_start_to_start config_py
           (FRONT_PRIMER ++ poly "A" 107 ++ BACK_PRIMER)%string
           (PRIMERS config_py) no_outputs eq_refl).
  vm_compute. repeat split; discriminate.
Defined.

(** X11. When the expected length is above 5, [naive_search_and_write_seq]
    accepts a read in exactly three cases: both primers occur and the
    stretch from the END of the front primer to the start of the back
    primer is within 5 of [LIB_LENGTH]; only the front primer occurs and
    at least [LIB_LENGTH - 5] symbols follow it; only the back primer
    occurs and at least [LIB_LENGTH - 5] symbols precede it. *)
Theorem naive_search_cases :
  forall (cfg : Config) (sequence front_primer back_primer : string),
    5 < LIB_LENGTH cfg ->
    let front_index := find sequence front_primer in
    let back_index := find sequence back_primer in
    (naive_search_and_write_seq cfg sequence front_primer back_primer = true
     <-> (front_index <> -1 /\ back_index <> -1
          /\ LIB_LENGTH cfg - 5
             <= back_index - (front_index + len front_primer)
             <= LIB_LENGTH cfg + 5)
         \/ (front_index <> -1 /\ back_index = -1
             /\ LIB_LENGTH cfg - 5
                <= len sequence - (front_index + len front_primer))
         \/ (front_index = -1 /\ back_index <> -1
             /\ LIB_LENGTH cfg - 5 <= back_index)).
Proof.
  intros cfg sequence front_primer back_primer Hlib front_index back_index.
  unfold naive_search_and_write_seq.
  fold front_index. fold back_index.
  pose proof (len_nonneg front_primer) as Hlf.
  pose proof (len_nonneg back_primer) as Hlb.
  pose proof (len_nonneg sequence) as Hls.
  destruct (find_range sequence front_primer) as [Hf | Hf];
    destruct (find_range sequence back_primer) as [Hb | Hb];
    fold front_index in Hf; fold back_index in Hb.
  - rewrite Hf, Hb. cbn. split; [discriminate | lia].
  - assert (Ef : (front_index =? -1) = true) by (apply Z.eqb_eq; exact Hf).
    assert (Eb : (back_index =? -1) = false) by (apply Z.eqb_neq; lia).
    rewrite Ef, Eb. cbn [negb andb].
    rewrite len_slice by lia.
    destruct (Z.abs _ <=? 5) eqn:E;
      [apply Z.leb_le in E | apply Z.leb_gt in E];
      split; try discriminate; try reflexivity; lia.
  - assert (Ef : (front_index =? -1) = false) by (apply Z.eqb_neq; lia).
    assert (Eb : (back_index =? -1) = true) by (apply Z.eqb_eq; exact Hb).
    rewrite Ef, Eb. cbn [negb andb].
    rewrite len_slice by lia.
    destruct (Z.abs _ <=? 5) eqn:E;
      [apply Z.leb_le in E | apply Z.leb_gt in E];
      split; try discriminate; try reflexivity; lia.
  - assert (Ef : (front_index =? -1) = false) by (apply Z.eqb_neq; lia).
    assert (Eb : (back_index =? -1) = false) by (apply Z.eqb_neq; lia).
    rewrite Ef, Eb. cbn [negb andb].
    rewrite len_slice by lia.
    destruct (Z.abs _ <=? 5) eqn:E;
      [apply Z.leb_le in E | apply Z.leb_gt in E];
      split; try discriminate; try reflexivity; lia.
Qed.

Lemma naive_search_cases_witness :
  5 < LIB_LENGTH config_py
  /\ find front_only_read FRONT_PRIMER = 0
  /\ find front_only_read BACK_PRIMER = -1
  /\ naive_search_and_write_seq config_py front_only_read
                                FRONT_PRIMER BACK_PRIMER = true.
Proof.
  split; [reflexivity|].
  split; [vm_compute; reflexivity|]. split; [vm_compute; reflexivity|].
  apply (naive_search_cases config_py front_only_read FRONT_PRIMER BACK_PRIMER
                            eq_refl).
  right. left. vm_compute. repeat split; discriminate.
Defined.

(** X12. When the expected length is above 5 and the front primer is
    longer than 10 symbols (as the 33 symbols of [FRONT_PRIMER] are), a
    read the naive test accepts for a primer pair is never accepted by
    [search_exact_match] for that pair. *)
Theorem naive_accepts_exact_match_rejects :
  forall (cfg : Config) (sequence : string) (primers : Primers) (o : Outputs),
    5 < LIB_LENGTH cfg ->
    10 < len (front primers) ->
    naive_search_and_write_seq cfg sequence (front primers) (back primers)
    = true ->
    search_exact_match cfg sequence primers o = (ok false, o).
Proof.
  intros cfg sequence primers o Hlib Hfront Hnaive.
  apply (naive_search_cases cfg _ _ _ Hlib) in Hnaive.
  assert (Hnot : fst (search_exact_match cfg sequence primers o) <> ok true).
  { intros Hexact.
    apply (search_exact_match_start_to_start cfg _ _ _ Hlib) in Hexact.
    lia. }
  revert Hnot. unfold search_exact_match.
  destruct (negb _ && negb _); [|reflexivity].
  destruct (in_tolerance cfg _); [|reflexivity].
  unfold bind, when, ret, ok.
  destruct (MACHINE_LEARNING_MODE cfg); cbn; congruence.
Qed.

Lemma naive_accepts_exact_match_rejects_witness :
  5 < LIB_LENGTH config_py
  /\ 10 < len (front (PRIMERS config_py))
  /\ naive_search_and_write_seq config_py perfect_read
       (front (PRIMERS config_py)) (back (PRIMERS config_py)) = true
  /\ search_exact_match config_py perfect_read (PRIMERS config_py) no_outputs
     = (ok false, no_outputs).
Proof.
  assert (Hnaive : naive_search_and_write_seq config_py perfect_read
                     (front (PRIMERS config_py)) (back (PRIMERS config_py))
                   = true) by (vm_compute; reflexivity).
  split; [reflexivity|]. split; [reflexivity|]. split; [exact Hnaive|].
  exact (naive_accepts_exact_match_rejects config_py perfect_read
           (PRIMERS config_py) no_outputs eq_refl eq_refl Hnaive).
Defined.

(** X13. When the expected length is above 5, the naive test never accepts
    a read shorter than [LIB_LENGTH - 5] plus the length of the shorter
    primer. *)
Theorem naive_rejects_short_reads :
  forall (cfg : Config) (sequence front_primer back_primer : string),
    5 < LIB_LENGTH cfg ->
    len sequence
    < LIB_LENGTH cfg - 5 + Z.min (len front_primer) (len back_primer) ->
    naive_search_and_write_seq cfg sequence front_primer back_primer = false.
Proof.
  intros cfg sequence front_primer back_primer Hlib Hshort.
  destruct (naive_search_and_write_seq cfg sequence front_primer back_primer)
    eqn:E; [|reflexivity].
  apply (naive_search_cases cfg _ _ _ Hlib) in E.
  cbv zeta in E.
  pose proof (find_range sequence front_primer).
  pose proof (find_range sequence back_primer).
  pose proof (len_nonneg front_primer).
  pose proof (len_nonneg back_primer).
  exfalso. lia.
Qed.

Lemma naive_rejects_short_reads_witness :
  5 < LIB_LENGTH config_py
  /\ len (FRONT_PRIMER ++ poly "A" 100)%string
     < LIB_LENGTH config_py - 5 + Z.min (len FRONT_PRIMER) (len BACK_PRIMER)
  /\ naive_search_and_write_seq config_py (FRONT_PRIMER ++ poly "A" 100)%string
                                FRONT_PRIMER BACK_PRIMER = false.
Proof.
  split; [reflexivity|]. split; [reflexivity|].
  apply naive_rejects_short_reads; reflexivity.
Defined.

(** ** What the locator writes (search_functions.py) *)

Lemma stage_post_stay cfg o :
  stage_post cfg o (ok NO_MATCH_FOUND) o.
Proof.
  unfold stage_post, lines_added.
  split; [auto|]. split; [auto|]. split; [|discriminate].
  intros _ res H. injection H as <-. cbn. lia.
Qed.

Lemma stage_post_raise cfg o e :
  stage_post cfg o (inl e) o.
Proof.
  unfold stage_post.
  split; [auto|]. split; [auto|]. split; discriminate.
Qed.

Lemma stage_post_then cfg o o1 r o' :
  stage_post cfg o (ok NO_MATCH_FOUND) o1 ->
  stage_post cfg o1 r o' ->
  stage_post cfg o r o'.
Proof.
  unfold stage_post, lines_added.
  intros (Hml1 & Hdbg1 & Hadd1 & _) (Hml2 & Hdbg2 & Hadd2 & Hinv2).
  split; [|split; [|split]].
  - intros Hml. destruct (Hml1 Hml), (Hml2 Hml). split; congruence.
  - intros Hdbg. rewrite (Hdbg2 Hdbg). now apply Hdbg1.
  - intros Hml res Hres.
    destruct (Hadd1 Hml _ eq_refl) as [A1 B1].
    destruct (Hadd2 Hml _ Hres) as [A2 B2].
    cbn in A1, B1. split; lia.
  - exact Hinv2.
Qed.

Lemma orient_step (is_reversed : bool) (s : string) (o : Outputs) :
  (if is_reversed then lift (copy_reverse_complement s) else ret s) o
  = ((if is_reversed then copy_reverse_complement s else ok s), o).
Proof. destruct is_reversed; reflexivity. Qed.

Section Streams.

Variable align : PairwiseAligner -> string -> string -> list Alignment.
Variable data_set_file : list string.
Variable cfg : Config.

(** The validator writes to the debug stream only, and only in debug
    mode. *)
Lemma compare_loop_streams compare_params sequence min_valid_score
      sequence_index data_set_sequences :
  forall o r o',
    compare_loop align cfg compare_params sequence min_valid_score
                 sequence_index data_set_sequences o = (r, o') ->
    wo_primers o' = wo_primers o
    /\ with_primers o' = with_primers o
    /\ (DEBUG_MODE cfg = false -> o' = o).
Proof.
  induction data_set_sequences as [| data_set_seq rest IH]; intros o r o'.
  - cbn [compare_loop]. unfold bind, when, write_debug, ret, ok.
    destruct (DEBUG_MODE cfg); intros H; injection H as <- <-; cbn;
      repeat split; auto; discriminate.
  - cbn [compare_loop].
    destruct (len data_set_seq =? 0); [apply IH|].
    unfold bind, lift.
    destruct (first (align _ sequence_index _)) as [e | alignment_idx].
    { intros H; injection H as <- <-. auto. }
    destruct (Qge_bool _ _); [|apply IH].
    destruct (first (align _ sequence data_set_seq)) as [e | alignment_seq].
    { intros H; injection H as <- <-. auto. }
    unfold when, write_debug, ret, ok.
    destruct (DEBUG_MODE cfg) eqn:Edbg.
    + destruct (Qle_bool _ _).
      * intros H; injection H as <- <-. cbn. repeat split; auto; discriminate.
      * intros H. apply IH in H. cbn in H.
        destruct H as (H1 & H2 & _). repeat split; auto; discriminate.
    + destruct (Qle_bool _ _).
      * intros H; injection H as <- <-. auto.
      * apply IH.
Qed.

Lemma emit_candidate_post compare_params is_reversed seq_without_primers
      seq_with_primers o r o' :
  emit_candidate align data_set_file cfg compare_params is_reversed
                 seq_without_primers seq_with_primers o = (r, o') ->
  stage_post cfg o r o' /\ r <> ok NO_MATCH_FOUND.
Proof.
  unfold emit_candidate. unfold bind at 1. rewrite orient_step.
  destruct (if is_reversed
            then copy_reverse_complement seq_without_primers
            else ok seq_without_primers) as [e | wo].
  { intros H; injection H as <- <-.
    split; [apply stage_post_raise | discriminate]. }
  unfold bind at 1. rewrite orient_step.
  destruct (if is_reversed
            then copy_reverse_complement seq_with_primers
            else ok seq_with_primers) as [e | wi].
  { intros H; injection H as <- <-.
    split; [apply stage_post_raise | discriminate]. }
  unfold when, write_wo_primers, write_with_primers, bind, ret.
  destruct (MACHINE_LEARNING_MODE cfg) eqn:Eml; cbn [negb orb].
  - intros H.
    pose proof H as Hres.
    apply compare_loop_streams in H. destruct H as (Hwo & Hwi & Hdbg).
    split.
    + unfold stage_post.
      split; [auto|]. split; [|split; intros; congruence].
      intros Hd. now rewrite (Hdbg Hd).
    + intros ->. now apply compare_seq_to_dataset_never_no_match in Hres.
  - cbv beta iota.
    destruct (DEBUG_MODE cfg) eqn:Edbg.
    + intros H. pose proof H as Hres.
      apply compare_loop_streams in H. destruct H as (Hwo & Hwi & _).
      cbn in Hwo, Hwi.
      assert (Hno : r <> ok NO_MATCH_FOUND)
        by (intros ->; now apply compare_seq_to_dataset_never_no_match in Hres).
      split; [|exact Hno].
      unfold stage_post, lines_added.
      split; [intros; congruence|]. split; [intros; congruence|].
      split; [|intros; congruence].
      intros _ res ->. rewrite Hwo, Hwi, !length_app. cbn.
      destruct res; cbn; try (split; lia). congruence.
    + intros H; injection H as <- <-.
      split; [|discriminate].
      unfold stage_post, lines_added. cbn.
      split; [intros; congruence|]. split; [auto|]. split; [|discriminate].
      intros _ res H. injection H as <-. rewrite !length_app. cbn. split; lia.
Qed.

End Streams.

Lemma cascade_last (stage : M MatchResult) (o : Outputs) :
  (res <- stage ;;
   if negb (MatchResult_eqb res NO_MATCH_FOUND) then ret res
   else ret NO_MATCH_FOUND) o
  = stage o.
Proof.
  unfold bind. destruct (stage o) as [[e | res] o1]; [reflexivity|].
  destruct res; reflexivity.
Qed.

Lemma cascade_post cfg (stage next : M MatchResult) :
  (forall o r o', stage o = (r, o') -> stage_post cfg o r o') ->
  (forall o r o', next o = (r, o') -> stage_post cfg o r o') ->
  forall o r o',
    (res <- stage ;;
     if negb (MatchResult_eqb res NO_MATCH_FOUND) then ret res else next) o
    = (r, o') ->
    stage_post cfg o r o'.
Proof.
  intros Hstage Hnext o r o'. unfold bind.
  destruct (stage o) as [[e | res] o1] eqn:E; apply Hstage in E.
  - intros H; injection H as <- <-. exact E.
  - destruct res; cbn [MatchResult_eqb negb].
    + intros H; injection H as <- <-. exact E.
    + intros H; injection H as <- <-. exact E.
    + intros H. apply Hnext in H. exact (stage_post_then _ _ _ _ _ E H).
Qed.

Section StageStreams.

Variable align : PairwiseAligner -> string -> string -> list Alignment.
Variable data_set_file : list string.
Variable cfg : Config.

Lemma search_both_primers_inner_post f_align valid_alignments_back sequence
      compare_params is_reversed :
  forall o r o',
    search_both_primers_inner align data_set_file cfg f_align
                              valid_alignments_back sequence compare_params
                              is_reversed o = (r, o') ->
    stage_post cfg o (result_of_option r) o'.
Proof.
  induction valid_alignments_back as [| b_align rest IH]; intros o r o'.
  - cbn. intros H; injection H as <- <-. apply stage_post_stay.
  - cbn [search_both_primers_inner]. unfold bind at 1, lift.
    destruct (get_alignment_positions f_align) as [e | [f_start f_end]].
    { intros H; injection H as <- <-. apply stage_post_raise. }
    unfold bind at 1.
    destruct (get_alignment_positions b_align) as [e | [b_start b_end]].
    { intros H; injection H as <- <-. apply stage_post_raise. }
    destruct (in_tolerance cfg (b_start - f_end)); [|apply IH].
    unfold bind.
    destruct (emit_candidate _ _ _ _ _ _ _ o) as [[e | res] o1] eqn:E;
      apply emit_candidate_post in E; destruct E as [E _];
      intros H; injection H as <- <-; exact E.
Qed.

Lemma search_both_primers_helper_post valid_alignments sequence compare_params
      is_reversed :
  forall o r o',
    search_both_primers_helper align data_set_file cfg valid_alignments
                               sequence compare_params is_reversed o = (r, o') ->
    stage_post cfg o r o'.
Proof.
  unfold search_both_primers_helper.
  induction (va_front valid_alignments) as [| f_align rest IH]; intros o r o'.
  - cbn. intros H; injection H as <- <-. apply stage_post_stay.
  - cbn [search_both_primers_outer]. unfold bind.
    destruct (search_both_primers_inner _ _ _ _ _ _ _ _ o)
      as [[e | [res |]] o1] eqn:E;
      apply search_both_primers_inner_post in E; cbn in E.
    + intros H; injection H as <- <-. exact E.
    + intros H; injection H as <- <-. exact E.
    + intros H. apply IH in H. exact (stage_post_then _ _ _ _ _ E H).
Qed.

Lemma search_both_primers_post valid_alignments valid_alignments_rc sequence
      compare_params o r o' :
  search_both_primers align data_set_file cfg valid_alignments
                      valid_alignments_rc sequence compare_params o = (r, o') ->
  stage_post cfg o r o'.
Proof.
  unfold search_both_primers.
  apply cascade_post; [apply search_both_primers_helper_post|].
  intros o1 r1 o1'. rewrite cascade_last.
  apply search_both_primers_helper_post.
Qed.

Lemma search_single_front_primer_helper_post valid_alignments_front sequence
      compare_params is_reversed :
  forall o r o',
    search_single_front_primer_helper align data_set_file cfg
      valid_alignments_front sequence compare_params is_reversed o = (r, o') ->
    stage_post cfg o r o'.
Proof.
  induction valid_alignments_front as [| f_align rest IH]; intros o r o'.
  - cbn. intros H; injection H as <- <-. apply stage_post_stay.
  - cbn [search_single_front_primer_helper]. unfold bind, lift.
    destruct (get_alignment_positions f_align) as [e | [f_start f_end]].
    { intros H; injection H as <- <-. apply stage_post_raise. }
    destruct (_ >=? _); [apply IH|].
    intros H. now apply emit_candidate_post in H.
Qed.

Lemma search_single_back_primer_helper_post valid_alignments_back sequence
      compare_params is_reversed :
  forall o r o',
    search_single_back_primer_helper align data_set_file cfg
      valid_alignments_back sequence compare_params is_reversed o = (r, o') ->
    stage_post cfg o r o'.
Proof.
  induction valid_alignments_back as [| b_align rest IH]; intros o r o'.
  - cbn. intros H; injection H as <- <-. apply stage_post_stay.
  - cbn [search_single_back_primer_helper]. unfold bind, lift.
    destruct (get_alignment_positions b_align) as [e | [b_start b_end]].
    { intros H; injection H as <- <-. apply stage_post_raise. }
    destruct (_ <? 0); [apply IH|].
    intros H. now apply emit_candidate_post in H.
Qed.

Lemma search_single_primer_post valid_alignments valid_alignments_rc sequence
      compare_params o r o' :
  search_single_primer align data_set_file cfg valid_alignments
                       valid_alignments_rc sequence compare_params o = (r, o') ->
  stage_post cfg o r o'.
Proof.
  unfold search_single_primer.
  apply cascade_post; [apply search_single_front_primer_helper_post|].
  apply cascade_post; [apply search_single_front_primer_helper_post|].
  apply cascade_post; [apply search_single_back_primer_helper_post|].
  intros o1 r1 o1'. rewrite cascade_last.
  apply search_single_back_primer_helper_post.
Qed.

Lemma search_exact_match_post sequence primers o r o' :
  search_exact_match cfg sequence primers o = (r, o') ->
  stage_post cfg o (result_of_bool r) o'.
Proof.
  unfold search_exact_match.
  destruct (negb _ && negb _);
    [|intros H; injection H as <- <-; apply stage_post_stay].
  destruct (in_tolerance cfg _);
    [|intros H; injection H as <- <-; apply stage_post_stay].
  unfold bind, when, write_wo_primers, write_with_primers, ret.
  destruct (MACHINE_LEARNING_MODE cfg) eqn:Eml; cbn [negb];
    intros H; injection H as <- <-; cbn [result_of_bool];
    unfold stage_post, lines_added; cbn.
  - split; [auto|]. split; [auto|]. split; [intros; congruence | discriminate].
  - split; [intros; congruence|]. split; [auto|]. split; [|discriminate].
    intros _ res H. injection H as <-. rewrite !length_app. cbn. split; lia.
Qed.

Lemma alignment_stages_post aligner min_valid_score compare_params sequence
      PRIMERS_RC o r o' :
  alignment_stages align data_set_file cfg aligner min_valid_score
                   compare_params sequence PRIMERS_RC o = (r, o') ->
  stage_post cfg o r o'.
Proof.
  unfold alignment_stages. cbv zeta.
  apply cascade_post; [intros ? ? ?; apply search_both_primers_post|].
  intros o1 r1 o1'. rewrite cascade_last.
  apply search_single_primer_post.
Qed.

Lemma search_seq_and_write_post aligner min_valid_score compare_params
      sequence o r o' :
  search_seq_and_write align data_set_file cfg aligner min_valid_score
                       compare_params sequence o = (r, o') ->
  stage_post cfg o r o'.
Proof.
  unfold search_seq_and_write. unfold bind at 1, lift.
  destruct (copy_reverse_complement (back (PRIMERS cfg))) as [e | front_rc].
  { intros H; injection H as <- <-. apply stage_post_raise. }
  unfold bind at 1.
  destruct (copy_reverse_complement (front (PRIMERS cfg))) as [e | back_rc].
  { intros H; injection H as <- <-. apply stage_post_raise. }
  unfold bind at 1.
  destruct (search_exact_match cfg sequence (PRIMERS cfg) o)
    as [[e | exact] o1] eqn:E1;
    apply search_exact_match_post in E1; cbn [result_of_bool] in E1.
  { intros H; injection H as <- <-. exact E1. }
  destruct exact.
  { unfold bind, ret. intros H; injection H as <- <-. exact E1. }
  unfold bind at 1.
  destruct (search_exact_match cfg sequence _ o1)
    as [[e | exact_rc] o2] eqn:E2;
    apply search_exact_match_post in E2; cbn [result_of_bool] in E2.
  { intros H; injection H as <- <-. exact (stage_post_then _ _ _ _ _ E1 E2). }
  destruct exact_rc.
  { unfold ret. intros H; injection H as <- <-.
    exact (stage_post_then _ _ _ _ _ E1 E2). }
  intros H. apply alignment_stages_post in H.
  exact (stage_post_then _ _ _ _ _ E1 (stage_post_then _ _ _ _ _ E2 H)).
Qed.

End StageStreams.

Section FileStreams.

Variable align : PairwiseAligner -> string -> string -> list Alignment.
Variable data_set_file : list string.
Variable cfg : Config.

Lemma classify_reads_streams aligner min_valid_score compare_params reads :
  forall filtered valid invalid o r o',
    classify_reads align data_set_file cfg aligner min_valid_score
                   compare_params reads (filtered, valid, invalid) o
    = (r, o') ->
    (MACHINE_LEARNING_MODE cfg = true ->
     wo_primers o' = wo_primers o /\ with_primers o' = with_primers o)
    /\ (DEBUG_MODE cfg = false -> debug_file o' = debug_file o)
    /\ (MACHINE_LEARNING_MODE cfg = false ->
        forall filtered' valid' invalid',
          r = ok (filtered', valid', invalid') ->
          Z.of_nat (List.length (wo_primers o'))
          = Z.of_nat (List.length (wo_primers o))
            + (valid' - valid) + (invalid' - invalid)
          /\ Z.of_nat (List.length (with_primers o'))
             = Z.of_nat (List.length (with_primers o))
               + (valid' - valid) + (invalid' - invalid))
    /\ (MACHINE_LEARNING_MODE cfg = false -> DEBUG_MODE cfg = false ->
        forall filtered' valid' invalid',
          r = ok (filtered', valid', invalid') -> invalid' = invalid).
Proof.
  induction reads as [| seq_input rest IH];
    intros filtered valid invalid o r o'.
  - cbn. intros H; injection H as <- <-.
    split; [auto|]. split; [auto|]. split.
    + intros _ f' v' i' H. injection H as <- <- <-. split; lia.
    + intros _ _ f' v' i' H. injection H as <- <- <-. reflexivity.
  - cbn [classify_reads]. unfold bind.
    destruct (search_seq_and_write _ _ _ _ _ _ _ o) as [[e | res] o1] eqn:E;
      apply search_seq_and_write_post in E;
      destruct E as (Hml & Hdbg & Hadd & Hinv);
      unfold lines_added in Hadd.
    + intros H; injection H as <- <-.
      split; [exact Hml|]. split; [exact Hdbg|].
      split; intros; discriminate.
    + destruct res; intros H; apply IH in H;
        destruct H as (Hml' & Hdbg' & Hadd' & Hinv');
        (split; [|split; [|split]]);
        try (intros M; destruct (Hml M), (Hml' M); split; congruence);
        try (intros D; rewrite (Hdbg' D); now apply Hdbg);
        try (intros M f' v' i' Hr;
             destruct (Hadd M _ eq_refl) as [A1 B1];
             destruct (Hadd' M _ _ _ Hr) as [A2 B2];
             cbn [located] in A1, B1; split; lia);
        intros M D f' v' i' Hr;
        specialize (Hinv' M D _ _ _ Hr); specialize (Hinv M D);
        try exact Hinv'; exfalso; now apply Hinv.
Qed.

Lemma process_file_streams file_index fastq_file aligner min_valid_score
      compare_aligner compare_min_valid_score :
  let o' := snd (process_file align data_set_file cfg file_index fastq_file
                              aligner min_valid_score compare_aligner
                              compare_min_valid_score) in
  (MACHINE_LEARNING_MODE cfg = true ->
   wo_primers o' = [] /\ with_primers o' = [])
  /\ (DEBUG_MODE cfg = false -> debug_file o' = []).
Proof.
  intros o'.
  destruct (process_file align data_set_file cfg file_index fastq_file
                         aligner min_valid_score compare_aligner
                         compare_min_valid_score) as [r after] eqn:Erun.
  subst o'. cbn [snd]. revert Erun.
  unfold process_file, process_file_body. unfold bind at 1, lift.
  destruct (read_FASTQ_file (fastq_lines fastq_file)) as [e | [seq_dict n]].
  { intros H; injection H as <- <-. cbn. auto. }
  unfold bind at 1.
  assert (Hstart :
            exists o1,
              when (DEBUG_MODE cfg) (write_debug (DbgStartOfFile file_index))
                   no_outputs = (ok tt, o1)
              /\ wo_primers o1 = [] /\ with_primers o1 = []
              /\ (DEBUG_MODE cfg = false -> debug_file o1 = [])).
  { unfold when, write_debug, ret. destruct (DEBUG_MODE cfg); eexists;
      (split; [reflexivity|]); cbn; repeat split; auto; discriminate. }
  destruct Hstart as (o1 & -> & Hwo1 & Hwi1 & Hdbg1).
  unfold ok. unfold bind at 1.
  destruct (classify_reads _ _ _ _ _ _ _ _ o1)
    as [[e | [[filtered valid] invalid]] o2] eqn:E;
    apply classify_reads_streams in E; destruct E as (Hml & Hdbg & _).
  { intros H; injection H as <- <-. split.
    - intros M. destruct (Hml M). split; congruence.
    - intros D. rewrite (Hdbg D). now apply Hdbg1. }
  assert (Hend :
            exists o3,
              when (DEBUG_MODE cfg)
                   (write_debug (DbgFilteredOut filtered n) ;;;
                    write_debug (DbgEndOfFile file_index)) o2 = (ok tt, o3)
              /\ wo_primers o3 = wo_primers o2
              /\ with_primers o3 = with_primers o2
              /\ (DEBUG_MODE cfg = false -> debug_file o3 = debug_file o2)).
  { unfold when, write_debug, bind, ret. destruct (DEBUG_MODE cfg); eexists;
      (split; [reflexivity|]); cbn; repeat split; auto; discriminate. }
  destruct Hend as (o3 & Hw & Hwo3 & Hwi3 & Hdbg3).
  unfold bind at 1. rewrite Hw. unfold ok.
  intros H.
  assert (Hafter : after = o3)
    by (destruct (MACHINE_LEARNING_MODE cfg); unfold ret in H;
        now injection H as _ <-).
  subst after. split.
  - intros M. destruct (Hml M). split; congruence.
  - intros D. rewrite (Hdbg3 D), (Hdbg D). now apply Hdbg1.
Qed.

End FileStreams.

(** X14. A stream that is not opened is never written to. In
    machine-learning mode, where [process_file] leaves the two output
    files unopened, [search_seq_and_write] leaves both output streams as
    they are and [process_file] ends with both empty; with debug mode off,
    where the debug file is unopened, the same holds of the debug stream.
    This holds whether the call returns or raises. *)
Theorem unopened_streams_are_never_written :
  forall (align : PairwiseAligner -> string -> string -> list Alignment)
         (data_set_file : list string) (cfg : Config)
         (aligner : PairwiseAligner) (min_valid_score : Q)
         (compare_params : CompareParams) (sequence : string) (o : Outputs)
         (file_index : Z) (fastq_file : FastqFile),
    let after_read :=
      snd (search_seq_and_write align data_set_file cfg aligner
                                min_valid_score compare_params sequence o) in
    let after_file :=
      snd (process_file align data_set_file cfg file_index fastq_file aligner
                        min_valid_score (cp_aligner compare_params)
                        (cp_min_valid_score compare_params)) in
    (MACHINE_LEARNING_MODE cfg = true ->
     wo_primers after_read = wo_primers o
     /\ with_primers after_read = with_primers o
     /\ wo_primers after_file = []
     /\ with_primers after_file = [])
    /\ (DEBUG_MODE cfg = false ->
        debug_file after_read = debug_file o /\ debug_file after_file = []).
Proof.
  intros align data_set_file cfg aligner min_valid_score compare_params
         sequence o file_index fastq_file after_read after_file.
  destruct (search_seq_and_write align data_set_file cfg aligner
              min_valid_score compare_params sequence o) as [r o'] eqn:E.
  apply search_seq_and_write_post in E. destruct E as (Hml & Hdbg & _).
  destruct (process_file_streams align data_set_file cfg file_index fastq_file
              aligner min_valid_score (cp_aligner compare_params)
              (cp_min_valid_score compare_params)) as [Hfml Hfdbg].
  subst after_read after_file. cbn [snd]. split.
  - intros M. destruct (Hml M), (Hfml M). auto.
  - intros D. split; [now apply Hdbg | now apply Hfdbg].
Qed.

(** X15. Outside of machine-learning mode the two output streams stay in
    step: a call of [search_seq_and_write] that returns has appended one
    line to each of them when it located an insert (valid or invalid
    match) and none when it did not, and after the loop of [process_file]
    over the reads each stream has grown by the number of reads counted as
    valid or invalid. *)
Theorem output_streams_in_step :
  forall (align : PairwiseAligner -> string -> string -> list Alignment)
         (data_set_file : list string) (cfg : Config)
         (aligner : PairwiseAligner) (min_valid_score : Q)
         (compare_params : CompareParams),
    MACHINE_LEARNING_MODE cfg = false ->
    (forall sequence o res o',
        search_seq_and_write align data_set_file cfg aligner min_valid_score
                             compare_params sequence o = (ok res, o') ->
        lines_added (located res) o o')
    /\ (forall reads o filtered valid invalid o',
           classify_reads align data_set_file cfg aligner min_valid_score
                          compare_params reads (0, 0, 0) o
           = (ok (filtered, valid, invalid), o') ->
           Z.of_nat (List.length (wo_primers o'))
           = Z.of_nat (List.length (wo_primers o)) + valid + invalid
           /\ Z.of_nat (List.length (with_primers o'))
              = Z.of_nat (List.length (with_primers o)) + valid + invalid).
Proof.
  intros align data_set_file cfg aligner min_valid_score compare_params Hml.
  split.
  - intros sequence o res o' H.
    apply search_seq_and_write_post in H. destruct H as (_ & _ & Hadd & _).
    now apply Hadd.
  - intros reads o filtered valid invalid o' H.
    apply classify_reads_streams in H. destruct H as (_ & _ & Hadd & _).
    destruct (Hadd Hml _ _ _ eq_refl). split; lia.
Qed.

Lemma output_streams_in_step_witness :
  MACHINE_LEARNING_MODE config_plain = false
  /\ classify_reads exact_align poly_C_data_set config_plain default_aligner
                    default_min_valid_score default_compare_params
                    [perfect_read; "ACGT"; front_only_read] (0, 0, 0) no_outputs
     = (ok (2, 1, 0),
        {| wo_primers := [(poly "A" 140 ++ newline)%string];
           with_primers := [(perfect_read ++ newline)%string];
           debug_file := [] |})
  /\ Z.of_nat (List.length [(poly "A" 140 ++ newline)%string]) = 0 + 1 + 0.
Proof.
  assert (Hrun :
            classify_reads exact_align poly_C_data_set config_plain
                           default_aligner default_min_valid_score
                           default_compare_params
                           [perfect_read; "ACGT"; front_only_read] (0, 0, 0)
                           no_outputs
            = (ok (2, 1, 0),
               {| wo_primers := [(poly "A" 140 ++ newline)%string];
                  with_primers := [(perfect_read ++ newline)%string];
                  debug_file := [] |})) by (vm_compute; reflexivity).
  split; [reflexivity|]. split; [exact Hrun|].
  destruct (output_streams_in_step exact_align poly_C_data_set config_plain
              default_aligner default_min_valid_score default_compare_params
              eq_refl) as [_ Hloop].
  exact (proj1 (Hloop _ _ _ _ _ _ Hrun)).
Defined.

(** X16. With machine-learning mode and debug mode both off, no read is
    ever classified as an invalid match: [search_seq_and_write] does not
    return [FOUND_INVALID_MATCH], and the loop of [process_file] over the
    reads leaves the invalid counter where it was. *)
Theorem plain_mode_never_invalid :
  forall (align : PairwiseAligner -> string -> string -> list Alignment)
         (data_set_file : list string) (cfg : Config)
         (aligner : PairwiseAligner) (min_valid_score : Q)
         (compare_params : CompareParams),
    MACHINE_LEARNING_MODE cfg = false ->
    DEBUG_MODE cfg = false ->
    (forall sequence o,
        fst (search_seq_and_write align data_set_file cfg aligner
                                  min_valid_score compare_params sequence o)
        <> ok FOUND_INVALID_MATCH)
    /\ (forall reads o counts filtered valid invalid o',
           classify_reads align data_set_file cfg aligner min_valid_score
                          compare_params reads counts o
           = (ok (filtered, valid, invalid), o') ->
           invalid = snd counts).
Proof.
  intros align data_set_file cfg aligner min_valid_score compare_params
         Hml Hdbg.
  split.
  - intros sequence o.
    destruct (search_seq_and_write align data_set_file cfg aligner
                min_valid_score compare_params sequence o) as [r o'] eqn:E.
    apply search_seq_and_write_post in E. destruct E as (_ & _ & _ & Hinv).
    cbn [fst]. now apply Hinv.
  - intros reads o [[f0 v0] i0] filtered valid invalid o' H.
    apply classify_reads_streams in H. destruct H as (_ & _ & _ & Hinv).
    cbn [snd]. exact (Hinv Hml Hdbg _ _ _ eq_refl).
Qed.

Lemma plain_mode_never_invalid_witness :
  MACHINE_LEARNING_MODE config_plain = false
  /\ DEBUG_MODE config_plain = false
  /\ fst (search_seq_and_write exact_align poly_C_data_set config_plain
            default_aligner default_min_valid_score default_compare_params
            perfect_read no_outputs)
     <> ok FOUND_INVALID_MATCH
  /\ fst (search_seq_and_write exact_align poly_C_data_set config_py
            default_aligner default_min_valid_score default_compare_params
            perfect_read no_outputs)
     = ok FOUND_INVALID_MATCH.
Proof.
  split; [reflexivity|]. split; [reflexivity|]. split.
  - apply (plain_mode_never_invalid exact_align poly_C_data_set config_plain
             default_aligner default_min_valid_score default_compare_params
             eq_refl eq_refl).
  - vm_compute. reflexivity.
Defined.

(** ** The single-primer stage, continued (search_functions.py) *)

Section SingleStage.

Variable align : PairwiseAligner -> string -> string -> list Alignment.
Variable data_set_file : list string.
Variable cfg : Config.

Lemma search_single_front_primer_helper_find fronts sequence compare_params
      is_reversed o :
  Forall has_blocks fronts ->
  search_single_front_primer_helper align data_set_file cfg fronts sequence
                                    compare_params is_reversed o
  = match first_front_candidate cfg sequence fronts with
    | None => (ok NO_MATCH_FOUND, o)
    | Some f_align =>
        emit_candidate align data_set_file cfg compare_params is_reversed
          (slice sequence (end_of f_align) (end_of f_align + LIB_LENGTH cfg))
          (slice sequence (start_of f_align) (end_of f_align + LIB_LENGTH cfg))
          o
    end.
Proof.
  intros Hblocks. unfold first_front_candidate.
  induction Hblocks as [| f_align rest Hf _ IH]; [reflexivity|].
  cbn [List.find].
  pose proof (get_alignment_positions_blocks _ Hf) as Hpos.
  destruct (end_of f_align + LIB_LENGTH cfg <? len sequence) eqn:E.
  - apply Z.ltb_lt in E.
    now rewrite (single_front_takes align data_set_file cfg _ _ _ _ _ _ _
                                    Hpos E).
  - apply Z.ltb_ge in E.
    rewrite (single_front_skips align data_set_file cfg _ _ _ _ _ _ _ Hpos)
      by lia.
    exact IH.
Qed.

Lemma search_single_back_primer_helper_find backs sequence compare_params
      is_reversed o :
  Forall has_blocks backs ->
  search_single_back_primer_helper align data_set_file cfg backs sequence
                                   compare_params is_reversed o
  = match first_back_candidate cfg backs with
    | None => (ok NO_MATCH_FOUND, o)
    | Some b_align =>
        emit_candidate align data_set_file cfg compare_params is_reversed
          (slice sequence (start_of b_align - LIB_LENGTH cfg) (start_of b_align))
          (slice sequence (start_of b_align - LIB_LENGTH cfg) (end_of b_align))
          o
    end.
Proof.
  intros Hblocks. unfold first_back_candidate.
  induction Hblocks as [| b_align rest Hb _ IH]; [reflexivity|].
  cbn [List.find].
  pose proof (get_alignment_positions_blocks _ Hb) as Hpos.
  destruct (0 <=? start_of b_align - LIB_LENGTH cfg) eqn:E.
  - apply Z.leb_le in E.
    now rewrite (single_back_takes align data_set_file cfg _ _ _ _ _ _ _
                                   Hpos E).
  - apply Z.leb_gt in E.
    rewrite (single_back_skips align data_set_file cfg _ _ _ _ _ _ _ Hpos)
      by lia.
    exact IH.
Qed.

(** A stage that ends in [emit_candidate] and returns has located an
    insert. *)
Lemma cascade_emit compare_params is_reversed seq_without_primers
      seq_with_primers (next : M MatchResult) o :
  (res <- emit_candidate align data_set_file cfg compare_params is_reversed
                         seq_without_primers seq_with_primers ;;
   if negb (MatchResult_eqb res NO_MATCH_FOUND) then ret res else next) o
  = emit_candidate align data_set_file cfg compare_params is_reversed
                   seq_without_primers seq_with_primers o.
Proof.
  unfold bind.
  destruct (emit_candidate _ _ _ _ _ _ _ o) as [[e | res] o1] eqn:E;
    [reflexivity|].
  apply emit_candidate_post in E. destruct E as [_ Hno].
  destruct res; try reflexivity. now contradiction Hno.
Qed.

End SingleStage.

Lemma cascade_skip (stage next : M MatchResult) o :
  stage o = (ok NO_MATCH_FOUND, o) ->
  (res <- stage ;;
   if negb (MatchResult_eqb res NO_MATCH_FOUND) then ret res else next) o
  = next o.
Proof. intros H. unfold bind. now rewrite H. Qed.

(** X17. On alignments that have aligned blocks, the single-primer stage
    returns the outcome of the first of four candidates that exists, in
    the order front primer/forward, front primer/reverse-complement, back
    primer/forward, back primer/reverse-complement, and [NO_MATCH_FOUND]
    when none exists. A front candidate is the first front alignment with
    [front_end + LIB_LENGTH < len(read)]; a back candidate is the first
    back alignment with [back_start - LIB_LENGTH >= 0]. *)
Theorem single_stage_order :
  forall (align : PairwiseAligner -> string -> string -> list Alignment)
         (data_set_file : list string) (cfg : Config)
         (valid_alignments valid_alignments_rc : ValidAlignments)
         (sequence : string) (compare_params : CompareParams) (o : Outputs),
    all_have_blocks valid_alignments ->
    all_have_blocks valid_alignments_rc ->
    search_single_primer align data_set_file cfg valid_alignments
                         valid_alignments_rc sequence compare_params o
    = single_stage_spec align data_set_file cfg valid_alignments
                        valid_alignments_rc sequence compare_params o.
Proof.
  intros align data_set_file cfg valid_alignments valid_alignments_rc
         sequence compare_params o [Hf Hb] [Hfr Hbr].
  unfold search_single_primer, single_stage_spec. cbv zeta.
  pose proof (search_single_front_primer_helper_find align data_set_file cfg
                _ sequence compare_params false o Hf) as E1.
  pose proof (search_single_front_primer_helper_find align data_set_file cfg
                _ sequence compare_params true o Hfr) as E2.
  pose proof (search_single_back_primer_helper_find align data_set_file cfg
                _ sequence compare_params false o Hb) as E3.
  pose proof (search_single_back_primer_helper_find align data_set_file cfg
                _ sequence compare_params true o Hbr) as E4.
  destruct (first_front_candidate cfg sequence (va_front valid_alignments)).
  { unfold bind at 1. rewrite E1. fold (bind (A := MatchResult) (B := MatchResult)).
    apply (cascade_emit align data_set_file cfg). }
  rewrite (cascade_skip _ _ _ E1).
  destruct (first_front_candidate cfg sequence (va_front valid_alignments_rc)).
  { unfold bind at 1. rewrite E2.
    apply (cascade_emit align data_set_file cfg). }
  rewrite (cascade_skip _ _ _ E2).
  destruct (first_back_candidate cfg (va_back valid_alignments)).
  { unfold bind at 1. rewrite E3.
    apply (cascade_emit align data_set_file cfg). }
  rewrite (cascade_skip _ _ _ E3).
  rewrite cascade_last. rewrite E4.
  destruct (first_back_candidate cfg (va_back valid_alignments_rc));
    reflexivity.
Qed.

Lemma single_stage_order_witness :
  all_have_blocks perfect_read_alignments
  /\ all_have_blocks no_alignments
  /\ search_single_primer exact_align poly_C_data_set config_py
                          perfect_read_alignments no_alignments perfect_read
                          default_compare_params no_outputs
     = single_stage_spec exact_align poly_C_data_set config_py
                         perfect_read_alignments no_alignments perfect_read
                         default_compare_params no_outputs.
Proof.
  assert (Hblocks : all_have_blocks perfect_read_alignments)
    by (split; repeat constructor; discriminate).
  assert (Hnone : all_have_blocks no_alignments) by (split; constructor).
  split; [exact Hblocks|]. split; [exact Hnone|].
  exact (single_stage_order exact_align poly_C_data_set config_py
           perfect_read_alignments no_alignments perfect_read
           default_compare_params no_outputs Hblocks Hnone).
Defined.

(** ** The dataset validator, continued (search_functions.py) *)

Lemma strip_blank_len line : strip line = "" -> (len (strip line) =? 0) = true.
Proof. intros ->. reflexivity. Qed.

(** X18. Against a dataset file whose lines are all blank (an empty file
    included) the validator answers [FOUND_INVALID_MATCH] for every
    candidate without consulting the aligner, and writes to the debug
    stream, in debug mode, the one message that no valid sequence was
    found. *)
Theorem validator_blank_dataset :
  forall (align : PairwiseAligner -> string -> string -> list Alignment)
         (data_set_file : list string) (cfg : Config)
         (compare_params : CompareParams) (candidate : string) (o : Outputs),
    Forall (fun line => strip line = "") data_set_file ->
    compare_seq_to_dataset align data_set_file cfg compare_params candidate o
    = (ok FOUND_INVALID_MATCH,
       if DEBUG_MODE cfg
       then {| wo_primers := wo_primers o;
               with_primers := with_primers o;
               debug_file := debug_file o ++ [DbgNoValidSequence] |}
       else o).
Proof.
  intros align data_set_file cfg compare_params candidate o Hblank.
  unfold compare_seq_to_dataset, read_sequences_from_data_set.
  induction Hblank as [| line rest Hline _ IH].
  - cbn. unfold bind, when, write_debug, ret.
    destruct (DEBUG_MODE cfg); reflexivity.
  - cbn [map compare_loop]. rewrite (strip_blank_len _ Hline). exact IH.
Qed.

Lemma validator_blank_dataset_witness :
  Forall (fun line => strip line = "") [""; "  "]
  /\ compare_seq_to_dataset silent_align [""; "  "] config_py
                            default_compare_params (poly "A" 140) no_outputs
     = (ok FOUND_INVALID_MATCH,
        {| wo_primers := []; with_primers := [];
           debug_file := [DbgNoValidSequence] |}).
Proof.
  assert (Hblank : Forall (fun line => strip line = "") [""; "  "])
    by (repeat constructor).
  split; [exact Hblank|].
  exact (validator_blank_dataset silent_align [""; "  "] config_py
           default_compare_params (poly "A" 140) no_outputs Hblank).
Defined.

(** X19. When the aligner yields no alignment for the index prefixes of
    the candidate and of the first entry of the dataset that is not blank,
    the validator raises [IndexError] (from [align(...)[0]]) and writes
    nothing, whatever follows that entry. *)
Theorem validator_no_alignment_raises :
  forall (align : PairwiseAligner -> string -> string -> list Alignment)
         (cfg : Config) (compare_params : CompareParams) (candidate : string)
         (blank_lines : list string) (entry : string) (after : list string)
         (o : Outputs),
    Forall (fun line => strip line = "") blank_lines ->
    strip entry <> "" ->
    align (cp_aligner compare_params)
          (slice_to candidate (INDEX_LEN cfg))
          (slice_to (strip entry) (INDEX_LEN cfg)) = [] ->
    compare_seq_to_dataset align (blank_lines ++ entry :: after) cfg
                           compare_params candidate o
    = (raise IndexError, o).
Proof.
  intros align cfg compare_params candidate blank_lines entry after o
         Hblank Hentry Halign.
  unfold compare_seq_to_dataset, read_sequences_from_data_set.
  induction Hblank as [| line rest Hline _ IH].
  - cbn [app map compare_loop].
    assert (E : (len (strip entry) =? 0) = false).
    { apply Z.eqb_neq. intros H. now apply len_zero_iff in H. }
    rewrite E. unfold bind, lift. rewrite Halign. reflexivity.
  - cbn [app map compare_loop]. rewrite (strip_blank_len _ Hline). exact IH.
Qed.

Lemma validator_no_alignment_raises_witness :
  compare_seq_to_dataset silent_align ([" "] ++ "ACGT" :: ["TTTT"]) config_py
                         default_compare_params (poly "A" 140) no_outputs
  = (raise IndexError, no_outputs).
Proof.
  apply validator_no_alignment_raises.
  - repeat constructor.
  - vm_compute. discriminate.
  - reflexivity.
Defined.

(** ** The aggregate of a run (main_sequence_filtering.py) *)

(** X20. The aggregate statistics [run_filtering] returns are the sums of
    the file statistics it returns beside them, counter by counter; the
    loss field is left at [INVALID_FIELD]; and outside of machine-learning
    mode both results are empty. *)
Theorem run_filtering_aggregate_is_sum :
  forall (align : PairwiseAligner -> string -> string -> list Alignment)
         (data_set_file : list string) (cfg : Config)
         (as_completed : list (result Statistics * Outputs) ->
                         list (result Statistics * Outputs))
         (scores : Scores) (input_dir : list FastqFile),
    let eval_stats :=
      fst (run_filtering align data_set_file cfg as_completed scores
                         input_dir) in
    let file_stats_list :=
      snd (run_filtering align data_set_file cfg as_completed scores
                         input_dir) in
    seq_count eval_stats = total seq_count file_stats_list
    /\ filtered_out_count eval_stats = total filtered_out_count file_stats_list
    /\ valid_seq_count eval_stats = total valid_seq_count file_stats_list
    /\ invalid_seq_count eval_stats = total invalid_seq_count file_stats_list
    /\ loss eval_stats = INVALID_FIELD
    /\ (MACHINE_LEARNING_MODE cfg = false ->
        eval_stats = Statistics_init /\ file_stats_list = []).
Proof.
  intros align data_set_file cfg as_completed scores input_dir.
  unfold run_filtering. cbn [set_aligner_parameters].
  destruct (MACHINE_LEARNING_MODE cfg).
  - match goal with
    | |- context [fold_left collect_future ?l (?e, ?s)] =>
        pose proof (fold_collect_future_sums l e s) as H
    end.
    cbv zeta in *. destruct H as (H0 & H1 & H2 & H3 & H4 & H5 & _).
    rewrite H0, H1, H2, H3, H4, H5. cbn [app].
    repeat split; try reflexivity; discriminate.
  - cbv zeta. cbn. repeat split; reflexivity.
Qed.

Lemma sound_statistics_determined_by_counters s1 s2 :
  sound_statistics s1 -> sound_statistics s2 ->
  seq_count s1 = seq_count s2 ->
  filtered_out_count s1 = filtered_out_count s2 ->
  valid_seq_count s1 = valid_seq_count s2 ->
  invalid_seq_count s1 = invalid_seq_count s2 ->
  loss s1 = loss s2 ->
  file_name s1 = file_name s2 ->
  s1 = s2.
Proof.
  intros (_ & _ & _ & _ & P1) (_ & _ & _ & _ & P2).
  unfold percent_as_reported in *.
  destruct s1, s2. cbn in *. intros; subst. reflexivity.
Qed.

(** X21. The aggregate statistics of a run do not depend on the order in
    which the files complete: when every file that was submitted completes
    exactly once, [run_filtering] returns the aggregate it returns when the
    files complete in the order of submission, and the same file
    statistics up to their order. *)
Theorem run_filtering_order_independent :
  forall (align : PairwiseAligner -> string -> string -> list Alignment)
         (data_set_file : list string) (cfg : Config)
         (as_completed : list (result Statistics * Outputs) ->
                         list (result Statistics * Outputs))
         (scores : Scores) (input_dir : list FastqFile),
    (forall futures, Permutation (as_completed futures) futures) ->
    fst (run_filtering align data_set_file cfg as_completed scores input_dir)
    = fst (run_filtering align data_set_file cfg completed_in_order scores
                         input_dir)
    /\ Permutation
         (snd (run_filtering align data_set_file cfg as_completed scores
                             input_dir))
         (snd (run_filtering align data_set_file cfg completed_in_order scores
                             input_dir)).
Proof.
  intros align data_set_file cfg as_completed scores input_dir Hperm.
  assert (Hincl : forall futures, incl (as_completed futures) futures).
  { intros futures future Hin. exact (Permutation_in _ (Hperm futures) Hin). }
  assert (Hid : forall futures, incl (completed_in_order futures) futures)
    by (intros futures future Hin; exact Hin).
  pose proof (run_filtering_sound align data_set_file cfg as_completed scores
                                  input_dir Hincl) as S1.
  pose proof (run_filtering_sound align data_set_file cfg completed_in_order
                                  scores input_dir Hid) as S2.
  revert S1 S2. unfold run_filtering. cbn [set_aligner_parameters].
  destruct (MACHINE_LEARNING_MODE cfg); [|intros _ _; split; reflexivity].
  match goal with
  | |- context [fold_left collect_future (as_completed ?l) (?e, ?s)] =>
      pose proof (fold_collect_future_sums (as_completed l) e s) as H1;
      pose proof (fold_collect_future_sums (completed_in_order l) e s) as H2;
      pose proof (Hperm l) as Hl
  end.
  cbv zeta in H1, H2.
  destruct H1 as (A0 & A1 & A2 & A3 & A4 & A5 & A6).
  destruct H2 as (B0 & B1 & B2 & B3 & B4 & B5 & B6).
  assert (Hstats : Permutation (completed_stats (as_completed _))
                               (completed_stats _))
    by (unfold completed_stats; apply Permutation_flat_map; exact Hl).
  intros S1 S2. split.
  - apply sound_statistics_determined_by_counters; try assumption.
    + rewrite A1, B1. f_equal. now apply total_Permutation.
    + rewrite A2, B2. f_equal. now apply total_Permutation.
    + rewrite A3, B3. f_equal. now apply total_Permutation.
    + rewrite A4, B4. f_equal. now apply total_Permutation.
    + now rewrite A5, B5.
    + now rewrite A6, B6.
  - rewrite A0, B0. cbn [app]. exact Hstats.
Qed.

Lemma run_filtering_order_independent_witness :
  (forall futures, Permutation (completed_last_first futures) futures)
  /\ fst (run_filtering exact_align poly_C_data_set config_py
                        completed_last_first DEFAULT_SCORES
                        (sample_dir ++ sample_dir))
     = fst (run_filtering exact_align poly_C_data_set config_py
                          completed_in_order DEFAULT_SCORES
                          (sample_dir ++ sample_dir)).
Proof.
  assert (Hperm : forall futures,
             Permutation (completed_last_first futures) futures)
    by (intros futures; symmetry; apply Permutation_rev).
  split; [exact Hperm|].
  exact (proj1 (run_filtering_order_independent exact_align poly_C_data_set
                  config_py completed_last_first DEFAULT_SCORES
                  (sample_dir ++ sample_dir) Hperm)).
Defined.

(** ** One trial (learning_algorithm.py, learning_helper_functions.py) *)

(** X22. One trial (its directories and charts left aside) either returns
    or raises [AssertionError], nothing else. When the aggregate [seq_count] of the run is positive it returns
    the status [ok], the run's [percent_filtered], which lies in
    [[0, 100]], and a loss in [[0, 200]] that is at least 100 when
    [percent_filtered] is above the naive baseline and at most 100
    otherwise; when the aggregate [seq_count] is 0 it raises
    [AssertionError]. *)
Theorem objective_outcome :
  forall (align : PairwiseAligner -> string -> string -> list Alignment)
         (data_set_file : list string) (cfg : Config)
         (as_completed : list (result Statistics * Outputs) ->
                         list (result Statistics * Outputs))
         (input_dir : list FastqFile) (params : Scores)
         (naive_percent_filtered : Q),
    (forall futures, incl (as_completed futures) futures) ->
    let eval_stats :=
      fst (run_filtering align data_set_file cfg as_completed params
                         input_dir) in
    let trial :=
      objective align data_set_file cfg as_completed input_dir params
                naive_percent_filtered in
    (0 < seq_count eval_stats ->
     exists loss,
       trial = ok {| tr_loss := loss;
                     tr_percent_filtered := percent_filtered eval_stats;
                     tr_status := "ok" |}
       /\ (0 <= loss /\ loss <= 200)%Q
       /\ is_percentage (percent_filtered eval_stats)
       /\ ((naive_percent_filtered < percent_filtered eval_stats)%Q ->
           (100 <= loss)%Q)
       /\ (~ (naive_percent_filtered < percent_filtered eval_stats)%Q ->
           (loss <= 100)%Q))
    /\ (seq_count eval_stats = 0 -> trial = raise AssertionError)
    /\ (0 <= seq_count eval_stats)
    /\ (forall e, trial = raise e -> e = AssertionError).
Proof.
  intros align data_set_file cfg as_completed input_dir params naive Hincl
         eval_stats trial.
  pose proof (run_filtering_sound align data_set_file cfg as_completed params
                                  input_dir Hincl) as Hsound.
  fold eval_stats in Hsound.
  assert (Htrial : trial
                   = rbind (score_comparison naive eval_stats)
                       (fun loss =>
                          ok {| tr_loss := loss;
                                tr_percent_filtered := percent_filtered eval_stats;
                                tr_status := "ok" |})).
  { subst trial eval_stats. unfold objective.
    destruct params. cbn [s_match_score s_mismatch_score s_open_gap_score
                          s_extend_gap_score].
    destruct (run_filtering _ _ _ _ _ _). reflexivity. }
  pose proof (sound_statistics_percentage _ Hsound) as Hpct.
  destruct Hsound as (Hf & Hv & Hi & Hsum & _).
  unfold counters_partition in Hsum.
  split; [|split; [|split]].
  - intros Hpos.
    destruct (score_comparison_loss naive eval_stats) as (loss & Hl & Hpen & Hno);
      [lia|].
    exists loss. rewrite Htrial, Hl. split; [reflexivity|].
    destruct (share_is_percentage (invalid_seq_count eval_stats)
                                  (seq_count eval_stats)) as [S0 S1];
      [lia | lia |].
    destruct (Qlt_le_dec naive (percent_filtered eval_stats)) as [Hlt | Hge].
    + specialize (Hpen Hlt).
      repeat split; try exact (proj1 Hpct); try exact (proj2 Hpct);
        try (intros; lra).
    + assert (Hn : ~ (naive < percent_filtered eval_stats)%Q)
        by (intros Hlt; exact (Qlt_not_le _ _ Hlt Hge)).
      specialize (Hno Hn).
      repeat split; try exact (proj1 Hpct); try exact (proj2 Hpct);
        try (intros; lra).
  - intros Hzero. rewrite Htrial. unfold score_comparison. rewrite Hzero.
    reflexivity.
  - lia.
  - intros e. rewrite Htrial. unfold score_comparison.
    destruct (seq_count eval_stats >? 0); cbn [rbind ok raise].
    + discriminate.
    + intros H. now injection H as <-.
Qed.

Lemma objective_outcome_witness :
  (forall futures, incl (completed_last_first futures) futures)
  /\ objective exact_align poly_C_data_set config_py completed_last_first
               sample_dir DEFAULT_SCORES 25
     = ok {| tr_loss := 300 # 2;
             tr_percent_filtered := 100 # 2;
             tr_status := "ok" |}
  /\ (forall e,
         objective exact_align poly_C_data_set config_py completed_last_first
                   sample_dir DEFAULT_SCORES 25 = raise e ->
         e = AssertionError).
Proof.
  assert (Hsubset : forall futures, incl (completed_last_first futures) futures).
  { intros futures future Hin. now apply in_rev in Hin. }
  split; [exact Hsubset|]. split; [vm_compute; reflexivity|].
  exact (proj2 (proj2 (proj2
           (objective_outcome exact_align poly_C_data_set config_py
              completed_last_first sample_dir DEFAULT_SCORES 25 Hsubset)))).
Defined.

(** ** Pie charts (learning_helper_functions.py) *)

(** X23. For the counters of statistics that [process_file] or
    [run_filtering] return, [calculate_pie_sizes] gives no slice when
    [seq_count] is 0 and otherwise three slices, the share of each counter
    in [seq_count] times 100, each in [[0, 100]], of which the first is the
    statistics' [percent_filtered] (the same quotient and product, so the
    same float). *)
Theorem calculate_pie_sizes_of_statistics :
  forall stats : Statistics,
    sound_statistics stats ->
    let sizes :=
      calculate_pie_sizes (filtered_out_count stats) (valid_seq_count stats)
                          (invalid_seq_count stats) in
    (seq_count stats = 0 -> sizes = [])
    /\ (seq_count stats <> 0 ->
        sizes
        = [percent_filtered stats;
           (inject_Z (valid_seq_count stats) / inject_Z (seq_count stats)
            * 100)%Q;
           (inject_Z (invalid_seq_count stats) / inject_Z (seq_count stats)
            * 100)%Q]
        /\ Forall is_percentage sizes).
Proof.
  intros stats Hsound sizes.
  pose proof (sound_statistics_percentage _ Hsound) as Hpct.
  destruct Hsound as (Hf & Hv & Hi & Hsum & Hrep).
  unfold counters_partition in Hsum. unfold percent_as_reported in Hrep.
  assert (Htotal : sum_Z [filtered_out_count stats; valid_seq_count stats;
                          invalid_seq_count stats] = seq_count stats)
    by (unfold sum_Z; cbn [fold_left]; lia).
  subst sizes. unfold calculate_pie_sizes. cbv zeta. rewrite Htotal.
  split.
  - intros ->. reflexivity.
  - intros Hnz.
    assert (E : (seq_count stats =? 0) = false) by now apply Z.eqb_neq.
    rewrite E in *. cbn [map]. rewrite <- Hrep.
    split; [reflexivity|].
    repeat constructor; try exact (proj1 Hpct); try exact (proj2 Hpct);
      apply share_is_percentage; lia.
Qed.

Lemma calculate_pie_sizes_of_statistics_witness :
  sound_statistics
    {| seq_count := 3; filtered_out_count := 1; valid_seq_count := 1;
       invalid_seq_count := 1; percent_filtered := 1 / 3 * 100;
       loss := INVALID_FIELD; file_name := "" |}
  /\ calculate_pie_sizes 1 1 1
     = [(1 / 3 * 100)%Q; (1 / 3 * 100)%Q; (1 / 3 * 100)%Q]
  /\ Forall is_percentage (calculate_pie_sizes 1 1 1).
Proof.
  assert (Hsound :
            sound_statistics
              {| seq_count := 3; filtered_out_count := 1; valid_seq_count := 1;
                 invalid_seq_count := 1; percent_filtered := 1 / 3 * 100;
                 loss := INVALID_FIELD; file_name := "" |})
    by (repeat split; cbn; lia).
  split; [exact Hsound|].
  apply (proj2 (calculate_pie_sizes_of_statistics _ Hsound)).
  cbn. lia.
Defined.

(** ** Results do not depend on the streams *)

Lemma same_result_ret {A : Type} (a : A) : same_result (ret a) (ret a).
Proof. intros o1 o2. reflexivity. Qed.

Lemma same_result_lift {A : Type} (r : result A) :
  same_result (lift r) (lift r).
Proof. intros o1 o2. reflexivity. Qed.

Lemma same_result_bind {A B : Type} (m1 m2 : M A) (k1 k2 : A -> M B) :
  same_result m1 m2 ->
  (forall a, same_result (k1 a) (k2 a)) ->
  same_result (bind m1 k1) (bind m2 k2).
Proof.
  intros Hm Hk o1 o2. unfold bind. specialize (Hm o1 o2).
  destruct (m1 o1) as [[e1 | a1] o1'], (m2 o2) as [[e2 | a2] o2'];
    cbn [fst] in Hm; try discriminate.
  - injection Hm as <-. reflexivity.
  - injection Hm as <-. apply Hk.
Qed.

Lemma only_writes_write_debug msg : only_writes (write_debug msg).
Proof. intros o. reflexivity. Qed.

Lemma only_writes_write_wo line : only_writes (write_wo_primers line).
Proof. intros o. reflexivity. Qed.

Lemma only_writes_write_with line : only_writes (write_with_primers line).
Proof. intros o. reflexivity. Qed.

Lemma only_writes_seq (m1 m2 : M unit) :
  only_writes m1 -> only_writes m2 -> only_writes (m1 ;;; m2).
Proof.
  intros H1 H2 o. unfold bind. specialize (H1 o).
  destruct (m1 o) as [[e | []] o']; cbn [fst] in H1; [discriminate|].
  apply H2.
Qed.

Lemma only_writes_when b (m : M unit) : only_writes m -> only_writes (when b m).
Proof. intros H o. destruct b; [apply H | reflexivity]. Qed.

Lemma same_result_only_writes (m1 m2 : M unit) :
  only_writes m1 -> only_writes m2 -> same_result m1 m2.
Proof. intros H1 H2 o1 o2. now rewrite H1, H2. Qed.

Create HintDb streams.

#[local] Hint Resolve only_writes_write_debug only_writes_write_wo
  only_writes_write_with only_writes_seq only_writes_when : streams.

Ltac same_result_step :=
  first
    [ solve [auto 2 with streams nocore]
    | apply same_result_ret
    | apply same_result_lift
    | apply same_result_only_writes; [auto with streams | auto with streams]
    | apply same_result_bind; [|intros ?]
    | match goal with
      | |- same_result (if ?b then _ else _) (if ?b then _ else _) =>
          destruct b
      | |- same_result (match ?x with _ => _ end) (match ?x with _ => _ end) =>
          destruct x
      end ].

Section Oblivious.

Variable align : PairwiseAligner -> string -> string -> list Alignment.
Variable data_set_file : list string.
Variable cfg : Config.

Lemma compare_seq_to_dataset_same_result compare_params sequence :
  same_result
    (compare_seq_to_dataset align data_set_file cfg compare_params sequence)
    (compare_seq_to_dataset align data_set_file cfg compare_params sequence).
Proof.
  unfold compare_seq_to_dataset. cbv zeta.
  induction read_sequences_from_data_set as [| data_set_seq rest IH];
    cbn [compare_loop]; repeat same_result_step.
Qed.

#[local] Hint Resolve compare_seq_to_dataset_same_result : streams.

Lemma emit_candidate_same_result compare_params is_reversed
      seq_without_primers seq_with_primers :
  same_result
    (emit_candidate align data_set_file cfg compare_params is_reversed
                    seq_without_primers seq_with_primers)
    (emit_candidate align data_set_file cfg compare_params is_reversed
                    seq_without_primers seq_with_primers).
Proof.
  unfold emit_candidate; repeat same_result_step.
Qed.

#[local] Hint Resolve emit_candidate_same_result : streams.

Lemma search_both_primers_inner_same_result f_align backs sequence
      compare_params is_reversed :
  same_result
    (search_both_primers_inner align data_set_file cfg f_align backs sequence
                               compare_params is_reversed)
    (search_both_primers_inner align data_set_file cfg f_align backs sequence
                               compare_params is_reversed).
Proof.
  induction backs as [| b_align rest IH]; cbn [search_both_primers_inner];
    repeat same_result_step.
Qed.

#[local] Hint Resolve search_both_primers_inner_same_result : streams.

Lemma search_both_primers_helper_same_result valid_alignments sequence
      compare_params is_reversed :
  same_result
    (search_both_primers_helper align data_set_file cfg valid_alignments
                                sequence compare_params is_reversed)
    (search_both_primers_helper align data_set_file cfg valid_alignments
                                sequence compare_params is_reversed).
Proof.
  unfold search_both_primers_helper.
  induction (va_front valid_alignments) as [| f_align rest IH];
    cbn [search_both_primers_outer]; repeat same_result_step.
Qed.

#[local] Hint Resolve search_both_primers_helper_same_result : streams.

Lemma search_single_front_primer_helper_same_result fronts sequence
      compare_params is_reversed :
  same_result
    (search_single_front_primer_helper align data_set_file cfg fronts sequence
                                       compare_params is_reversed)
    (search_single_front_primer_helper align data_set_file cfg fronts sequence
                                       compare_params is_reversed).
Proof.
  induction fronts as [| f_align rest IH];
    cbn [search_single_front_primer_helper]; repeat same_result_step.
Qed.

#[local] Hint Resolve search_single_front_primer_helper_same_result : streams.

Lemma search_single_back_primer_helper_same_result backs sequence
      compare_params is_reversed :
  same_result
    (search_single_back_primer_helper align data_set_file cfg backs sequence
                                      compare_params is_reversed)
    (search_single_back_primer_helper align data_set_file cfg backs sequence
                                      compare_params is_reversed).
Proof.
  induction backs as [| b_align rest IH];
    cbn [search_single_back_primer_helper]; repeat same_result_step.
Qed.

#[local] Hint Resolve search_single_back_primer_helper_same_result : streams.

Lemma search_seq_and_write_same_result aligner min_valid_score compare_params
      sequence :
  same_result
    (search_seq_and_write align data_set_file cfg aligner min_valid_score
                          compare_params sequence)
    (search_seq_and_write align data_set_file cfg aligner min_valid_score
                          compare_params sequence).
Proof.
  unfold search_seq_and_write, alignment_stages, search_exact_match,
    search_both_primers, search_single_primer.
  repeat same_result_step.
Qed.

Lemma classify_reads_same_result aligner min_valid_score compare_params reads :
  forall counts,
    same_result
      (classify_reads align data_set_file cfg aligner min_valid_score
                      compare_params reads counts)
      (classify_reads align data_set_file cfg aligner min_valid_score
                      compare_params reads counts).
Proof.
  induction reads as [| seq_input rest IH]; intros [[f v] i];
    cbn [classify_reads].
  - apply same_result_ret.
  - apply same_result_bind; [apply search_seq_and_write_same_result|].
    intros res. apply IH.
Qed.

Lemma process_file_body_same_result file_index file_index' fastq_file aligner
      min_valid_score compare_aligner compare_min_valid_score :
  same_result
    (process_file_body align data_set_file cfg file_index fastq_file aligner
                       min_valid_score compare_aligner compare_min_valid_score)
    (process_file_body align data_set_file cfg file_index' fastq_file aligner
                       min_valid_score compare_aligner compare_min_valid_score).
Proof.
  unfold process_file_body. cbv zeta.
  apply same_result_bind; [apply same_result_lift|].
  intros [seq_dict n].
  apply same_result_bind;
    [apply same_result_only_writes; auto with streams|].
  intros _.
  apply same_result_bind; [apply classify_reads_same_result|].
  intros [[filtered valid] invalid].
  apply same_result_bind;
    [apply same_result_only_writes; auto with streams|].
  intros _. destruct (MACHINE_LEARNING_MODE cfg); apply same_result_ret.
Qed.

End Oblivious.

(** X24. What a call returns or raises does not depend on what the
    streams already hold, and the statistics of a file do not depend on
    the index it is processed under: [search_seq_and_write] gives the same
    outcome from any two states of the streams, and [process_file] gives
    the same statistics (or the same exception) under any two indices. *)
Theorem outcome_ignores_streams_and_index :
  forall (align : PairwiseAligner -> string -> string -> list Alignment)
         (data_set_file : list string) (cfg : Config)
         (aligner : PairwiseAligner) (min_valid_score : Q)
         (compare_params : CompareParams),
    (forall sequence o1 o2,
        fst (search_seq_and_write align data_set_file cfg aligner
                                  min_valid_score compare_params sequence o1)
        = fst (search_seq_and_write align data_set_file cfg aligner
                                    min_valid_score compare_params sequence o2))
    /\ (forall fastq_file file_index file_index',
           fst (process_file align data_set_file cfg file_index fastq_file
                             aligner min_valid_score
                             (cp_aligner compare_params)
                             (cp_min_valid_score compare_params))
           = fst (process_file align data_set_file cfg file_index' fastq_file
                               aligner min_valid_score
                               (cp_aligner compare_params)
                               (cp_min_valid_score compare_params))).
Proof.
  intros align data_set_file cfg aligner min_valid_score compare_params.
  split.
  - intros sequence. apply search_seq_and_write_same_result.
  - intros fastq_file file_index file_index'. unfold process_file.
    apply process_file_body_same_result.
Qed.

(** ** A file that fails (main_sequence_filtering.py) *)

Lemma fold_collect_future_completed futures : forall acc,
  fold_left collect_future futures acc
  = fold_left (fun acc file_stats =>
                 collect_future acc (inr file_stats, no_outputs))
              (completed_stats futures) acc.
Proof.
  induction futures as [| [[exc | file_stats] out] rest IH]; intros acc.
  - reflexivity.
  - change (completed_stats ((inl exc, out) :: rest))
      with (completed_stats rest).
    cbn [fold_left]. rewrite <- IH. f_equal. destruct acc. reflexivity.
  - change (completed_stats ((inr file_stats, out) :: rest))
      with (file_stats :: completed_stats rest).
    cbn [fold_left]. rewrite <- IH. f_equal.
Qed.

Lemma enumerate_from_app {A : Type} (l1 l2 : list A) : forall i,
  enumerate_from i (l1 ++ l2)
  = enumerate_from i l1 ++ enumerate_from (i + Z.of_nat (List.length l1)) l2.
Proof.
  induction l1 as [| x l1 IH]; intros i.
  - cbn. now rewrite Z.add_0_r.
  - cbn [app enumerate_from List.length]. rewrite IH.
    replace (i + Z.of_nat (S (List.length l1)))
      with (i + 1 + Z.of_nat (List.length l1)) by lia.
    reflexivity.
Qed.

Section FailedFile.

Variable align : PairwiseAligner -> string -> string -> list Alignment.
Variable data_set_file : list string.
Variable cfg : Config.
Variable scores : Scores.

Lemma submitted_futures_app l1 l2 i :
  submitted_futures align data_set_file cfg scores i (l1 ++ l2)
  = submitted_futures align data_set_file cfg scores i l1
    ++ submitted_futures align data_set_file cfg scores
                         (i + Z.of_nat (List.length l1)) l2.
Proof.
  unfold submitted_futures. cbn [set_aligner_parameters].
  now rewrite enumerate_from_app, filter_app, map_app.
Qed.

Lemma completed_stats_app l1 l2 :
  completed_stats (l1 ++ l2) = completed_stats l1 ++ completed_stats l2.
Proof. unfold completed_stats. apply flat_map_app. Qed.

(** The statistics of the files that complete do not depend on the
    indices of the files. *)
Lemma completed_stats_index files : forall i j,
  completed_stats (submitted_futures align data_set_file cfg scores i files)
  = completed_stats (submitted_futures align data_set_file cfg scores j files).
Proof.
  unfold submitted_futures. cbn [set_aligner_parameters].
  induction files as [| file rest IH]; intros i j; [reflexivity|].
  cbn [enumerate_from filter].
  destruct (endswith (fastq_name file) ".fastq"); [|apply IH].
  cbn [map]. unfold completed_stats in *. cbn [flat_map].
  rewrite (IH (i + 1) (j + 1)). f_equal.
  unfold process_file.
  now rewrite (process_file_body_same_result align data_set_file cfg
                 (i + 1) (j + 1) file _ _ _ _ no_outputs no_outputs).
Qed.

Lemma completed_stats_failed file i :
  file_fails align data_set_file cfg scores file ->
  completed_stats (submitted_futures align data_set_file cfg scores i [file])
  = [].
Proof.
  unfold submitted_futures, file_fails. cbn [set_aligner_parameters fst snd].
  cbn [enumerate_from filter].
  intros [Hname | [exc Hraise]].
  - rewrite Hname. reflexivity.
  - destruct (endswith (fastq_name file) ".fastq"); [|reflexivity].
    cbn [map]. unfold completed_stats. cbn [flat_map].
    unfold process_file in *.
    rewrite (process_file_body_same_result align data_set_file cfg
               (i + 1) 1 file _ _ _ _ no_outputs no_outputs).
    rewrite Hraise. reflexivity.
Qed.

End FailedFile.

(** X25. A file that fails is left out and changes nothing else: when a
    file of the directory is not a [.fastq] file, or processing it raises
    an exception, [run_filtering] (with the files completing in the order
    of submission) returns for the directory exactly what it returns for
    the directory without that file. *)
Theorem run_filtering_skips_failed_file :
  forall (align : PairwiseAligner -> string -> string -> list Alignment)
         (data_set_file : list string) (cfg : Config) (scores : Scores)
         (before : list FastqFile) (failed : FastqFile)
         (after : list FastqFile),
    file_fails align data_set_file cfg scores failed ->
    run_filtering align data_set_file cfg completed_in_order scores
                  (before ++ failed :: after)
    = run_filtering align data_set_file cfg completed_in_order scores
                    (before ++ after).
Proof.
  intros align data_set_file cfg scores before failed after Hfails.
  assert (Hrun : forall input_dir,
             run_filtering align data_set_file cfg completed_in_order scores
                           input_dir
             = if MACHINE_LEARNING_MODE cfg
               then fold_left collect_future
                      (submitted_futures align data_set_file cfg scores 0
                                         input_dir)
                      (Statistics_init, [])
               else (Statistics_init, [])).
  { intros input_dir. unfold run_filtering, submitted_futures,
      completed_in_order. cbn [set_aligner_parameters]. reflexivity. }
  rewrite !Hrun. destruct (MACHINE_LEARNING_MODE cfg); [|reflexivity].
  rewrite !fold_collect_future_completed. f_equal.
  change (failed :: after) with ([failed] ++ after).
  rewrite !submitted_futures_app, !completed_stats_app.
  rewrite (completed_stats_failed _ _ _ _ _ _ Hfails). cbn [app].
  f_equal. apply completed_stats_index.
Qed.

Lemma run_filtering_skips_failed_file_witness :
  file_fails exact_align poly_C_data_set config_py DEFAULT_SCORES
             {| fastq_name := "bad.fastq";
                fastq_lines := ["@r1"; "ACGT"; "+"; ""] |}
  /\ run_filtering exact_align poly_C_data_set config_py completed_in_order
                   DEFAULT_SCORES
                   ([] ++ {| fastq_name := "bad.fastq";
                             fastq_lines := ["@r1"; "ACGT"; "+"; ""] |}
                       :: sample_dir)
     = run_filtering exact_align poly_C_data_set config_py completed_in_order
                     DEFAULT_SCORES ([] ++ sample_dir).
Proof.
  assert (Hfails :
            file_fails exact_align poly_C_data_set config_py DEFAULT_SCORES
                       {| fastq_name := "bad.fastq";
                          fastq_lines := ["@r1"; "ACGT"; "+"; ""] |}).
  { right. exists ZeroDivisionError. vm_compute. reflexivity. }
  split; [exact Hfails|].
  exact (run_filtering_skips_failed_file exact_align poly_C_data_set config_py
           DEFAULT_SCORES [] _ sample_dir Hfails).
Defined.
